(** * pWork-OS: document codec, section extractor, aggregator and merge engine

    A shallow embedding of the TypeScript sources
    [src/core/aggregator.ts], [src/core/parser.ts], [src/core/schema.ts]
    and [src/weekly/index.ts], followed by the properties of the
    natural-language specification that were checked against them.

    JavaScript strings are sequences of UTF-16 code units; they are modelled
    as [list N].  String literals of the program are written as Rocq string
    literals (UTF-8) and decoded once by [u]. *)

From Stdlib Require Import List NArith ZArith Lia Bool String Ascii.
From Stdlib Require Import Sorted Permutation.
From stdpp Require Import gmap.
Import ListNotations.

Local Open Scope N_scope.
Local Open Scope list_scope.

(* ===================================================================== *)
(** ** JavaScript strings *)
(* ===================================================================== *)

Module JS.

(** A string value: UTF-16 code units. *)
Definition jsstring := list N.

(** *** Literals: UTF-8 bytes of a Rocq literal to UTF-16 code units *)

Fixpoint utf8_points (bs : list N) (need : nat) (acc : N) : list N :=
  match bs with
  | [] => []
  | b :: bs' =>
    match need with
    | O =>
      if b <? 128 then b :: utf8_points bs' 0 0
      else if b <? 224 then utf8_points bs' 1 (b - 192)
      else if b <? 240 then utf8_points bs' 2 (b - 224)
      else utf8_points bs' 3 (b - 240)
    | S O => (acc * 64 + (b - 128)) :: utf8_points bs' 0 0
    | S n => utf8_points bs' n (acc * 64 + (b - 128))
    end
  end.

Definition utf16_units (cp : N) : list N :=
  if cp <? 65536 then [cp]
  else [55296 + (cp - 65536) / 1024; 56320 + (cp - 65536) mod 1024].

Definition u (s : string) : jsstring :=
  flat_map utf16_units
    (utf8_points (List.map N_of_ascii (list_ascii_of_string s)) 0 0).

(** *** Character classes of the regular-expression engine *)

Definition c_nl : N := 10.      (* \n *)
Definition c_hash : N := 35.    (* # *)

(** ECMAScript LineTerminator: the characters [.] does not match and before
    which a multi-line [$] matches. *)
Definition isLineTerminator (c : N) : bool :=
  (c =? 10) || (c =? 13) || (c =? 8232) || (c =? 8233).

(** ECMAScript [\s], which is also the set [String.prototype.trim]
    strips: WhiteSpace and LineTerminator. *)
Definition isSpace (c : N) : bool :=
  ((9 <=? c) && (c <=? 13)) || (c =? 32) || (c =? 160) || (c =? 5760)
  || ((8192 <=? c) && (c <=? 8202)) || (c =? 8232) || (c =? 8233)
  || (c =? 8239) || (c =? 8287) || (c =? 12288) || (c =? 65279).

(** The upper case of the code units that have one, as
    [String.prototype.toUpperCase] gives it for a string of that one code
    unit (Unicode 14, Basic Multilingual Plane): the units from [first] to
    [last] in steps of [step] map to [target], [target + step], ...  A code
    unit whose upper case takes more than one unit, and a unit above 127
    whose upper case is below 128, are left out. *)
Definition upperRuns : list (N * N * N * N) :=
  [(97, 122, 1, 65); (181, 181, 1, 924); (224, 246, 1, 192);
   (248, 254, 1, 216); (255, 255, 1, 376); (257, 303, 2, 256);
   (307, 311, 2, 306); (314, 328, 2, 313); (331, 375, 2, 330);
   (378, 382, 2, 377); (384, 384, 1, 579); (387, 389, 2, 386);
   (392, 392, 1, 391); (396, 396, 1, 395); (402, 402, 1, 401);
   (405, 405, 1, 502); (409, 409, 1, 408); (410, 410, 1, 573);
   (414, 414, 1, 544); (417, 421, 2, 416); (424, 424, 1, 423);
   (429, 429, 1, 428); (432, 432, 1, 431); (436, 438, 2, 435);
   (441, 441, 1, 440); (445, 445, 1, 444); (447, 447, 1, 503);
   (453, 453, 1, 452); (454, 454, 1, 452); (456, 456, 1, 455);
   (457, 457, 1, 455); (459, 459, 1, 458); (460, 460, 1, 458);
   (462, 476, 2, 461); (477, 477, 1, 398); (479, 495, 2, 478);
   (498, 498, 1, 497); (499, 499, 1, 497); (501, 501, 1, 500);
   (505, 543, 2, 504); (547, 563, 2, 546); (572, 572, 1, 571);
   (575, 576, 1, 11390); (578, 578, 1, 577); (583, 591, 2, 582);
   (592, 592, 1, 11375); (593, 593, 1, 11373); (594, 594, 1, 11376);
   (595, 595, 1, 385); (596, 596, 1, 390); (598, 599, 1, 393);
   (601, 601, 1, 399); (603, 603, 1, 400); (604, 604, 1, 42923);
   (608, 608, 1, 403); (609, 609, 1, 42924); (611, 611, 1, 404);
   (613, 613, 1, 42893); (614, 614, 1, 42922); (616, 616, 1, 407);
   (617, 617, 1, 406); (618, 618, 1, 42926); (619, 619, 1, 11362);
   (620, 620, 1, 42925); (623, 623, 1, 412); (625, 625, 1, 11374);
   (626, 626, 1, 413); (629, 629, 1, 415); (637, 637, 1, 11364);
   (640, 640, 1, 422); (642, 642, 1, 42949); (643, 643, 1, 425);
   (647, 647, 1, 42929); (648, 648, 1, 430); (649, 649, 1, 580);
   (650, 651, 1, 433); (652, 652, 1, 581); (658, 658, 1, 439);
   (669, 669, 1, 42930); (670, 670, 1, 42928); (837, 837, 1, 921);
   (881, 883, 2, 880); (887, 887, 1, 886); (891, 893, 1, 1021);
   (940, 940, 1, 902); (941, 943, 1, 904); (945, 961, 1, 913);
   (962, 962, 1, 931); (963, 971, 1, 931); (972, 972, 1, 908);
   (973, 974, 1, 910); (976, 976, 1, 914); (977, 977, 1, 920);
   (981, 981, 1, 934); (982, 982, 1, 928); (983, 983, 1, 975);
   (985, 1007, 2, 984); (1008, 1008, 1, 922); (1009, 1009, 1, 929);
   (1010, 1010, 1, 1017); (1011, 1011, 1, 895); (1013, 1013, 1, 917);
   (1016, 1016, 1, 1015); (1019, 1019, 1, 1018); (1072, 1103, 1, 1040);
   (1104, 1119, 1, 1024); (1121, 1153, 2, 1120); (1163, 1215, 2, 1162);
   (1218, 1230, 2, 1217); (1231, 1231, 1, 1216); (1233, 1327, 2, 1232);
   (1377, 1414, 1, 1329); (4304, 4346, 1, 7312); (4349, 4351, 1, 7357);
   (5112, 5117, 1, 5104); (7296, 7296, 1, 1042); (7297, 7297, 1, 1044);
   (7298, 7298, 1, 1054); (7299, 7300, 1, 1057); (7301, 7301, 1, 1058);
   (7302, 7302, 1, 1066); (7303, 7303, 1, 1122); (7304, 7304, 1, 42570);
   (7545, 7545, 1, 42877); (7549, 7549, 1, 11363); (7566, 7566, 1, 42950);
   (7681, 7829, 2, 7680); (7835, 7835, 1, 7776); (7841, 7935, 2, 7840);
   (7936, 7943, 1, 7944); (7952, 7957, 1, 7960); (7968, 7975, 1, 7976);
   (7984, 7991, 1, 7992); (8000, 8005, 1, 8008); (8017, 8023, 2, 8025);
   (8032, 8039, 1, 8040); (8048, 8049, 1, 8122); (8050, 8053, 1, 8136);
   (8054, 8055, 1, 8154); (8056, 8057, 1, 8184); (8058, 8059, 1, 8170);
   (8060, 8061, 1, 8186); (8112, 8113, 1, 8120); (8126, 8126, 1, 921);
   (8144, 8145, 1, 8152); (8160, 8161, 1, 8168); (8165, 8165, 1, 8172);
   (8526, 8526, 1, 8498); (8560, 8575, 1, 8544); (8580, 8580, 1, 8579);
   (9424, 9449, 1, 9398); (11312, 11359, 1, 11264); (11361, 11361, 1, 11360);
   (11365, 11365, 1, 570); (11366, 11366, 1, 574); (11368, 11372, 2, 11367);
   (11379, 11379, 1, 11378); (11382, 11382, 1, 11381);
   (11393, 11491, 2, 11392); (11500, 11502, 2, 11499);
   (11507, 11507, 1, 11506); (11520, 11557, 1, 4256);
   (11559, 11559, 1, 4295); (11565, 11565, 1, 4301);
   (42561, 42605, 2, 42560); (42625, 42651, 2, 42624);
   (42787, 42799, 2, 42786); (42803, 42863, 2, 42802);
   (42874, 42876, 2, 42873); (42879, 42887, 2, 42878);
   (42892, 42892, 1, 42891); (42897, 42899, 2, 42896);
   (42900, 42900, 1, 42948); (42903, 42921, 2, 42902);
   (42933, 42947, 2, 42932); (42952, 42954, 2, 42951);
   (42961, 42961, 1, 42960); (42967, 42969, 2, 42966);
   (42998, 42998, 1, 42997); (43859, 43859, 1, 42931);
   (43888, 43967, 1, 5024); (65345, 65370, 1, 65313)].

Fixpoint upperOf (runs : list (N * N * N * N)) (c : N) : N :=
  match runs with
  | [] => c
  | (first, last, step, target) :: rest =>
    if (first <=? c) && (c <=? last) && ((c - first) mod step =? 0)
    then target + (c - first)
    else upperOf rest c
  end.

(** Canonicalisation of a code unit under the [i] flag of a regular
    expression without the [u] flag: its upper case when that is one code
    unit, except that a unit above 127 is never mapped below 128. *)
Definition canonicalize (c : N) : N := upperOf upperRuns c.
Arguments canonicalize : simpl never.

Definition ciEq (a b : N) : bool := canonicalize a =? canonicalize b.

(** *** String operations *)

Definition isEmpty (s : jsstring) : bool :=
  match s with [] => true | _ => false end.

(** Truthiness of a string: non-empty. *)
Definition truthy (s : jsstring) : bool := negb (isEmpty s).

Fixpoint eqb (a b : jsstring) : bool :=
  match a, b with
  | [], [] => true
  | x :: a', y :: b' => (x =? y) && eqb a' b'
  | _, _ => false
  end.

Fixpoint startsWith (pat s : jsstring) : bool :=
  match pat, s with
  | [], _ => true
  | p :: pat', c :: s' => (p =? c) && startsWith pat' s'
  | _ :: _, [] => false
  end.

(** [String.prototype.includes]. *)
Fixpoint includes (s pat : jsstring) : bool :=
  startsWith pat s ||
  match s with
  | [] => false
  | _ :: s' => includes s' pat
  end.

Definition endsWith (s pat : jsstring) : bool :=
  startsWith (rev pat) (rev s).

Fixpoint trimStart (s : jsstring) : jsstring :=
  match s with
  | [] => []
  | c :: s' => if isSpace c then trimStart s' else s
  end.

Fixpoint trimEnd (s : jsstring) : jsstring :=
  match s with
  | [] => []
  | c :: s' =>
    let r := trimEnd s' in
    if isSpace c && isEmpty r then [] else c :: r
  end.

Definition trim (s : jsstring) : jsstring := trimEnd (trimStart s).

(** [s.substring(0, n)] for an integer [n]: a negative end is taken as 0,
    an end beyond the length as the length. *)
Definition substring0 (s : jsstring) (n : Z) : jsstring :=
  firstn (Z.to_nat n) s.

(** [s.length]. *)
Definition len (s : jsstring) : Z := Z.of_nat (length s).

(** A string without a newline. *)
Definition noNewline (l : jsstring) : bool :=
  forallb (fun c => negb (c =? c_nl)) l.

(** [s.split('\n')]. *)
Fixpoint splitLines (s : jsstring) : list jsstring :=
  match s with
  | [] => [[]]
  | c :: s' =>
    if c =? c_nl then [] :: splitLines s'
    else match splitLines s' with
         | l :: ls => (c :: l) :: ls
         | [] => [[c]]
         end
  end.

(** [lines.join('\n')]. *)
Fixpoint joinLines (ls : list jsstring) : jsstring :=
  match ls with
  | [] => []
  | [l] => l
  | l :: ls' => l ++ c_nl :: joinLines ls'
  end.

(** [xs.join(sep)]. *)
Fixpoint joinWith (sep : jsstring) (ls : list jsstring) : jsstring :=
  match ls with
  | [] => []
  | [l] => l
  | l :: ls' => l ++ sep ++ joinWith sep ls'
  end.

(** [s.replace(pat, rep)] for a string pattern and a replacement without
    [$]: the first occurrence is replaced. *)
Fixpoint replaceFirst (pat rep s : jsstring) : jsstring :=
  if startsWith pat s then rep ++ skipn (length pat) s
  else match s with
       | [] => []
       | c :: s' => c :: replaceFirst pat rep s'
       end.

End JS.

Import JS.

(* ===================================================================== *)
(** ** core/schema.ts *)
(* ===================================================================== *)

Module Schema.

Record GitHubLink := {
  gh_issues : list jsstring;
  gh_prs : list jsstring
}.

Record DailyMeta := {
  daily_date : jsstring;
  daily_type : jsstring;
  daily_week : jsstring;
  daily_projects : list jsstring;
  daily_tags : list jsstring;
  daily_weekly_highlight : bool;
  daily_github : GitHubLink
}.

Record DailyLog := {
  dl_meta : DailyMeta;
  dl_content : jsstring;
  dl_filePath : jsstring
}.

Record WeeklyMeta := {
  weekly_week : jsstring;
  weekly_type : jsstring;
  weekly_start_date : jsstring;
  weekly_end_date : jsstring;
  weekly_projects : list jsstring
}.

Record WeeklyReport := {
  wr_meta : WeeklyMeta;
  wr_content : jsstring;
  wr_filePath : jsstring
}.

Definition createDefaultWeeklyMeta (week startDate endDate : jsstring)
  : WeeklyMeta :=
  {| weekly_week := week;
     weekly_type := u "weekly";
     weekly_start_date := startDate;
     weekly_end_date := endDate;
     weekly_projects := [] |}.

Definition createDefaultDailyMeta (date week : jsstring) : DailyMeta :=
  {| daily_date := date;
     daily_type := u "daily";
     daily_week := week;
     daily_projects := [];
     daily_tags := [];
     daily_weekly_highlight := false;
     daily_github := {| gh_issues := []; gh_prs := [] |} |}.

End Schema.

Import Schema.

(* ===================================================================== *)
(** ** core/aggregator.ts *)
(* ===================================================================== *)

Module Aggregator.

Record HighlightEntry := {
  hl_date : jsstring;
  hl_content : jsstring
}.

Record DailySummary := {
  ds_date : jsstring;
  ds_projects : list jsstring;
  ds_tags : list jsstring;
  ds_isHighlight : bool;
  ds_excerpt : jsstring
}.

Record WeeklyAggregation := {
  agg_meta : WeeklyMeta;
  agg_content : jsstring;
  agg_projects : list jsstring;
  agg_highlights : list HighlightEntry;
  agg_dailySummaries : list DailySummary
}.

(** *** The two heading patterns *)

(** The literal [title] (escaped by [escapeRegex]) under the [i] flag. *)
Fixpoint prefixCI (title s : jsstring) : bool :=
  match title, s with
  | [], _ => true
  | p :: title', c :: s' => ciEq p c && prefixCI title' s'
  | _ :: _, [] => false
  end.

(** [\s*title], greedy with backtracking. *)
Fixpoint wsStarTitle (title s : jsstring) : bool :=
  match s with
  | c :: s' => (isSpace c && wsStarTitle title s') || prefixCI title s
  | [] => prefixCI title []
  end.

(** [#+\s*title] from the start of the line. *)
Fixpoint hashPlusTitle (title s : jsstring) : bool :=
  match s with
  | c :: s' =>
    (c =? c_hash) && (hashPlusTitle title s' || wsStarTitle title s')
  | [] => false
  end.

(** [line.match(new RegExp(`^#+\\s*${escapeRegex(sectionTitle)}`, 'i'))] *)
Definition opensSection (sectionTitle line : jsstring) : bool :=
  hashPlusTitle sectionTitle line.

(** [line.match(/^#+\s+/)] *)
Fixpoint isHeading (line : jsstring) : bool :=
  match line with
  | c :: s' =>
    (c =? c_hash) &&
    (isHeading s' || match s' with d :: _ => isSpace d | [] => false end)
  | [] => false
  end.

(** *** extractSection *)

(** The [for] loop of [extractSection]: [inSection] and [sectionLines] are
    the loop's two variables; the result is [sectionLines] at loop exit. *)
Fixpoint extractLoop (sectionTitle : jsstring) (lines : list jsstring)
    (inSection : bool) (sectionLines : list jsstring) : list jsstring :=
  match lines with
  | [] => sectionLines
  | line :: rest =>
    if opensSection sectionTitle line then
      extractLoop sectionTitle rest true sectionLines
    else if inSection && isHeading line then
      sectionLines
    else if inSection then
      extractLoop sectionTitle rest true (sectionLines ++ [line])
    else
      extractLoop sectionTitle rest inSection sectionLines
  end.

Definition extractSection (content sectionTitle : jsstring) : jsstring :=
  trim (joinLines (extractLoop sectionTitle (splitLines content) false [])).

(** *** extractListItems *)

Definition c_dash : N := 45.
Definition c_star : N := 42.
Definition c_lbracket : N := 91.
Definition c_rbracket : N := 93.

Fixpoint takeNonTerminators (s : jsstring) : jsstring :=
  match s with
  | c :: s' => if isLineTerminator c then [] else c :: takeNonTerminators s'
  | [] => []
  end.

(** [(.+)]: the capture group, at least one character. *)
Definition capture (s : jsstring) : option jsstring :=
  match takeNonTerminators s with
  | [] => None
  | r => Some r
  end.

(** [\s*(.+)] *)
Fixpoint wsStarCapture (s : jsstring) : option jsstring :=
  match s with
  | c :: s' =>
    if isSpace c then
      match wsStarCapture s' with
      | Some r => Some r
      | None => capture s
      end
    else capture s
  | [] => None
  end.

(** [\]?\s*(.+)] *)
Definition optClose (s : jsstring) : option jsstring :=
  match s with
  | c :: s' =>
    if c =? c_rbracket then
      match wsStarCapture s' with
      | Some r => Some r
      | None => wsStarCapture s
      end
    else wsStarCapture s
  | [] => None
  end.

(** [[xX ]?\]?\s*(.+)] *)
Definition optMark (s : jsstring) : option jsstring :=
  match s with
  | c :: s' =>
    if (c =? 120) || (c =? 88) || (c =? 32) then
      match optClose s' with
      | Some r => Some r
      | None => optClose s
      end
    else optClose s
  | [] => None
  end.

(** [\[?[xX ]?\]?\s*(.+)] *)
Definition optOpen (s : jsstring) : option jsstring :=
  match s with
  | c :: s' =>
    if c =? c_lbracket then
      match optMark s' with
      | Some r => Some r
      | None => optMark s
      end
    else optMark s
  | [] => None
  end.

(** [\s+\[?[xX ]?\]?\s*(.+)] *)
Fixpoint wsPlusItem (s : jsstring) : option jsstring :=
  match s with
  | c :: s' =>
    if isSpace c then
      match wsPlusItem s' with
      | Some r => Some r
      | None => optOpen s'
      end
    else None
  | [] => None
  end.

(** [line.match(/^[-*]\s+\[?[xX ]?\]?\s*(.+)/)], giving [match[1]]. *)
Definition matchListItem (line : jsstring) : option jsstring :=
  match line with
  | c :: s' =>
    if (c =? c_dash) || (c =? c_star) then wsPlusItem s' else None
  | [] => None
  end.

(** The body of the loop of [extractListItems] for one line. *)
Definition listItemOf (line : jsstring) : list jsstring :=
  match matchListItem line with
  | Some m => if truthy (trim m) then [trim m] else []
  | None => []
  end.

Definition extractListItems (content sectionTitle : jsstring)
  : list jsstring :=
  flat_map listItemOf (splitLines (extractSection content sectionTitle)).

(** *** extractHighlightContent *)

Definition T_COMPLETED : jsstring := Eval vm_compute in u "今日完成".
Definition T_PROGRESS : jsstring := Eval vm_compute in u "项目进展".

Definition extractHighlightContent (daily : DailyLog) : jsstring :=
  let completed := extractSection (dl_content daily) T_COMPLETED in
  if truthy completed then completed
  else
    let progress := extractSection (dl_content daily) T_PROGRESS in
    if truthy progress then progress
    else substring0 (dl_content daily) 500.

(** *** generateExcerpt *)

(** [.+$] under the [m] flag: the longest run of non-terminators, which is
    followed by a terminator or the end of input. *)
Definition dotPlusEnd (s : jsstring) : option nat :=
  match takeNonTerminators s with
  | [] => None
  | r => Some (length r)
  end.

(** [\s*.+$], giving the length of the match. *)
Fixpoint wsStarRest (s : jsstring) : option nat :=
  match s with
  | c :: s' =>
    if isSpace c then
      match wsStarRest s' with
      | Some n => Some (S n)
      | None => dotPlusEnd s
      end
    else dotPlusEnd s
  | [] => None
  end.

(** [\s+.+$] *)
Definition wsPlusRest (s : jsstring) : option nat :=
  match s with
  | c :: s' => if isSpace c then option_map S (wsStarRest s') else None
  | [] => None
  end.

(** [#+\s+.+$] attempted at a line start: the length of the match. *)
Fixpoint headingMatch (s : jsstring) : option nat :=
  match s with
  | c :: s' =>
    if c =? c_hash then
      match headingMatch s' with
      | Some n => Some (S n)
      | None => option_map S (wsPlusRest s')
      end
    else None
  | [] => None
  end.

(** [content.replace(/^#+\s+.+$/gm, '')]: [atStart] says that the position
    is the start of the input or follows a line terminator; [skip] counts
    the characters of the current match still to be dropped. *)
Fixpoint removeHeadings (s : jsstring) (atStart : bool) (skip : nat)
  : jsstring :=
  match s with
  | [] => []
  | c :: s' =>
    match skip with
    | S k => removeHeadings s' false k
    | O =>
      match (if atStart then headingMatch s else None) with
      | Some (S k) => removeHeadings s' false k
      | _ => c :: removeHeadings s' (isLineTerminator c) 0
      end
    end
  end.

(** [.replace(/\n{3,}/g, '\n\n')]: of every run of newlines at most two are
    kept; [run] counts the newlines of the current run already seen. *)
Fixpoint collapseNewlines (s : jsstring) (run : nat) : jsstring :=
  match s with
  | [] => []
  | c :: s' =>
    if c =? c_nl then
      if (run <? 2)%nat then c :: collapseNewlines s' (S run)
      else collapseNewlines s' (S run)
    else c :: collapseNewlines s' 0
  end.

Definition ELLIPSIS : jsstring := Eval vm_compute in u "...".

Definition cleanContent (content : jsstring) : jsstring :=
  trim (collapseNewlines (removeHeadings content true 0) 0).

Definition generateExcerpt (content : jsstring) (maxLength : Z) : jsstring :=
  let cleaned := cleanContent content in
  if (len cleaned <=? maxLength)%Z then cleaned
  else trim (substring0 cleaned maxLength) ++ ELLIPSIS.

(** *** Aggregation *)

Definition createDailySummary (daily : DailyLog) : DailySummary :=
  {| ds_date := daily_date (dl_meta daily);
     ds_projects := daily_projects (dl_meta daily);
     ds_tags := daily_tags (dl_meta daily);
     ds_isHighlight := daily_weekly_highlight (dl_meta daily);
     ds_excerpt := generateExcerpt (dl_content daily) 200 |}.

(** [Set.prototype.add] on a set kept in insertion order. *)
Definition setAdd (x : jsstring) (s : list jsstring) : list jsstring :=
  if existsb (JS.eqb x) s then s else s ++ [x].

Definition T_TITLE_SUFFIX : jsstring := Eval vm_compute in u " 工作周报".
Definition T_TITLE_PREFIX : jsstring := Eval vm_compute in u "# Week ".
Definition H_SUMMARY : jsstring := Eval vm_compute in u "## 本周总结（一句话）".
Definition H_HIGHLIGHTS : jsstring :=
  Eval vm_compute in u "## 本周重点产出（Highlights）".
Definition H_PROJECTS : jsstring := Eval vm_compute in u "## 项目进展".
Definition H_DAILIES : jsstring := Eval vm_compute in u "## 每日工作摘要".
Definition H_RISKS : jsstring := Eval vm_compute in u "## 风险与阻塞".
Definition H_PLAN : jsstring := Eval vm_compute in u "## 下周计划".
Definition NO_HIGHLIGHTS : jsstring :=
  Eval vm_compute in u "*本周暂无标记为 highlight 的日志*".
Definition NO_PROJECTS : jsstring := Eval vm_compute in u "*本周暂无关联项目*".
Definition NO_DAILIES : jsstring := Eval vm_compute in u "*本周暂无 Daily Log*".
Definition NO_CONTENT : jsstring := Eval vm_compute in u "*无内容*".
Definition H3 : jsstring := Eval vm_compute in u "### ".
Definition P_PROGRESS : jsstring := Eval vm_compute in u "- 本周进展：".
Definition P_STATUS : jsstring := Eval vm_compute in u "- 当前状态：".
Definition P_NEXT : jsstring := Eval vm_compute in u "- 下周计划：".
Definition STAR_MARK : jsstring := Eval vm_compute in u " ⭐".
Definition DASH : jsstring := Eval vm_compute in u "-".

(** The strings pushed for one highlight, one project, one summary. *)
Definition highlightLines (h : HighlightEntry) : list jsstring :=
  [H3 ++ hl_date h; []; hl_content h; []].

Definition projectLines (project : jsstring) : list jsstring :=
  [H3 ++ project; P_PROGRESS; P_STATUS; P_NEXT; []].

Definition summaryHeading (summary : DailySummary) : jsstring :=
  let highlightMark := if ds_isHighlight summary then STAR_MARK else [] in
  let projectsInfo :=
    match ds_projects summary with
    | [] => []
    | ps => u " [" ++ joinWith (u ", ") ps ++ u "]"
    end in
  H3 ++ ds_date summary ++ highlightMark ++ projectsInfo.

Definition summaryLines (summary : DailySummary) : list jsstring :=
  [summaryHeading summary; [];
   (if truthy (ds_excerpt summary) then ds_excerpt summary else NO_CONTENT);
   []].

(** The array [lines] of [generateWeeklyContent] just before the join. *)
Definition weeklyLines (weekMeta : WeeklyMeta) (projects : list jsstring)
    (highlights : list HighlightEntry) (dailySummaries : list DailySummary)
  : list jsstring :=
  [T_TITLE_PREFIX ++ weekly_week weekMeta ++ T_TITLE_SUFFIX; []]
  ++ [H_SUMMARY; []; []]
  ++ [H_HIGHLIGHTS; []]
  ++ (match highlights with
      | [] => [NO_HIGHLIGHTS; []]
      | _ => flat_map highlightLines highlights
      end)
  ++ [H_PROJECTS; []]
  ++ (match projects with
      | [] => [NO_PROJECTS; []]
      | _ => flat_map projectLines projects
      end)
  ++ [H_DAILIES; []]
  ++ (match dailySummaries with
      | [] => [NO_DAILIES; []]
      | _ => flat_map summaryLines dailySummaries
      end)
  ++ [H_RISKS; DASH; []]
  ++ [H_PLAN; DASH; []].

Definition generateWeeklyContent (weekMeta : WeeklyMeta)
    (projects : list jsstring) (highlights : list HighlightEntry)
    (dailySummaries : list DailySummary) : jsstring :=
  joinLines (weeklyLines weekMeta projects highlights dailySummaries).

Section Collation.

(** [String.prototype.localeCompare] depends on the host's collation; the
    aggregator is embedded over any comparison function (negative, zero or
    positive). *)
Variable localeCompare : jsstring -> jsstring -> Z.

(** [Array.prototype.sort] is stable: an element is placed before the first
    element it does not compare greater than. *)
Fixpoint sortInsert (a : DailyLog) (sorted : list DailyLog) : list DailyLog :=
  match sorted with
  | [] => [a]
  | b :: rest =>
    if (localeCompare (daily_date (dl_meta a)) (daily_date (dl_meta b)) <=? 0)%Z
    then a :: b :: rest
    else b :: sortInsert a rest
  end.

Definition sortByDate (dailies : list DailyLog) : list DailyLog :=
  fold_right sortInsert [] dailies.

Definition collectProjects (sortedDailies : list DailyLog) : list jsstring :=
  fold_left (fun projectSet daily =>
               fold_left (fun s project => setAdd project s)
                         (daily_projects (dl_meta daily)) projectSet)
            sortedDailies [].

(** The body of [aggregateDailiesToWeekly] below the sort. *)
Definition aggregateSorted (sortedDailies : list DailyLog)
    (weekMeta : WeeklyMeta) : WeeklyAggregation :=
  let projects := collectProjects sortedDailies in
  let highlights :=
    List.map (fun d => {| hl_date := daily_date (dl_meta d);
                          hl_content := extractHighlightContent d |})
             (List.filter (fun d => daily_weekly_highlight (dl_meta d))
                          sortedDailies) in
  let dailySummaries := List.map createDailySummary sortedDailies in
  let content :=
    generateWeeklyContent weekMeta projects highlights dailySummaries in
  {| agg_meta :=
       {| weekly_week := weekly_week weekMeta;
          weekly_type := weekly_type weekMeta;
          weekly_start_date := weekly_start_date weekMeta;
          weekly_end_date := weekly_end_date weekMeta;
          weekly_projects := projects |};
     agg_content := content;
     agg_projects := projects;
     agg_highlights := highlights;
     agg_dailySummaries := dailySummaries |}.

Definition aggregateDailiesToWeekly (dailies : list DailyLog)
    (weekMeta : WeeklyMeta) : WeeklyAggregation :=
  let sortedDailies := sortByDate dailies in
  aggregateSorted sortedDailies weekMeta.

End Collation.

(** Comparison by code units: the order of [localeCompare] on ISO dates. *)
Fixpoint codeUnitCompare (a b : jsstring) : Z :=
  match a, b with
  | [], [] => 0%Z
  | [], _ :: _ => (-1)%Z
  | _ :: _, [] => 1%Z
  | x :: a', y :: b' =>
    if x <? y then (-1)%Z else if y <? x then 1%Z else codeUnitCompare a' b'
  end.

(** *** Merge *)

Definition T_SUMMARY : jsstring := Eval vm_compute in u "本周总结".
Definition T_SUMMARY_FULL : jsstring :=
  Eval vm_compute in u "本周总结（一句话）".
Definition T_RISKS : jsstring := Eval vm_compute in u "风险与阻塞".
Definition T_PLAN : jsstring := Eval vm_compute in u "下周计划".

(** The [for] loop of [replaceSection] over the remaining lines. *)
Fixpoint replaceLoop (sectionTitle newSectionContent : jsstring)
    (lines : list jsstring) (inSection : bool) (result : list jsstring)
  : list jsstring :=
  match lines with
  | [] => result
  | line :: rest =>
    if opensSection sectionTitle line then
      replaceLoop sectionTitle newSectionContent rest true
                  (result ++ [line; []; newSectionContent])
    else
      let inSection' :=
        if inSection && isHeading line then false else inSection in
      if inSection' then
        replaceLoop sectionTitle newSectionContent rest inSection' result
      else
        replaceLoop sectionTitle newSectionContent rest inSection'
                    (result ++ [line])
  end.

Definition replaceSection (content sectionTitle newSectionContent : jsstring)
  : jsstring :=
  joinLines (replaceLoop sectionTitle newSectionContent
                         (splitLines content) false []).

Definition mergeWeeklyContent (existingContent : jsstring)
    (newAggregation : WeeklyAggregation) : jsstring :=
  if negb (truthy (trim existingContent)) then agg_content newAggregation
  else
    let userSummary := extractSection existingContent T_SUMMARY in
    let userRisks := extractSection existingContent T_RISKS in
    let userPlan := extractSection existingContent T_PLAN in
    let content := agg_content newAggregation in
    let content :=
      if truthy userSummary && negb (JS.eqb userSummary [])
      then replaceSection content T_SUMMARY_FULL userSummary else content in
    let content :=
      if truthy userRisks && negb (JS.eqb userRisks DASH)
      then replaceSection content T_RISKS userRisks else content in
    let content :=
      if truthy userPlan && negb (JS.eqb userPlan DASH)
      then replaceSection content T_PLAN userPlan else content in
    content.

End Aggregator.

Import Aggregator.

(* ===================================================================== *)
(** ** core/parser.ts *)
(* ===================================================================== *)

Module Parser.

#[local] Set Warnings "-register-all".

(** A value of the parsed YAML mapping.  A [Date] carries its time value,
    [None] for an invalid date. *)
Inductive Yaml :=
  | YNull
  | YBool (b : bool)
  | YNum (n : Z)
  | YStr (s : jsstring)
  | YDate (time : option Z)
  | YSeq (items : list Yaml)
  | YMap (fields : list (jsstring * Yaml)).

(** An object: its own properties in insertion order. *)
Definition Meta := list (jsstring * Yaml).

(** [obj.key]; [None] is [undefined]. *)
Fixpoint getField (key : jsstring) (obj : Meta) : option Yaml :=
  match obj with
  | [] => None
  | (k, v) :: rest => if JS.eqb k key then Some v else getField key rest
  end.

(** [obj.key = value] *)
Fixpoint setField (key : jsstring) (value : Yaml) (obj : Meta) : Meta :=
  match obj with
  | [] => [(key, value)]
  | (k, v) :: rest =>
    if JS.eqb k key then (k, value) :: rest
    else (k, v) :: setField key value rest
  end.

Definition isTruthy (v : option Yaml) : bool :=
  match v with
  | None | Some YNull => false
  | Some (YBool b) => b
  | Some (YNum n) => negb (n =? 0)%Z
  | Some (YStr s) => truthy s
  | Some (YDate _) | Some (YSeq _) | Some (YMap _) => true
  end.

(** What a function of the module throws: the module's own [ParseError]
    with its optional [field], or another exception passing through. *)
Inductive Error :=
  | ParseError (message : jsstring) (field : option jsstring)
  | OtherError (message : jsstring).

Inductive Result (A : Type) :=
  | Ok (a : A)
  | Err (e : Error).
Arguments Ok {A} a.
Arguments Err {A} e.

Definition bind {A B} (r : Result A) (k : A -> Result B) : Result B :=
  match r with
  | Ok a => k a
  | Err e => Err e
  end.

Notation "'let?' x ':=' r 'in' k" := (bind r (fun x => k))
  (at level 10, x name, r at level 100, k at level 200).

Record ParseResult := {
  pr_meta : Meta;
  pr_content : jsstring;
  pr_raw : jsstring
}.

Record Parsed := {
  doc_meta : Meta;
  doc_content : jsstring;
  doc_filePath : jsstring
}.

Definition DELIM : jsstring := Eval vm_compute in u "---".

(** The own properties of [matter.cache]: the texts given to [matter] so
    far, each with the [data] and the [content] of its file. *)
Abbreviation Cache := (gmap jsstring (Meta * jsstring)).

Section Libraries.

(** The third-party libraries are parameters of the embedding:
    - [frontMatterEngine]: what gray-matter does with a text that starts
      with the [---] delimiter (block extraction and YAML parsing);
    - [parseDate]: [new Date(string)], [None] for an invalid date;
    - [formatDate]: date-fns [format(d, 'yyyy-MM-dd')];
    - [stringOf]: the string conversion of a value in a template literal;
    - [today]: [format(new Date(), 'yyyy-MM-dd')]. *)
Variable frontMatterEngine : jsstring -> Result (Meta * jsstring).
Variable parseDate : jsstring -> option Z.
Variable formatDate : Z -> jsstring.
Variable stringOf : Yaml -> jsstring.
Variable today : jsstring.

Definition stripBom (s : jsstring) : jsstring :=
  match s with
  | c :: s' => if c =? 65279 then s' else s
  | [] => s
  end.

(** The own properties of [Object.prototype], which every plain object
    inherits. *)
Definition OBJECT_PROTOTYPE_KEYS : list jsstring :=
  Eval vm_compute in
    List.map u ["constructor"; "__defineGetter__"; "__defineSetter__";
                "hasOwnProperty"; "__lookupGetter__"; "__lookupSetter__";
                "isPrototypeOf"; "propertyIsEnumerable"; "toString";
                "valueOf"; "__proto__"; "toLocaleString"]%string.

Definition inherited (key : jsstring) : bool :=
  existsb (JS.eqb key) OBJECT_PROTOTYPE_KEYS.

(** What [matter] returns: a file with its [data] and [content], or, when
    the cache lookup has found an inherited member, a copy of that member,
    which has neither. *)
Inductive File :=
  | FileOf (data : Meta) (content : jsstring)
  | Bare.

(** [matter(fileContent)] of gray-matter, called without options.  The
    empty string is answered at once.  Otherwise the text, without its
    byte order mark, is looked up in [matter.cache], a plain object: an
    inherited member is truthy and is copied; a file stored by an earlier
    call is returned with its [data] object as it is now; a text not seen
    before is stored and parsed.  A text that does not start with the
    delimiter has no front matter: it is the content, with an empty
    [data] object.  When the engine throws, the file stays in the cache as
    it was stored. *)
Definition matter (cache : Cache) (fileContent : jsstring)
  : Result File * Cache :=
  if isEmpty fileContent then (Ok (FileOf [] fileContent), cache)
  else
    let str := stripBom fileContent in
    if inherited str then (Ok Bare, cache)
    else
      match cache !! str with
      | Some (data, content) => (Ok (FileOf data content), cache)
      | None =>
        if startsWith DELIM str then
          match frontMatterEngine str with
          | Ok (data, content) =>
            (Ok (FileOf data content), <[str := (data, content)]> cache)
          | Err e => (Err e, <[str := ([], str)]> cache)
          end
        else (Ok (FileOf [] str), <[str := ([], str)]> cache)
      end.

(** The [TypeError] of [content.trim()] on [undefined], with the message
    of the host. *)
Definition TRIM_OF_UNDEFINED : Error :=
  OtherError (u "Cannot read properties of undefined (reading 'trim')").

Definition parseFrontmatter (cache : Cache) (fileContent : jsstring)
  : Result ParseResult * Cache :=
  match matter cache fileContent with
  | (Ok (FileOf data content), cache') =>
    (Ok {| pr_meta := data;
           pr_content := trim content;
           pr_raw := fileContent |}, cache')
  | (Ok Bare, cache') => (Err TRIM_OF_UNDEFINED, cache')
  | (Err e, cache') => (Err e, cache')
  end.

Definition normalizeDate (date : option Yaml) : Result jsstring :=
  match date with
  | Some (YDate (Some t)) => Ok (formatDate t)
  | Some (YStr s) =>
    match parseDate s with
    | Some t => Ok (formatDate t)
    | None => Ok s
    end
  | Some v =>
    Err (ParseError (u "Invalid date value: " ++ stringOf v) (Some (u "date")))
  | None =>
    Err (ParseError (u "Invalid date value: undefined") (Some (u "date")))
  end.

(** [meta.key = meta.key || dflt] *)
Definition orDefault (key : jsstring) (dflt : Yaml) (meta : Meta) : Meta :=
  if isTruthy (getField key meta) then meta else setField key dflt meta.

Definition validateDailyMeta (meta : Meta) : Result Meta :=
  if negb (isTruthy (getField (u "date") meta)) then
    Err (ParseError (u "Daily log missing required field: date")
                    (Some (u "date")))
  else
    match getField (u "type") meta with
    | Some (YStr t) =>
      if JS.eqb t (u "daily") then
        let? d := normalizeDate (getField (u "date") meta) in
        let meta := setField (u "date") (YStr d) meta in
        let meta := orDefault (u "week") (YStr []) meta in
        let meta := orDefault (u "projects") (YSeq []) meta in
        let meta := orDefault (u "tags") (YSeq []) meta in
        let meta :=
          match getField (u "weekly_highlight") meta with
          | None | Some YNull => setField (u "weekly_highlight") (YBool false) meta
          | Some _ => meta
          end in
        Ok (orDefault (u "github")
              (YMap [(u "issues", YSeq []); (u "prs", YSeq [])]) meta)
      else Err (ParseError (u "Daily log must have type: daily")
                           (Some (u "type")))
    | _ => Err (ParseError (u "Daily log must have type: daily")
                           (Some (u "type")))
    end.

(** [if (meta.key) meta.key = normalizeDate(meta.key); else meta.key = ''] *)
Definition normalizeOrEmpty (key : jsstring) (meta : Meta) : Result Meta :=
  if isTruthy (getField key meta) then
    let? d := normalizeDate (getField key meta) in
    Ok (setField key (YStr d) meta)
  else Ok (setField key (YStr []) meta).

Definition validateWeeklyMeta (meta : Meta) : Result Meta :=
  if negb (isTruthy (getField (u "week") meta)) then
    Err (ParseError (u "Weekly report missing required field: week")
                    (Some (u "week")))
  else
    match getField (u "type") meta with
    | Some (YStr t) =>
      if JS.eqb t (u "weekly") then
        let? meta := normalizeOrEmpty (u "start_date") meta in
        let? meta := normalizeOrEmpty (u "end_date") meta in
        Ok (orDefault (u "projects") (YSeq []) meta)
      else Err (ParseError (u "Weekly report must have type: weekly")
                           (Some (u "type")))
    | _ => Err (ParseError (u "Weekly report must have type: weekly")
                           (Some (u "type")))
    end.

(** The properties of [meta.project]; a truthy value that is not a mapping
    has none. *)
Definition fieldsOf (v : option Yaml) : Meta :=
  match v with
  | Some (YMap fields) => fields
  | _ => []
  end.

Definition validateProjectMeta (meta : Meta) : Result Meta :=
  if negb (isTruthy (getField (u "project") meta)) then
    Err (ParseError (u "Project file missing required field: project")
                    (Some (u "project")))
  else
    let project := fieldsOf (getField (u "project") meta) in
    if negb (isTruthy (getField (u "name") project)) then
      Err (ParseError (u "Project missing required field: project.name")
                      (Some (u "project.name")))
    else if negb (isTruthy (getField (u "github_repo") project)) then
      Err (ParseError (u "Project missing required field: project.github_repo")
                      (Some (u "project.github_repo")))
    else
      let project := orDefault (u "type") (YStr (u "software")) project in
      let project := orDefault (u "status") (YStr (u "Planning")) project in
      let? project :=
        (if isTruthy (getField (u "start_date") project) then
           let? d := normalizeDate (getField (u "start_date") project) in
           Ok (setField (u "start_date") (YStr d) project)
         else Ok (setField (u "start_date") (YStr today) project)) in
      let? project :=
        (if isTruthy (getField (u "end_date") project) then
           let? d := normalizeDate (getField (u "end_date") project) in
           Ok (setField (u "end_date") (YStr d) project)
         else Ok project) in
      Ok (setField (u "project") (YMap project) meta).

(** The value a kind-specific parser returns; [cache] is the cache at the
    call. *)
Definition parseWith (validate : Meta -> Result Meta) (cache : Cache)
    (fileContent filePath : jsstring) : Result Parsed :=
  let? pr := fst (parseFrontmatter cache fileContent) in
  let? meta := validate (pr_meta pr) in
  Ok {| doc_meta := meta;
        doc_content := pr_content pr;
        doc_filePath := filePath |}.

Definition parseDaily := parseWith validateDailyMeta.
Definition parseWeekly := parseWith validateWeeklyMeta.
Definition parseProject := parseWith validateProjectMeta.

End Libraries.

End Parser.

Import Parser.

(* ===================================================================== *)
(** ** weekly/index.ts *)
(* ===================================================================== *)

Module Weekly.

(** The entry of a directory listing ([FileInfo]): the path and the file
    name without its extension. *)
Record FileInfo := {
  fi_path : jsstring;
  fi_name : jsstring
}.

(** The files of the workspace: path to content. *)
Abbreviation FileSystem := (gmap jsstring jsstring).

Definition isDigit (c : N) : bool := (48 <=? c) && (c <=? 57).

(** [parseInt(digits, 10)] on a run of decimal digits. *)
Definition parseDigits (ds : list N) : N :=
  fold_left (fun acc d => acc * 10 + (d - 48)) ds 0.

(** [weekStr.match(/^(\d{4})-W(\d{2})$/)] with both groups parsed. *)
Definition parseWeekString (weekStr : jsstring) : option (N * N) :=
  match weekStr with
  | [y1; y2; y3; y4; d; w; w1; w2] =>
    if forallb isDigit [y1; y2; y3; y4; w1; w2] && (d =? 45) && (w =? 87)
    then Some (parseDigits [y1; y2; y3; y4], parseDigits [w1; w2])
    else None
  | _ => None
  end.

(** [a >= b] and [a <= b] on strings compare code units. *)
Definition strGe (a b : jsstring) : bool := (0 <=? codeUnitCompare a b)%Z.
Definition strLe (a b : jsstring) : bool := (codeUnitCompare a b <=? 0)%Z.

Section Workspace.

(** What the module takes from its surroundings, for one workspace:
    - [getWeeklyFilePath]: the path of the report of a week (core/fs.ts);
    - [listDailyFiles]: the listing of the daily directory (core/fs.ts);
    - [parseWeekly], [parseDaily], [serializeWeekly]: the codec of
      core/parser.ts at the types the module uses it at;
    - [weekStartEnd]: Monday and Sunday of an ISO week, as
      [generateWeekVariables] computes them with [Date];
    - [getCurrentWeek]: the week of the clock;
    - [localeCompare]: the collation of the host. *)
Variable getWeeklyFilePath : jsstring -> jsstring.
Variable listDailyFiles : FileSystem -> list FileInfo.
Variable parseWeekly : jsstring -> jsstring -> Result WeeklyReport.
Variable parseDaily : jsstring -> jsstring -> Result DailyLog.
Variable serializeWeekly : WeeklyReport -> jsstring.
Variable weekStartEnd : N -> N -> jsstring * jsstring.
Variable getCurrentWeek : jsstring.
Variable localeCompare : jsstring -> jsstring -> Z.

Definition getWeekDateRange (weekStr : jsstring)
  : Result (jsstring * jsstring) :=
  match parseWeekString weekStr with
  | Some (year, week) => Ok (weekStartEnd year week)
  | None =>
    Err (OtherError (u "Invalid week format: " ++ weekStr
                     ++ u ". Expected YYYY-Www"))
  end.

Definition getWeekly (fs : FileSystem) (week : jsstring)
  : Result (option WeeklyReport) :=
  let filePath := getWeeklyFilePath week in
  match fs !! filePath with
  | None => Ok None
  | Some content =>
    let? weekly := parseWeekly content filePath in
    Ok (Some weekly)
  end.

Definition findDailyFilesByDateRange (fs : FileSystem)
    (startDate endDate : jsstring) : list jsstring :=
  List.map fi_path
    (List.filter (fun f => strGe (fi_name f) startDate
                           && strLe (fi_name f) endDate)
                 (listDailyFiles fs)).

(** A file that cannot be read or parsed is skipped. *)
Definition readDaily (fs : FileSystem) (filePath : jsstring)
  : list DailyLog :=
  match fs !! filePath with
  | Some content =>
    match parseDaily content filePath with
    | Ok daily => [daily]
    | Err _ => []
    end
  | None => []
  end.

Definition getDailiesForWeek (fs : FileSystem) (week : jsstring)
  : Result (list DailyLog) :=
  let? range := getWeekDateRange week in
  let filePaths := findDailyFilesByDateRange fs (fst range) (snd range) in
  Ok (flat_map (readDaily fs) filePaths).

Definition aggregateFromDailies (fs : FileSystem) (week : jsstring)
  : Result WeeklyAggregation :=
  let? range := getWeekDateRange week in
  let? dailies := getDailiesForWeek fs week in
  let weekMeta := createDefaultWeeklyMeta week (fst range) (snd range) in
  Ok (aggregateDailiesToWeekly localeCompare dailies weekMeta).

(** [generateWeekly]: the file system after the call and the report
    returned.  [week] is [None] when the argument is omitted. *)
Definition generateWeekly (fs : FileSystem) (week : option jsstring)
  : Result (FileSystem * WeeklyReport) :=
  let targetWeek :=
    match week with
    | Some w => if truthy w then w else getCurrentWeek
    | None => getCurrentWeek
    end in
  let filePath := getWeeklyFilePath targetWeek in
  let? existing := getWeekly fs targetWeek in
  let? aggregation := aggregateFromDailies fs targetWeek in
  let? weekly :=
    match existing with
    | Some existing =>
      let mergedContent :=
        mergeWeeklyContent (wr_content existing) aggregation in
      Ok {| wr_meta :=
              {| weekly_week := weekly_week (wr_meta existing);
                 weekly_type := weekly_type (wr_meta existing);
                 weekly_start_date := weekly_start_date (wr_meta existing);
                 weekly_end_date := weekly_end_date (wr_meta existing);
                 weekly_projects := agg_projects aggregation |};
            wr_content := mergedContent;
            wr_filePath := wr_filePath existing |}
    | None =>
      let? range := getWeekDateRange targetWeek in
      let meta := createDefaultWeeklyMeta targetWeek (fst range) (snd range) in
      Ok {| wr_meta :=
              {| weekly_week := weekly_week meta;
                 weekly_type := weekly_type meta;
                 weekly_start_date := weekly_start_date meta;
                 weekly_end_date := weekly_end_date meta;
                 weekly_projects := agg_projects aggregation |};
            wr_content := agg_content aggregation;
            wr_filePath := filePath |}
    end in
  Ok (<[filePath := serializeWeekly weekly]> fs, weekly).

End Workspace.

End Weekly.

(* ===================================================================== *)
(** ** Arrays as objects: the input array of the aggregator *)
(* ===================================================================== *)

Module Heap.

(** An array is an object on the heap; a variable of type [DailyLog[]]
    holds its location. *)
Abbreviation loc := positive.
Abbreviation heap := (gmap positive (list DailyLog)).

Section Collation.

Variable localeCompare : jsstring -> jsstring -> Z.

(** [[...dailies]]: a new array with the elements of [dailies]. *)
Definition spread (h : heap) (dailies : loc) : option (heap * loc) :=
  match h !! dailies with
  | Some elements =>
    let copy := fresh (dom h) in
    Some (<[copy := elements]> h, copy)
  | None => None
  end.

(** [arr.sort(cmp)]: sorts the array in place and returns it. *)
Definition sortInPlace (h : heap) (arr : loc) : heap :=
  alter (sortByDate localeCompare) arr h.

(** [aggregateDailiesToWeekly] with its argument by reference. *)
Definition aggregateDailiesToWeekly (h : heap) (dailies : loc)
    (weekMeta : WeeklyMeta) : option (heap * WeeklyAggregation) :=
  match spread h dailies with
  | Some (h1, copy) =>
    let h2 := sortInPlace h1 copy in
    match h2 !! copy with
    | Some sortedDailies => Some (h2, aggregateSorted sortedDailies weekMeta)
    | None => None
    end
  | None => None
  end.

End Collation.

End Heap.

(* ===================================================================== *)
(** ** The specification's statements, as functions *)
(* ===================================================================== *)

Module Spec.

(** The first element satisfying [p] is dropped with all before it. *)
Fixpoint afterFirst {A} (p : A -> bool) (l : list A) : option (list A) :=
  match l with
  | [] => None
  | x :: rest => if p x then Some rest else afterFirst p rest
  end.

(** The elements before the first one satisfying [stop]. *)
Fixpoint takeUntil {A} (stop : A -> bool) (l : list A) : list A :=
  match l with
  | [] => []
  | x :: rest => if stop x then [] else x :: takeUntil stop rest
  end.

Fixpoint dropHashes (line : jsstring) : jsstring :=
  match line with
  | c :: s' => if c =? c_hash then dropHashes s' else line
  | [] => []
  end.

Fixpoint eqCI (a b : jsstring) : bool :=
  match a, b with
  | [], [] => true
  | x :: a', y :: b' => ciEq x y && eqCI a' b'
  | _, _ => false
  end.

(** Section 4.2 and 6 of the specification: a heading line whose text,
    after stripping the leading [#] run and the surrounding whitespace,
    matches the title exactly and case-insensitively. *)
Definition headingMatchesExactly (title line : jsstring) : bool :=
  match line with
  | c :: _ => (c =? c_hash) && eqCI (trim (dropHashes line)) title
  | [] => false
  end.

(** [extractSection] as the specification states it: the lines strictly
    between the first matching heading and the next heading of any level,
    trimmed; the empty string when no heading matches. *)
Definition extractSection_spec (body title : jsstring) : jsstring :=
  match afterFirst (headingMatchesExactly title) (splitLines body) with
  | None => []
  | Some rest => trim (joinLines (takeUntil isHeading rest))
  end.

(** [extractSection] as the code has it: the section opens at the first
    line that starts with a [#] run, optional whitespace and the title as a
    case-insensitive prefix; it closes at the next heading line that does
    not itself start that way; lines that start that way are left out. *)
Definition extractSection_amended (body title : jsstring) : jsstring :=
  match afterFirst (opensSection title) (splitLines body) with
  | None => []
  | Some rest =>
    trim (joinLines
            (List.filter (fun l => negb (opensSection title l))
               (takeUntil (fun l => isHeading l && negb (opensSection title l))
                          rest)))
  end.

(** The excerpt contract as the specification states it, for one input:
    the bound, the short case, truncation to exactly [N] characters, and
    the equivalence on the suffix. *)
Definition excerpt_contract (content : jsstring) (N : Z) : Prop :=
  let cleaned := cleanContent content in
  let r := generateExcerpt content N in
  (len r <= N + 3)%Z
  /\ ((len cleaned <= N)%Z -> r = cleaned)
  /\ ((N < len cleaned)%Z -> r = substring0 cleaned N ++ ELLIPSIS)
  /\ (endsWith r ELLIPSIS = true <-> (N < len cleaned)%Z).

(** The list-item pattern of the specification,
    [^[-*]\s*(\[[ xX]\])?\s*(.+)], giving its last group. *)
Definition specCheckbox (s : jsstring) : option jsstring :=
  match s with
  | o :: m :: c :: r =>
    if (o =? c_lbracket) && ((m =? 32) || (m =? 120) || (m =? 88))
       && (c =? c_rbracket)
    then match wsStarCapture r with
         | Some x => Some x
         | None => wsStarCapture s
         end
    else wsStarCapture s
  | _ => wsStarCapture s
  end.

Fixpoint specWsCheckbox (s : jsstring) : option jsstring :=
  match s with
  | c :: s' =>
    if isSpace c then
      match specWsCheckbox s' with
      | Some x => Some x
      | None => specCheckbox s
      end
    else specCheckbox s
  | [] => None
  end.

Definition specListItem (line : jsstring) : option jsstring :=
  match line with
  | c :: s' =>
    if (c =? c_dash) || (c =? c_star) then specWsCheckbox s' else None
  | [] => None
  end.

Definition extractListItems_spec (body title : jsstring) : list jsstring :=
  flat_map (fun l => match specListItem l with Some x => [x] | None => [] end)
           (splitLines (extractSection body title)).

(** A line of a section, by its shape: a list item made of a marker, a gap
    of whitespace, an optional complete checkbox, more whitespace and the
    item text; or any other line. *)
Inductive SectionLine :=
  | Item (marker : N) (gap : jsstring) (box : option N) (gap2 text : jsstring)
  | Other (line : jsstring).

Definition renderLine (sl : SectionLine) : jsstring :=
  match sl with
  | Item marker gap box gap2 text =>
    marker :: gap
    ++ match box with
       | Some mark => [c_lbracket; mark; c_rbracket]
       | None => []
       end
    ++ gap2 ++ text
  | Other line => line
  end.

Definition yieldOf (sl : SectionLine) : list jsstring :=
  match sl with
  | Item _ _ _ _ text => [trim text]
  | Other _ => []
  end.

(** The shapes the amended statement speaks of.  An item has a [-] or [*]
    marker, a non-empty gap, a checkbox [[ ]], [[x]] or [[X]] or none, and
    a text on one line that begins with a visible character; without a
    checkbox the text does not begin with [[], []], [x] or [X].  Any other
    line does not begin with a marker followed by whitespace. *)
Definition wellFormedLine (sl : SectionLine) : bool :=
  match sl with
  | Item marker gap box gap2 text =>
    ((marker =? c_dash) || (marker =? c_star))
    && negb (isEmpty gap) && forallb isSpace gap && forallb isSpace gap2
    && forallb (fun c => negb (isLineTerminator c)) text
    && match text with
       | c :: _ =>
         negb (isSpace c)
         && match box with
            | Some mark => (mark =? 32) || (mark =? 120) || (mark =? 88)
            | None =>
              isEmpty gap2
              && negb ((c =? c_lbracket) || (c =? c_rbracket)
                       || (c =? 120) || (c =? 88))
            end
       | [] => false
       end
  | Other line =>
    match line with
    | c :: d :: _ => negb (((c =? c_dash) || (c =? c_star)) && isSpace d)
    | _ => true
    end
  end.

(** Section 4.1 and 7 of the specification: parsing a text without the
    leading delimiter fails. *)
Definition parse_fails_without_delimiter : Prop :=
  forall (engine : jsstring -> Result (Meta * jsstring)) (cache : Cache)
         (input : jsstring),
    startsWith DELIM (stripBom input) = false ->
    exists e, fst (parseFrontmatter engine cache input) = Err e.

(** A line that would open one of the three sections the merge reads
    from a report. *)
Definition opensPreserved (line : jsstring) : bool :=
  opensSection T_SUMMARY line || opensSection T_RISKS line
  || opensSection T_PLAN line.

Definition pieceClean (piece : jsstring) : bool :=
  forallb (fun l => negb (opensPreserved l)) (splitLines piece).

(** The strings of a generated report that come from the data: the title
    with the week, and for each highlight, project and daily summary the
    [###] heading and the text under it. *)
Definition dataPieces (weekMeta : WeeklyMeta) (projects : list jsstring)
    (highlights : list HighlightEntry) (dailySummaries : list DailySummary)
  : list jsstring :=
  [T_TITLE_PREFIX ++ weekly_week weekMeta ++ T_TITLE_SUFFIX]
  ++ flat_map (fun h => [H3 ++ hl_date h; hl_content h]) highlights
  ++ flat_map (fun p => [H3 ++ p]) projects
  ++ flat_map (fun s => [summaryHeading s; ds_excerpt s]) dailySummaries.

(** No line that comes from the data opens a preserved section. *)
Definition dataClean (A : WeeklyAggregation) : bool :=
  forallb pieceClean
    (dataPieces (agg_meta A) (agg_projects A) (agg_highlights A)
                (agg_dailySummaries A)).

(** The idempotence of the merge as the specification states it, for one
    list of daily logs and one week. *)
Definition merge_idempotent_at (localeCompare : jsstring -> jsstring -> Z)
    (D : list DailyLog) (w : WeeklyMeta) : Prop :=
  let A := aggregateDailiesToWeekly localeCompare D w in
  mergeWeeklyContent (agg_content A) A = agg_content A.

(** A sentence: one non-empty line that is not a heading. *)
Definition sentence (s : jsstring) : bool :=
  truthy s && noNewline s && negb (startsWith [c_hash] s).

Definition cleanLines (ls : list jsstring) : bool :=
  forallb (fun l => negb (opensPreserved l)) ls.

(** The lines of a generated report: the lines of the title, the Summary
    section with its two empty lines, the derived sections [middle], and
    the two closing sections with their placeholder. *)
Definition middleLines (projects : list jsstring)
    (highlights : list HighlightEntry) (dailySummaries : list DailySummary)
  : list jsstring :=
  [[]]
  ++ flat_map splitLines
       (match highlights with
        | [] => [NO_HIGHLIGHTS; []]
        | _ => flat_map highlightLines highlights
        end)
  ++ [H_PROJECTS; []]
  ++ flat_map splitLines
       (match projects with
        | [] => [NO_PROJECTS; []]
        | _ => flat_map projectLines projects
        end)
  ++ [H_DAILIES; []]
  ++ flat_map splitLines
       (match dailySummaries with
        | [] => [NO_DAILIES; []]
        | _ => flat_map summaryLines dailySummaries
        end).

(** The lines of a text hold the spliced Summary (the heading, an empty
    line, the sentence [S], the next heading) and a line starting with
    [mark]. *)
Definition good (S mark : jsstring) (ls : list jsstring) : Prop :=
  (exists x y, ls = x ++ [H_SUMMARY; []; S; H_HIGHLIGHTS] ++ y)
  /\ (exists l, In l ls /\ startsWith mark l = true /\ noNewline l = true).

End Spec.

Import Spec.

(* ===================================================================== *)
(** ** Predicates used by the further properties *)
(* ===================================================================== *)

Module Props.

(** No three newlines in a row. *)
Fixpoint noTripleNewline (s : jsstring) : bool :=
  match s with
  | a :: s' =>
    negb ((a =? c_nl)
          && match s' with
             | b :: c :: _ => (b =? c_nl) && (c =? c_nl)
             | _ => false
             end)
    && noTripleNewline s'
  | [] => true
  end.

(** The derived sections of a report: its lines after the Highlights
    heading and before the Risks heading. *)
Definition derivedLines (content : jsstring) : list jsstring :=
  takeUntil (fun l => JS.eqb l H_RISKS)
    (match afterFirst (fun l => JS.eqb l H_HIGHLIGHTS) (splitLines content)
     with
     | Some rest => rest
     | None => []
     end).

(** The last clause of the specification's statement on the merge: the
    sections outside the preserved set are always those of the fresh
    aggregation. *)
Definition outside_always_fresh : Prop :=
  forall (localeCompare : jsstring -> jsstring -> Z) (existing : jsstring)
         (D : list DailyLog) (w : WeeklyMeta),
    let A := aggregateDailiesToWeekly localeCompare D w in
    derivedLines (mergeWeeklyContent existing A)
    = derivedLines (agg_content A).

(** The cache of gray-matter holds nothing for a text without front
    matter, or holds its file as it was stored: no caller has written to
    the [data] object since. *)
Definition unmodified (cache : Cache) (str : jsstring) : bool :=
  match cache !! str with
  | None => true
  | Some ([], content) => JS.eqb content str
  | Some (_ :: _, _) => false
  end.

(** A text whose lines are no headings and open none of the preserved
    sections. *)
Definition plainLines (ls : list jsstring) : bool :=
  forallb (fun l => negb (isHeading l) && negb (opensPreserved l)) ls.

Definition plainText (s : jsstring) : bool := plainLines (splitLines s).

End Props.

Import Props.

(* ===================================================================== *)
(** ** core/parser.ts: detection and utilities *)
(* ===================================================================== *)

Module ParserOps.

Inductive DocumentType := DocDaily | DocWeekly | DocProject.

Section Libraries.

(** The libraries as in [Parser], and [yamlStringify]: [stringify] of the
    yaml package with the options the module passes. *)
Variable frontMatterEngine : jsstring -> Result (Meta * jsstring).
Variable parseDate : jsstring -> option Z.
Variable formatDate : Z -> jsstring.
Variable stringOf : Yaml -> jsstring.
Variable today : jsstring.
Variable yamlStringify : Meta -> jsstring.

Definition serializeFrontmatter (meta : Meta) (content : jsstring)
  : jsstring :=
  let yamlContent := trim (yamlStringify meta) in
  DELIM ++ [c_nl] ++ yamlContent ++ [c_nl] ++ DELIM ++ [c_nl; c_nl]
  ++ content ++ [c_nl].

(** [meta.type === t] *)
Definition typeIs (t : jsstring) (meta : Meta) : bool :=
  match getField (u "type") meta with
  | Some (YStr s) => JS.eqb s t
  | _ => false
  end.

(** [parseDocument]; the second call of [matter], in the kind-specific
    parser, sees the cache as the first call has left it. *)
Definition parseDocument (cache : Cache) (fileContent filePath : jsstring)
  : Result (DocumentType * Parsed) :=
  let first := parseFrontmatter frontMatterEngine cache fileContent in
  let cache' := snd first in
  let? pr := fst first in
  let meta := pr_meta pr in
  if typeIs (u "daily") meta then
    let? document :=
      parseDaily frontMatterEngine parseDate formatDate stringOf
                 cache' fileContent filePath in
    Ok (DocDaily, document)
  else if typeIs (u "weekly") meta then
    let? document :=
      parseWeekly frontMatterEngine parseDate formatDate stringOf
                  cache' fileContent filePath in
    Ok (DocWeekly, document)
  else if isTruthy (getField (u "project") meta) then
    let? document :=
      parseProject frontMatterEngine parseDate formatDate stringOf today
                   cache' fileContent filePath in
    Ok (DocProject, document)
  else
    Err (OtherError (u "Unknown document type in file: " ++ filePath)).

(** [null] is [None]; an exception is caught, that of [matter] as that of
    [Object.keys] on the [undefined] data of a bare file. *)
Definition extractFrontmatter (cache : Cache) (content : jsstring)
  : option Meta :=
  match fst (matter frontMatterEngine cache content) with
  | Ok (FileOf data _) =>
    match data with
    | [] => None
    | _ => Some data
    end
  | Ok Bare => None
  | Err _ => None
  end.

Definition hasFrontmatter (content : jsstring) : bool :=
  startsWith DELIM (trimStart content).

End Libraries.

End ParserOps.

Import ParserOps.

(* ===================================================================== *)
(** ** weekly/index.ts: week identifiers and the other operations *)
(* ===================================================================== *)

Module WeeklyOps.

(** [String(n)] for a non-negative integer: its decimal digits. *)
Fixpoint decimalDigits (fuel : nat) (n : N) (acc : jsstring) : jsstring :=
  match fuel with
  | O => acc
  | S k =>
    let acc' := (48 + n mod 10) :: acc in
    if n / 10 =? 0 then acc' else decimalDigits k (n / 10) acc'
  end.

Definition decimal (n : N) : jsstring :=
  decimalDigits (S (N.size_nat n)) n [].

(** [String(z)] for an integer. *)
Definition decimalZ (z : Z) : jsstring :=
  if (z <? 0)%Z then 45 :: decimal (Z.abs_N z) else decimal (Z.abs_N z).

(** [s.padStart(targetLength, c)] for a pad of one code unit. *)
Definition padStart (targetLength : nat) (c : N) (s : jsstring) : jsstring :=
  repeat c (targetLength - length s) ++ s.

(** The template literal of [getCurrentWeek] and [formatWeek], on the year
    and the ISO week the date library gives. *)
Definition weekId (year : Z) (week : N) : jsstring :=
  decimalZ year ++ [45; 87] ++ padStart 2 48 (decimal week).

(** Both regular expressions of [isValidWeekString] are the one of
    [generateWeekVariables], the first without its groups. *)
Definition isValidWeekString (weekStr : jsstring) : bool :=
  match Weekly.parseWeekString weekStr with
  | Some (_, week) => (1 <=? week) && (week <=? 53)
  | None => false
  end.

Section Workspace.

(** The surroundings as in [Weekly], and [renderWeeklyTemplate]: the
    template of the workspace rendered for a week (template/engine.ts). *)
Variable getWeeklyFilePath : jsstring -> jsstring.
Variable listDailyFiles : Weekly.FileSystem -> list Weekly.FileInfo.
Variable parseWeekly : jsstring -> jsstring -> Result WeeklyReport.
Variable parseDaily : jsstring -> jsstring -> Result DailyLog.
Variable serializeWeekly : WeeklyReport -> jsstring.
Variable weekStartEnd : N -> N -> jsstring * jsstring.
Variable getCurrentWeek : jsstring.
Variable localeCompare : jsstring -> jsstring -> Z.
Variable renderWeeklyTemplate :
  Weekly.FileSystem -> jsstring -> Result jsstring.

(** [createWeekly]; [week] is [input.week], [None] when it is not given. *)
Definition createWeekly (fs : Weekly.FileSystem) (week : option jsstring)
    (autoAggregate : bool) : Result (Weekly.FileSystem * WeeklyReport) :=
  let week :=
    match week with
    | Some w => if truthy w then w else getCurrentWeek
    | None => getCurrentWeek
    end in
  let filePath := getWeeklyFilePath week in
  match fs !! filePath with
  | Some _ =>
    Err (OtherError (u "Weekly report already exists for " ++ week))
  | None =>
    let? content := renderWeeklyTemplate fs week in
    let? weekly := parseWeekly content filePath in
    let? weekly :=
      (if autoAggregate then
         let? aggregation :=
           Weekly.aggregateFromDailies listDailyFiles parseDaily weekStartEnd
                                       localeCompare fs week in
         Ok {| wr_meta :=
                 {| weekly_week := weekly_week (wr_meta weekly);
                    weekly_type := weekly_type (wr_meta weekly);
                    weekly_start_date := weekly_start_date (wr_meta weekly);
                    weekly_end_date := weekly_end_date (wr_meta weekly);
                    weekly_projects := agg_projects aggregation |};
               wr_content := agg_content aggregation;
               wr_filePath := wr_filePath weekly |}
       else Ok weekly) in
    Ok (<[filePath := serializeWeekly weekly]> fs, weekly)
  end.

Definition deleteWeekly (fs : Weekly.FileSystem) (week : jsstring)
  : Result Weekly.FileSystem :=
  let filePath := getWeeklyFilePath week in
  match fs !! filePath with
  | None => Err (OtherError (u "Weekly report not found for " ++ week))
  | Some _ => Ok (delete filePath fs)
  end.

End Workspace.

End WeeklyOps.

(* ===================================================================== *)
(** ** template/engine.ts: variables *)
(* ===================================================================== *)

Module Template.

(** ECMAScript [\w]. *)
Definition isWordChar (c : N) : bool :=
  ((48 <=? c) && (c <=? 57)) || ((65 <=? c) && (c <=? 90))
  || ((97 <=? c) && (c <=? 122)) || (c =? 95).

Definition c_lbrace : N := 123.
Definition c_rbrace : N := 125.

(** The longest run of word characters and what follows it. *)
Fixpoint takeWord (s : jsstring) : jsstring * jsstring :=
  match s with
  | c :: s' =>
    if isWordChar c then
      let wr := takeWord s' in (c :: fst wr, snd wr)
    else ([], s)
  | [] => ([], [])
  end.

(** [\{\{(\w+)\}\}] attempted at the start of [s]: the group.  A closing
    brace is no word character, so only the longest run can be followed by
    the closing braces. *)
Definition matchVar (s : jsstring) : option jsstring :=
  match s with
  | a :: b :: s1 =>
    if (a =? c_lbrace) && (b =? c_lbrace) then
      match takeWord s1 with
      | (k :: key, c :: d :: _) =>
        if (c =? c_rbrace) && (d =? c_rbrace) then Some (k :: key) else None
      | _ => None
      end
    else None
  | _ => None
  end.

(** [template.replace(/\{\{(\w+)\}\}/g, ...)].  [variables key] is the value
    of [variables[key]] as the replacement inserts it, [None] for
    [undefined]; [skip] counts the code units of the current match still to
    be passed over. *)
Fixpoint replaceVariables (template : jsstring)
    (variables : jsstring -> option jsstring) (skip : nat) : jsstring :=
  match template with
  | [] => []
  | c :: s' =>
    match skip with
    | S k => replaceVariables s' variables k
    | O =>
      match matchVar template with
      | Some key =>
        (match variables key with
         | Some value => value
         | None => [c_lbrace; c_lbrace] ++ key ++ [c_rbrace; c_rbrace]
         end)
        ++ replaceVariables s' variables (length key + 3)
      | None => c :: replaceVariables s' variables 0
      end
    end
  end.

(** [extractVariables]: the groups of all matches, each once, in the order
    of their first occurrence. *)
Fixpoint scanVariables (template : jsstring) (skip : nat)
    (variables : list jsstring) : list jsstring :=
  match template with
  | [] => variables
  | c :: s' =>
    match skip with
    | S k => scanVariables s' k variables
    | O =>
      match matchVar template with
      | Some key => scanVariables s' (length key + 3) (setAdd key variables)
      | None => scanVariables s' 0 variables
      end
    end
  end.

Definition extractVariables (template : jsstring) : list jsstring :=
  scanVariables template 0 [].

End Template.

(* ===================================================================== *)
(** ** project/github-link.ts: repository URLs *)
(* ===================================================================== *)

Module GitHub.

Record GitHubRepoInfo := {
  gh_owner : jsstring;
  gh_repo : jsstring;
  gh_url : jsstring;
  gh_apiUrl : jsstring;
  gh_cloneUrl : jsstring;
  gh_sshUrl : jsstring
}.

Definition isAlnum (c : N) : bool :=
  ((48 <=? c) && (c <=? 57)) || ((65 <=? c) && (c <=? 90))
  || ((97 <=? c) && (c <=? 122)).

(** [[a-zA-Z0-9_-]] and [[a-zA-Z0-9_.-]] *)
Definition isOwnerChar (c : N) : bool :=
  isAlnum c || (c =? 95) || (c =? 45).
Definition isRepoChar (c : N) : bool := isOwnerChar c || (c =? 46).

Definition c_slash : N := 47.
Definition DOT_GIT : jsstring := Eval vm_compute in u ".git".
Definition HTTPS_HOST : jsstring := Eval vm_compute in u "https://github.com/".
Definition HTTP_HOST : jsstring := Eval vm_compute in u "http://github.com/".
Definition SSH_HOST : jsstring := Eval vm_compute in u "git@github.com:".
Definition API_REPOS : jsstring :=
  Eval vm_compute in u "https://api.github.com/repos/".

(** [([a-zA-Z0-9_-]+)\/]: the group and what follows the slash.  The run is
    taken as long as possible and given back one character at a time; a
    slash is not in the class, so only the whole run can be followed by
    one. *)
Fixpoint ownerSlash (s : jsstring) : option (jsstring * jsstring) :=
  match s with
  | c :: s' =>
    if isOwnerChar c then
      match ownerSlash s' with
      | Some (owner, rest) => Some (c :: owner, rest)
      | None =>
        match s' with
        | d :: rest => if d =? c_slash then Some ([c], rest) else None
        | [] => None
        end
      end
    else None
  | [] => None
  end.

(** [(\.git)?$] *)
Definition optGitEnd (s : jsstring) : bool := JS.eqb s DOT_GIT || isEmpty s.

(** [([a-zA-Z0-9_.-]+?)(\.git)?$]: the group.  The lazy run takes one
    character, then one more each time the rest does not match. *)
Fixpoint repoLazy (s : jsstring) : option jsstring :=
  match s with
  | c :: s' =>
    if isRepoChar c then
      if optGitEnd s' then Some [c] else option_map (cons c) (repoLazy s')
    else None
  | [] => None
  end.

(** [s.replace(/\.git$/, '')] *)
Definition stripDotGit (s : jsstring) : jsstring :=
  if endsWith s DOT_GIT then firstn (length s - 4) s else s.

(** [^([a-zA-Z0-9_-]+)\/([a-zA-Z0-9_.-]+)$] *)
Definition shortMatch (url : jsstring) : option (jsstring * jsstring) :=
  match ownerSlash url with
  | Some (owner, rest) =>
    if truthy rest && forallb isRepoChar rest then Some (owner, rest)
    else None
  | None => None
  end.

(** The part after a literal prefix. *)
Definition afterPrefix (p s : jsstring) : option jsstring :=
  if startsWith p s then Some (skipn (length p) s) else None.

(** The owner and the lazy group after the host part [rest]. *)
Definition ownerRepo (rest : option jsstring) : option (jsstring * jsstring) :=
  match rest with
  | Some r =>
    match ownerSlash r with
    | Some (owner, tail) =>
      match repoLazy tail with
      | Some repo => Some (owner, repo)
      | None => None
      end
    | None => None
    end
  | None => None
  end.

(** [^https?:\/\/github\.com\/...] *)
Definition httpsMatch (url : jsstring) : option (jsstring * jsstring) :=
  ownerRepo (match afterPrefix HTTPS_HOST url with
             | Some r => Some r
             | None => afterPrefix HTTP_HOST url
             end).

(** [^git@github\.com:...] *)
Definition sshMatch (url : jsstring) : option (jsstring * jsstring) :=
  ownerRepo (afterPrefix SSH_HOST url).

Definition repoInfo (owner repo : jsstring) : GitHubRepoInfo :=
  {| gh_owner := owner;
     gh_repo := repo;
     gh_url := HTTPS_HOST ++ owner ++ [c_slash] ++ repo;
     gh_apiUrl := API_REPOS ++ owner ++ [c_slash] ++ repo;
     gh_cloneUrl := HTTPS_HOST ++ owner ++ [c_slash] ++ repo ++ DOT_GIT;
     gh_sshUrl := SSH_HOST ++ owner ++ [c_slash] ++ repo ++ DOT_GIT |}.

Definition parseGitHubRepoUrl (url : jsstring) : option GitHubRepoInfo :=
  if negb (truthy url) then None
  else
    match shortMatch url with
    | Some (owner, repo) => Some (repoInfo owner (stripDotGit repo))
    | None =>
      match httpsMatch url with
      | Some (owner, repo) => Some (repoInfo owner repo)
      | None =>
        match sshMatch url with
        | Some (owner, repo) => Some (repoInfo owner repo)
        | None => None
        end
      end
    end.

Definition isValidGitHubRepoUrl (url : jsstring) : bool :=
  match parseGitHubRepoUrl url with
  | Some _ => true
  | None => false
  end.

Definition normalizeGitHubRepoUrl (url : jsstring) : jsstring :=
  match parseGitHubRepoUrl url with
  | Some info => gh_url info
  | None => url
  end.

Definition buildGitHubRepoUrl (owner repo : jsstring) : jsstring :=
  HTTPS_HOST ++ owner ++ [c_slash] ++ repo.

(** [toLowerCase] on the characters the URL patterns admit. *)
Definition toLowerCase (s : jsstring) : jsstring :=
  List.map (fun c => if (65 <=? c) && (c <=? 90) then c + 32 else c) s.

Definition isSameGitHubRepo (url1 url2 : jsstring) : bool :=
  match parseGitHubRepoUrl url1, parseGitHubRepoUrl url2 with
  | Some info1, Some info2 =>
    JS.eqb (toLowerCase (gh_owner info1)) (toLowerCase (gh_owner info2))
    && JS.eqb (toLowerCase (gh_repo info1)) (toLowerCase (gh_repo info2))
  | _, _ => false
  end.

End GitHub.

(* ===================================================================== *)
(** ** Checks by enumeration *)
(* ===================================================================== *)

Module Checks.

(** The digits of a year of four digits read back as the year; the two
    digits of a padded week read back as the week; a year below 1000 has
    at most three digits. *)
Definition yearChecked (year : N) : bool :=
  match WeeklyOps.decimal year with
  | [y1; y2; y3; y4] =>
    forallb Weekly.isDigit [y1; y2; y3; y4]
    && (Weekly.parseDigits [y1; y2; y3; y4] =? year)
  | _ => false
  end.

Definition weekChecked (week : N) : bool :=
  match WeeklyOps.padStart 2 48 (WeeklyOps.decimal week) with
  | [w1; w2] =>
    forallb Weekly.isDigit [w1; w2] && (Weekly.parseDigits [w1; w2] =? week)
  | _ => false
  end.

Definition shortYear (year : N) : bool :=
  (length (WeeklyOps.decimal year) <=? 3)%nat.

End Checks.

Import Checks.

(* ===================================================================== *)
(** ** Lemmas on strings and lines *)
(* ===================================================================== *)

Lemma splitLines_not_nil (s : jsstring) : splitLines s <> [].
Proof.
  destruct s as [|c s]; simpl; [discriminate|].
  destruct (c =? c_nl); [discriminate|].
  destruct (splitLines s); discriminate.
Qed.

Lemma splitLines_app_nl (a b : jsstring) :
  splitLines (a ++ c_nl :: b) = splitLines a ++ splitLines b.
Proof.
  induction a as [|c a IH]; simpl.
  - reflexivity.
  - destruct (c =? c_nl).
    + rewrite IH. reflexivity.
    + rewrite IH. pose proof (splitLines_not_nil a) as Hne.
      destruct (splitLines a); [contradiction|]. reflexivity.
Qed.

Lemma joinLines_cons2 (l l' : jsstring) (ls : list jsstring) :
  joinLines (l :: l' :: ls) = l ++ c_nl :: joinLines (l' :: ls).
Proof. reflexivity. Qed.

Lemma splitLines_joinLines (ls : list jsstring) :
  ls <> [] -> splitLines (joinLines ls) = flat_map splitLines ls.
Proof.
  induction ls as [|l ls IH]; intros Hne; [contradiction|].
  destruct ls as [|l' ls].
  - simpl. rewrite app_nil_r. reflexivity.
  - rewrite joinLines_cons2, splitLines_app_nl, IH by discriminate.
    reflexivity.
Qed.

Lemma joinLines_app (a b : list jsstring) :
  a <> [] -> b <> [] ->
  joinLines (a ++ b) = joinLines a ++ c_nl :: joinLines b.
Proof.
  induction a as [|l a IH]; intros Ha Hb; [contradiction|].
  destruct a as [|l' a].
  - destruct b; [contradiction|]. reflexivity.
  - change ((l :: l' :: a) ++ b) with (l :: l' :: (a ++ b)).
    rewrite !joinLines_cons2.
    change (l' :: a ++ b) with ((l' :: a) ++ b).
    rewrite IH by (discriminate || assumption).
    rewrite <- app_assoc. reflexivity.
Qed.

Lemma splitLines_noNewline (l : jsstring) :
  noNewline l = true -> splitLines l = [l].
Proof.
  induction l as [|c l IH]; simpl; [reflexivity|].
  intros H. apply andb_prop in H as [Hc Hl].
  apply negb_true_iff in Hc. rewrite Hc, (IH Hl). reflexivity.
Qed.

Lemma splitLines_lines_noNewline (s : jsstring) :
  Forall (fun l => noNewline l = true) (splitLines s).
Proof.
  induction s as [|c s IH]; simpl.
  - constructor; [reflexivity|constructor].
  - destruct (c =? c_nl) eqn:Hc.
    + constructor; [reflexivity|assumption].
    + destruct (splitLines s) as [|l ls].
      * constructor; [simpl; rewrite Hc; reflexivity | constructor].
      * inversion IH; subst.
        constructor; [simpl; rewrite Hc; assumption | assumption].
Qed.

Lemma startsWith_app (p b : jsstring) : startsWith p (p ++ b) = true.
Proof.
  induction p as [|c p IH]; simpl; [reflexivity|].
  rewrite N.eqb_refl. assumption.
Qed.

Lemma includes_app_r (a s p : jsstring) :
  includes s p = true -> includes (a ++ s) p = true.
Proof.
  intros H. induction a as [|c a IH]; simpl; [assumption|].
  rewrite IH. apply orb_true_r.
Qed.

Lemma includes_intro (a p b : jsstring) : includes (a ++ p ++ b) p = true.
Proof.
  apply includes_app_r. destruct p as [|c p].
  - destruct b; reflexivity.
  - change (includes ((c :: p) ++ b) (c :: p))
      with (startsWith (c :: p) ((c :: p) ++ b) || includes (p ++ b) (c :: p)).
    rewrite startsWith_app. reflexivity.
Qed.

Lemma includes_elim (s p : jsstring) :
  includes s p = true -> exists a b, s = a ++ p ++ b.
Proof.
  induction s as [|c s IH]; simpl.
  - rewrite orb_false_r. destruct p; [|discriminate].
    intros _. exists [], []. reflexivity.
  - intros H. apply orb_prop in H as [H|H].
    + clear IH. exists []. simpl.
      revert H. generalize (c :: s) as t. clear.
      induction p as [|x p IH]; intros t H.
      * exists t. reflexivity.
      * destruct t as [|y t]; [discriminate|]. simpl in H.
        apply andb_prop in H as [Hxy H]. apply N.eqb_eq in Hxy. subst y.
        destruct (IH _ H) as [b ->]. exists b. reflexivity.
    + destruct (IH H) as (a & b & ->). exists (c :: a), b. reflexivity.
Qed.

Lemma includes_trans (s q p : jsstring) :
  includes s q = true -> includes q p = true -> includes s p = true.
Proof.
  intros Hs Hq.
  apply includes_elim in Hs as (a & b & ->).
  apply includes_elim in Hq as (a' & b' & ->).
  replace (a ++ (a' ++ p ++ b') ++ b) with ((a ++ a') ++ p ++ (b' ++ b))
    by (rewrite <- !app_assoc; reflexivity).
  apply includes_intro.
Qed.

Lemma includes_refl (s : jsstring) : includes s s = true.
Proof.
  pose proof (includes_intro [] s []) as H.
  rewrite app_nil_r in H. exact H.
Qed.


(** A block of consecutive lines is a substring of the joined text. *)
Lemma includes_joinLines_block (x k y : list jsstring) :
  k <> [] -> includes (joinLines (x ++ k ++ y)) (joinLines k) = true.
Proof.
  intros Hk.
  assert (Hmid : includes (joinLines (k ++ y)) (joinLines k) = true).
  { destruct y as [|y0 y].
    - rewrite app_nil_r. apply includes_refl.
    - rewrite joinLines_app by (assumption || discriminate).
      apply (includes_intro []). }
  destruct x as [|x0 x]; [exact Hmid|].
  rewrite joinLines_app
    by (discriminate || (destruct k; [contradiction|discriminate])).
  change (joinLines (x0 :: x) ++ c_nl :: joinLines (k ++ y))
    with (joinLines (x0 :: x) ++ [c_nl] ++ joinLines (k ++ y)).
  rewrite app_assoc. apply includes_app_r. exact Hmid.
Qed.

(* ===================================================================== *)
(** ** Aggregation of an empty week *)
(* ===================================================================== *)

Lemma weeklyLines_empty (w : WeeklyMeta) :
  weeklyLines w [] [] [] =
  [T_TITLE_PREFIX ++ weekly_week w ++ T_TITLE_SUFFIX; [];
   H_SUMMARY; []; []; H_HIGHLIGHTS; []; NO_HIGHLIGHTS; [];
   H_PROJECTS; []; NO_PROJECTS; []]
  ++ [H_DAILIES; []; NO_DAILIES; []; H_RISKS]
  ++ [DASH; []; H_PLAN; DASH; []].
Proof. reflexivity. Qed.

(** C7. For every weekly metadata [w] (and whatever the collation), the
    aggregation of the empty list of daily logs is defined and has no
    projects, no highlights and no daily summaries; its metadata is [w]
    with an empty project list; and its content contains the literal
    fallback sentence for the empty week, placed under the Daily Summaries
    heading. *)
Theorem aggregate_empty (localeCompare : jsstring -> jsstring -> Z)
    (w : WeeklyMeta) :
  let A := aggregateDailiesToWeekly localeCompare [] w in
  agg_projects A = []
  /\ agg_highlights A = []
  /\ agg_dailySummaries A = []
  /\ weekly_projects (agg_meta A) = []
  /\ weekly_week (agg_meta A) = weekly_week w
  /\ A = aggregateSorted [] w
  /\ includes (agg_content A) NO_DAILIES = true
  /\ includes (agg_content A)
       (joinLines [H_DAILIES; []; NO_DAILIES; []; H_RISKS]) = true.
Proof.
  cbv zeta. repeat split; try reflexivity.
  - apply includes_trans
      with (q := joinLines [H_DAILIES; []; NO_DAILIES; []; H_RISKS]).
    + change (agg_content (aggregateDailiesToWeekly localeCompare [] w))
        with (joinLines (weeklyLines w [] [] [])).
      rewrite weeklyLines_empty. apply includes_joinLines_block. discriminate.
    + vm_compute. reflexivity.
  - change (agg_content (aggregateDailiesToWeekly localeCompare [] w))
      with (joinLines (weeklyLines w [] [] [])).
    rewrite weeklyLines_empty. apply includes_joinLines_block. discriminate.
Qed.

(* ===================================================================== *)
(** ** extractSection *)
(* ===================================================================== *)

Lemma extractLoop_acc (t : jsstring) (ls : list jsstring) (b : bool)
    (acc : list jsstring) :
  extractLoop t ls b acc = acc ++ extractLoop t ls b [].
Proof.
  revert b acc. induction ls as [|l ls IH]; intros b acc; simpl.
  - rewrite app_nil_r. reflexivity.
  - destruct (opensSection t l); [apply IH|].
    destruct b; simpl.
    + destruct (isHeading l); [rewrite app_nil_r; reflexivity|].
      rewrite IH, (IH true [l]), app_assoc. reflexivity.
    + apply IH.
Qed.

(** Inside the section: lines are collected up to the closing heading,
    those that open the section again being left out. *)
Lemma extractLoop_inside (t : jsstring) (ls : list jsstring) :
  extractLoop t ls true [] =
  List.filter (fun l => negb (opensSection t l))
    (takeUntil (fun l => isHeading l && negb (opensSection t l)) ls).
Proof.
  induction ls as [|l ls IH]; simpl; [reflexivity|].
  destruct (opensSection t l) eqn:Ho; simpl.
  - rewrite andb_false_r. simpl. rewrite Ho. simpl. exact IH.
  - rewrite andb_true_r. destruct (isHeading l); [reflexivity|].
    simpl. rewrite Ho. simpl. rewrite extractLoop_acc, IH. reflexivity.
Qed.

(** Outside the section: lines are passed over up to the first one that
    opens it. *)
Lemma extractLoop_outside (t : jsstring) (ls : list jsstring) :
  extractLoop t ls false [] =
  match afterFirst (opensSection t) ls with
  | None => []
  | Some rest => extractLoop t rest true []
  end.
Proof.
  induction ls as [|l ls IH]; simpl; [reflexivity|].
  destruct (opensSection t l); [reflexivity|exact IH].
Qed.

(** The loop against its declarative reading, for every body and title. *)
Lemma extractSection_amended_eq (body title : jsstring) :
  extractSection body title = extractSection_amended body title.
Proof.
  unfold extractSection, extractSection_amended.
  rewrite extractLoop_outside.
  destruct (afterFirst (opensSection title) (splitLines body)) as [rest|].
  - rewrite extractLoop_inside. reflexivity.
  - reflexivity.
Qed.

Lemma afterFirst_app {A : Type} (p : A -> bool) (pre : list A) (h : A)
    (rest : list A) :
  forallb (fun x => negb (p x)) pre = true -> p h = true ->
  afterFirst p (pre ++ h :: rest) = Some rest.
Proof.
  intros Hpre Hh. induction pre as [|x pre IH]; simpl.
  - rewrite Hh. reflexivity.
  - simpl in Hpre. apply andb_prop in Hpre as [Hx Hpre].
    apply negb_true_iff in Hx. rewrite Hx. apply IH, Hpre.
Qed.

Lemma takeUntil_app {A : Type} (stop : A -> bool) (interior rest : list A) :
  forallb (fun x => negb (stop x)) interior = true ->
  match rest with [] => True | c :: _ => stop c = true end ->
  takeUntil stop (interior ++ rest) = interior.
Proof.
  intros Hin Hrest. induction interior as [|x interior IH]; simpl.
  - destruct rest as [|c rest]; [reflexivity|]. simpl. rewrite Hrest.
    reflexivity.
  - simpl in Hin. apply andb_prop in Hin as [Hx Hin].
    apply negb_true_iff in Hx. rewrite Hx, (IH Hin). reflexivity.
Qed.

Lemma filter_all {A : Type} (p : A -> bool) (l : list A) :
  forallb p l = true -> List.filter p l = l.
Proof.
  induction l as [|x l IH]; simpl; [reflexivity|].
  intros H. apply andb_prop in H as [Hx Hl]. rewrite Hx, (IH Hl). reflexivity.
Qed.

(** C5 (as the code has it). For every body and title, [extractSection]
    returns the empty string when no line starts with a [#] run, optional
    whitespace and the title as a case-insensitive prefix.  Otherwise the
    first such line [h] opens the section, at any heading level; when the
    lines after it are [interior], none of them a heading, followed by a
    heading line or by the end of the body, the result is [interior],
    joined and trimmed, and nothing after the closing heading is read.
    (Lines of the section that start with the title pattern again are
    outside this statement.) *)
Theorem extractSection_contract (body title : jsstring) :
  (afterFirst (opensSection title) (splitLines body) = None ->
   extractSection body title = [])
  /\ (forall (pre : list jsstring) (h : jsstring)
             (interior rest : list jsstring),
        splitLines body = pre ++ h :: interior ++ rest ->
        forallb (fun l => negb (opensSection title l)) pre = true ->
        opensSection title h = true ->
        forallb (fun l => negb (isHeading l) && negb (opensSection title l))
                interior = true ->
        match rest with
        | [] => True
        | c :: _ => isHeading c = true /\ opensSection title c = false
        end ->
        extractSection body title = trim (joinLines interior)).
Proof.
  split.
  - intros Hnone. rewrite extractSection_amended_eq.
    unfold extractSection_amended. rewrite Hnone. reflexivity.
  - intros pre h interior rest Hlines Hpre Hh Hin Hrest.
    rewrite extractSection_amended_eq. unfold extractSection_amended.
    rewrite Hlines, (afterFirst_app _ _ _ _ Hpre Hh).
    rewrite takeUntil_app.
    + rewrite filter_all; [reflexivity|].
      clear -Hin. induction interior as [|x l IH]; simpl; [reflexivity|].
      simpl in Hin. apply andb_prop in Hin as [Hx Hl].
      apply andb_prop in Hx as [_ Hx]. rewrite Hx, (IH Hl). reflexivity.
    + clear -Hin. induction interior as [|x l IH]; simpl; [reflexivity|].
      simpl in Hin. apply andb_prop in Hin as [Hx Hl].
      apply andb_prop in Hx as [Hx _]. apply negb_true_iff in Hx.
      rewrite Hx, (IH Hl). reflexivity.
    + destruct rest as [|c rest]; [exact I|].
      destruct Hrest as [Hc Ho]. rewrite Hc, Ho. reflexivity.
Qed.

(** A section between two others, found whatever the case of the title
    and the level of its heading; and the body of the repository's test
    for a section that does not exist. *)
Lemma extractSection_contract_witness :
  extractSection (u "
# Daily Log

## 今日计划
- Task 1
- Task 2

### Done Today
- Done 1
- Done 2

## 备注
Some notes
") (u "done today") = u "- Done 1
- Done 2"
  /\ extractSection (u "# Test

## Section A
Content") (u "Non Existent") = [].
Proof.
  split.
  - refine (proj2 (extractSection_contract _ _)
              (List.map u [""; "# Daily Log"; ""; "## 今日计划"; "- Task 1";
                           "- Task 2"; ""]%string)
              (u "### Done Today")
              (List.map u ["- Done 1"; "- Done 2"; ""]%string)
              (List.map u ["## 备注"; "Some notes"; ""]%string)
              _ _ _ _ _).
    + vm_compute. reflexivity.
    + vm_compute. reflexivity.
    + vm_compute. reflexivity.
    + vm_compute. reflexivity.
    + vm_compute. split; reflexivity.
  - apply (proj1 (extractSection_contract _ _)). vm_compute. reflexivity.
Defined.

(** The specification asks for an exact match of the heading text; the
    code matches the title as a prefix, and [mergeWeeklyContent] depends on
    it: it looks for "本周总结" under the heading "本周总结（一句话）". *)
Lemma extractSection_prefix_match :
  extractSection (u "## 本周总结（一句话）
edited") (u "本周总结") = u "edited"
  /\ extractSection_spec (u "## 本周总结（一句话）
edited") (u "本周总结") = []
  /\ extractSection (u "## 本周总结（一句话）
edited") (u "本周总结")
     <> extractSection_spec (u "## 本周总结（一句话）
edited") (u "本周总结").
Proof.
  split; [vm_compute; reflexivity|].
  split; [vm_compute; reflexivity|].
  vm_compute. discriminate.
Qed.

(* ===================================================================== *)
(** ** generateExcerpt *)
(* ===================================================================== *)

Lemma trimStart_length (s : jsstring) : (length (trimStart s) <= length s)%nat.
Proof.
  induction s as [|c s IH]; simpl; [lia|].
  destruct (isSpace c); simpl; lia.
Qed.

Lemma trimEnd_length (s : jsstring) : (length (trimEnd s) <= length s)%nat.
Proof.
  induction s as [|c s IH]; simpl; [lia|].
  destruct (isSpace c && isEmpty (trimEnd s)); simpl; lia.
Qed.

Lemma trim_length (s : jsstring) : (length (trim s) <= length s)%nat.
Proof.
  unfold trim. pose proof (trimEnd_length (trimStart s)).
  pose proof (trimStart_length s). lia.
Qed.

Lemma endsWith_app (a p : jsstring) : endsWith (a ++ p) p = true.
Proof. unfold endsWith. rewrite rev_app_distr. apply startsWith_app. Qed.

Lemma substring0_length (s : jsstring) (n : Z) :
  (0 <= n)%Z -> (len (substring0 s n) <= n)%Z.
Proof.
  intros Hn. unfold len, substring0.
  pose proof (firstn_le_length (Z.to_nat n) s). 
  rewrite length_firstn. lia.
Qed.

(** C6 (as the code has it). For every input and every integer [N >= 0]:
    the excerpt has at most [N + 3] characters; when the cleaned input has
    at most [N] characters it is returned unchanged; otherwise the result
    is the first [N] characters of the cleaned input, trimmed again, with
    "..." appended, and it ends with "...". *)
Theorem generateExcerpt_bound (content : jsstring) (N : Z) :
  (0 <= N)%Z ->
  let cleaned := cleanContent content in
  let r := generateExcerpt content N in
  (len r <= N + 3)%Z
  /\ ((len cleaned <= N)%Z -> r = cleaned)
  /\ ((N < len cleaned)%Z ->
      r = trim (substring0 cleaned N) ++ ELLIPSIS
      /\ endsWith r ELLIPSIS = true
      /\ (len r <= len (substring0 cleaned N) + 3)%Z).
Proof.
  intros HN cleaned r. subst r. unfold generateExcerpt. fold cleaned.
  destruct (len cleaned <=? N)%Z eqn:Hle.
  - apply Z.leb_le in Hle. split; [lia|]. split; [reflexivity|]. lia.
  - apply Z.leb_gt in Hle.
    pose proof (trim_length (substring0 cleaned N)) as Ht.
    pose proof (substring0_length cleaned N HN) as Hs.
    assert (Hlen : len (trim (substring0 cleaned N) ++ ELLIPSIS)
                   = (len (trim (substring0 cleaned N)) + 3)%Z).
    { unfold len. rewrite length_app. simpl length. lia. }
    unfold len in *. split; [lia|]. split; [lia|].
    intros _. split; [reflexivity|]. split; [apply endsWith_app|lia].
Qed.

Lemma generateExcerpt_bound_witness :
  (0 <= 100)%Z
  /\ (100 < len (cleanContent (repeat 65%N 300%nat)))%Z
  /\ (len (generateExcerpt (repeat 65%N 300%nat) 100) <= 100 + 3)%Z
  /\ endsWith (generateExcerpt (repeat 65%N 300%nat) 100) ELLIPSIS = true.
Proof.
  pose proof (generateExcerpt_bound (repeat 65%N 300%nat) 100 ltac:(lia)) as H.
  cbv zeta in H. destruct H as (Hb & _ & Hl).
  assert (Hgt : (100 < len (cleanContent (repeat 65%N 300%nat)))%Z)
    by (vm_compute; reflexivity).
  destruct (Hl Hgt) as (_ & He & _).
  split; [lia|]. split; [exact Hgt|]. split; [exact Hb|exact He].
Defined.

(** The contract of the specification fails in three ways: the truncated
    text is trimmed again, so fewer than [N] characters may precede the
    suffix; a short input that itself ends in "..." is returned as it is;
    and a negative [N] gives "..." alone, longer than [N + 3]. *)
Lemma generateExcerpt_contract_fails :
  ~ excerpt_contract (u "ab cd") 3
  /\ ~ excerpt_contract (u "wait...") 200
  /\ ~ excerpt_contract (u "abc") (-1).
Proof.
  split; [|split].
  - intros (_ & _ & H & _).
    assert (Hlt : (3 < len (cleanContent (u "ab cd")))%Z)
      by (vm_compute; reflexivity).
    specialize (H Hlt). vm_compute in H. discriminate.
  - intros (_ & _ & _ & H).
    assert (He : endsWith (generateExcerpt (u "wait...") 200) ELLIPSIS = true)
      by (vm_compute; reflexivity).
    apply H in He. vm_compute in He. discriminate.
  - intros (H & _). vm_compute in H. apply H. reflexivity.
Qed.

(* ===================================================================== *)
(** ** extractListItems *)
(* ===================================================================== *)

Lemma takeNonTerminators_all (s : jsstring) :
  forallb (fun c => negb (isLineTerminator c)) s = true ->
  takeNonTerminators s = s.
Proof.
  induction s as [|c s IH]; simpl; [reflexivity|].
  intros H. apply andb_prop in H as [Hc Hs].
  apply negb_true_iff in Hc. rewrite Hc, (IH Hs). reflexivity.
Qed.

Lemma capture_text (c : N) (t : jsstring) :
  forallb (fun c => negb (isLineTerminator c)) (c :: t) = true ->
  capture (c :: t) = Some (c :: t).
Proof.
  intros H. unfold capture. rewrite (takeNonTerminators_all _ H). reflexivity.
Qed.

Lemma wsStarCapture_gap (gap : jsstring) (c : N) (t : jsstring) :
  forallb isSpace gap = true ->
  isSpace c = false ->
  forallb (fun c => negb (isLineTerminator c)) (c :: t) = true ->
  wsStarCapture (gap ++ c :: t) = Some (c :: t).
Proof.
  intros Hgap Hc Ht. induction gap as [|g gap IH].
  - simpl app. unfold wsStarCapture. rewrite Hc. apply capture_text, Ht.
  - simpl in Hgap. apply andb_prop in Hgap as [Hg Hgap].
    simpl. rewrite Hg, (IH Hgap). reflexivity.
Qed.

Lemma wsPlusItem_cons (c : N) (s : jsstring) :
  wsPlusItem (c :: s) =
  if isSpace c then
    match wsPlusItem s with
    | Some r => Some r
    | None => optOpen s
    end
  else None.
Proof. reflexivity. Qed.

Lemma wsPlusItem_gap (gap rest : jsstring) (r : jsstring) :
  gap <> [] ->
  forallb isSpace gap = true ->
  match rest with c :: _ => isSpace c = false | [] => True end ->
  optOpen rest = Some r ->
  wsPlusItem (gap ++ rest) = Some r.
Proof.
  intros Hne Hgap Hrest Hopen. induction gap as [|g gap IH]; [contradiction|].
  simpl in Hgap. apply andb_prop in Hgap as [Hg Hgap].
  change ((g :: gap) ++ rest) with (g :: (gap ++ rest)).
  rewrite wsPlusItem_cons, Hg.
  destruct gap as [|g' gap].
  - change ([] ++ rest) with rest. destruct rest as [|c rest].
    + exact Hopen.
    + rewrite wsPlusItem_cons, Hrest. exact Hopen.
  - rewrite IH by (discriminate || assumption). reflexivity.
Qed.

(** One well-formed line contributes what its shape says. *)
Lemma listItemOf_wellFormed (sl : SectionLine) :
  wellFormedLine sl = true -> listItemOf (renderLine sl) = yieldOf sl.
Proof.
  destruct sl as [marker gap box gap2 text|line]; simpl.
  - intros H.
    repeat (apply andb_prop in H as [H ?]).
    destruct text as [|c t]; [discriminate|].
    match goal with Hx : negb (isSpace c) && _ = true |- _ =>
      apply andb_prop in Hx as [Hc Hbox] end.
    apply negb_true_iff in Hc.
    assert (Hgapne : gap <> []) by (destruct gap; [discriminate|discriminate]).
    assert (Hm : matchListItem
                   (marker :: gap
                    ++ match box with
                       | Some mark => [c_lbracket; mark; c_rbracket]
                       | None => []
                       end ++ gap2 ++ c :: t) = Some (c :: t)).
    { unfold matchListItem. rewrite H.
      apply wsPlusItem_gap; try assumption.
      - destruct box; simpl; [reflexivity|].
        apply andb_prop in Hbox as [Hg2 _].
        destruct gap2; [exact Hc|discriminate].
      - destruct box as [mark|].
        + simpl app. unfold optOpen. rewrite N.eqb_refl.
          assert (Hmk : (mark =? 120) || (mark =? 88) || (mark =? 32) = true)
            by (destruct (mark =? 32), (mark =? 120), (mark =? 88);
                simpl in *; congruence).
          unfold optMark. rewrite Hmk.
          unfold optClose. rewrite N.eqb_refl.
          rewrite wsStarCapture_gap by assumption. reflexivity.
        + apply andb_prop in Hbox as [Hg2 Hx].
          destruct gap2; [|discriminate]. simpl app.
          apply negb_true_iff in Hx.
          repeat (apply orb_false_elim in Hx as [Hx ?]).
          unfold optOpen. rewrite Hx.
          unfold optMark.
          replace ((c =? 120) || (c =? 88) || (c =? 32)) with false.
          2:{ symmetry. repeat (apply orb_false_intro); try assumption.
              destruct (c =? 32) eqn:E; [|reflexivity].
              apply N.eqb_eq in E. subst c. discriminate. }
          unfold optClose.
          match goal with Hr : (c =? c_rbracket) = false |- _ => rewrite Hr end.
          apply (wsStarCapture_gap [] c t); [reflexivity|assumption|assumption]. }
    unfold listItemOf. rewrite Hm.
    assert (Htr : truthy (trim (c :: t)) = true).
    { unfold trim. simpl trimStart. rewrite Hc. simpl trimEnd. rewrite Hc.
      reflexivity. }
    rewrite Htr. reflexivity.
  - intros H. unfold listItemOf, matchListItem.
    destruct line as [|c [|d rest]]; [reflexivity| |].
    + destruct ((c =? c_dash) || (c =? c_star)); reflexivity.
    + destruct ((c =? c_dash) || (c =? c_star)); [|reflexivity].
      simpl in H. apply negb_true_iff in H. simpl. rewrite H. reflexivity.
Qed.

(** C8 (as the code has it). For every body and title, and however the
    lines of the section are read as shapes, [extractListItems] yields, in
    document order and without deduplication, what each line gives.  A
    well-formed item (a [-] or [*] marker, at least one whitespace
    character, an optional complete checkbox [[ ]], [[x]] or [[X]], and a
    text that without a checkbox does not begin with [[], []], [x] or [X])
    gives its trimmed text, whatever the state of the checkbox; a line
    that does not begin with a marker and whitespace gives nothing; any
    other line gives what the pattern of the code captures in it.  The
    three lines of the specification's example give exactly "Task 1",
    "Unchecked", "Checked". *)
Theorem extractListItems_wellFormed (body title : jsstring)
    (sls : list SectionLine) :
  splitLines (extractSection body title) = List.map renderLine sls ->
  extractListItems body title
  = flat_map (fun sl => if wellFormedLine sl then yieldOf sl
                        else listItemOf (renderLine sl)) sls
  /\ (forallb wellFormedLine sls = true ->
      extractListItems body title = flat_map yieldOf sls)
  /\ extractListItems (u "## Tasks
- Task 1
- [ ] Unchecked
- [x] Checked") (u "Tasks") = [u "Task 1"; u "Unchecked"; u "Checked"].
Proof.
  intros Hlines.
  assert (Hall : extractListItems body title
                 = flat_map (fun sl => if wellFormedLine sl then yieldOf sl
                                       else listItemOf (renderLine sl)) sls).
  { unfold extractListItems. rewrite Hlines. clear Hlines.
    induction sls as [|sl sls IH]; [reflexivity|].
    cbn [List.map flat_map]. rewrite IH. f_equal.
    destruct (wellFormedLine sl) eqn:Hsl; [|reflexivity].
    apply listItemOf_wellFormed, Hsl. }
  split; [exact Hall|]. split; [|vm_compute; reflexivity].
  intros Hwf. rewrite Hall. clear Hall Hlines.
  induction sls as [|sl sls IH]; [reflexivity|].
  cbn [forallb] in Hwf. apply andb_prop in Hwf as [Hsl Hwf].
  cbn [flat_map]. rewrite Hsl, (IH Hwf). reflexivity.
Qed.

(** The section of the repository's test (plain items, both checkbox
    states, a duplicate, a blank line) with two lines outside the
    well-formed shapes. *)
Lemma extractListItems_wellFormed_witness :
  extractListItems (u "
## Tasks
- Task 1
- Task 1
- x-ray
* [ ] Unchecked task
- [X] Checked task
- [ ]

plain text
## Other
- Not this
") (u "Tasks")
  = [u "Task 1"; u "Task 1"] ++ listItemOf (u "- x-ray")
    ++ [u "Unchecked task"; u "Checked task"] ++ listItemOf (u "- [ ]").
Proof.
  etransitivity.
  - refine (proj1 (extractListItems_wellFormed _ _
      [Item 45 (u " ") None [] (u "Task 1");
       Item 45 (u " ") None [] (u "Task 1");
       Other (u "- x-ray");
       Item 42 (u " ") (Some 32) (u " ") (u "Unchecked task");
       Item 45 (u " ") (Some 88) (u " ") (u "Checked task");
       Other (u "- [ ]");
       Other [];
       Other (u "plain text")] _)).
    vm_compute. reflexivity.
  - vm_compute. reflexivity.
Defined.

(** The pattern of the code asks for whitespace after the marker, where
    the pattern of the specification does not: "-item" is an item for the
    specification and not for the code. *)
Lemma extractListItems_needs_gap :
  extractListItems (u "## Tasks
-item") (u "Tasks") = []
  /\ extractListItems_spec (u "## Tasks
-item") (u "Tasks") = [u "item"]
  /\ extractListItems (u "## Tasks
-item") (u "Tasks")
     <> extractListItems_spec (u "## Tasks
-item") (u "Tasks").
Proof.
  split; [vm_compute; reflexivity|].
  split; [vm_compute; reflexivity|].
  vm_compute. discriminate.
Qed.

(** Outside the well-formed shapes: the three optional parts of the
    pattern of the code are independent, so that a plain item loses a
    leading [x], [X], [[] or []]. *)
Example extractListItems_eats_mark :
  extractListItems (u "## Tasks
- x-ray the sample
- [important] note") (u "Tasks")
  = [u "-ray the sample"; u "important] note"].
Proof. vm_compute. reflexivity. Qed.

(* ===================================================================== *)
(** ** parseFrontmatter on a text without front matter *)
(* ===================================================================== *)

Section NoFrontMatter.

Variable frontMatterEngine : jsstring -> Result (Meta * jsstring).
Variable parseDate : jsstring -> option Z.
Variable formatDate : Z -> jsstring.
Variable stringOf : Yaml -> jsstring.
Variable today : jsstring.

Lemma jsstring_eqb_eq (a b : jsstring) : JS.eqb a b = true -> a = b.
Proof.
  revert b. induction a as [|x a IH]; intros [|y b]; simpl;
    try discriminate; [reflexivity|].
  intros H. apply andb_prop in H as [Hx Hab]. apply N.eqb_eq in Hx.
  rewrite Hx, (IH b Hab). reflexivity.
Qed.

Lemma inherited_nonempty (input : jsstring) :
  inherited (stripBom input) = true -> isEmpty input = false.
Proof. destruct input; [discriminate|reflexivity]. Qed.

(** A text without the delimiter, not seen before or stored untouched. *)
Lemma matter_without_delimiter (cache : Cache) (input : jsstring) :
  startsWith DELIM (stripBom input) = false ->
  inherited (stripBom input) = false ->
  unmodified cache (stripBom input) = true ->
  fst (matter frontMatterEngine cache input)
  = Ok (FileOf [] (stripBom input)).
Proof.
  intros H Hi Hc. unfold matter.
  destruct input as [|c input']; [reflexivity|].
  cbn [isEmpty]. cbv zeta. rewrite Hi. unfold unmodified in Hc.
  destruct (cache !! stripBom (c :: input')) as [[[|kv data] content]|].
  - apply jsstring_eqb_eq in Hc. rewrite Hc. reflexivity.
  - discriminate.
  - rewrite H. reflexivity.
Qed.

(** The name of a member of [Object.prototype]. *)
Lemma matter_inherited (cache : Cache) (input : jsstring) :
  inherited (stripBom input) = true ->
  matter frontMatterEngine cache input = (Ok Bare, cache).
Proof.
  intros Hi. unfold matter. rewrite (inherited_nonempty input Hi).
  cbv zeta. rewrite Hi. reflexivity.
Qed.

(** C3 (as the code has it). Let the leading [---] delimiter of the input
    be absent.  When the input, without its byte order mark, is not the
    name of a member of [Object.prototype] and the cache of gray-matter
    holds no modified file for it, [parseFrontmatter] succeeds: it returns
    an empty metadata mapping and the whole input, trimmed, as the body;
    the error comes from the kind-specific parsers, which reject the empty
    mapping with the [ParseError] of their first required field ([date],
    [week], [project]).  When the input is such a name ([constructor],
    [toString], ...), the lookup in the cache finds the inherited member
    and [parseFrontmatter] throws a [TypeError], which is no
    [ParseError]. *)
Theorem parseFrontmatter_without_delimiter (cache : Cache)
    (input filePath : jsstring) :
  startsWith DELIM (stripBom input) = false ->
  (inherited (stripBom input) = false ->
   unmodified cache (stripBom input) = true ->
   fst (parseFrontmatter frontMatterEngine cache input)
   = Ok {| pr_meta := [];
           pr_content := trim (stripBom input);
           pr_raw := input |}
   /\ parseDaily frontMatterEngine parseDate formatDate stringOf
                 cache input filePath
      = Err (ParseError (u "Daily log missing required field: date")
                        (Some (u "date")))
   /\ parseWeekly frontMatterEngine parseDate formatDate stringOf
                  cache input filePath
      = Err (ParseError (u "Weekly report missing required field: week")
                        (Some (u "week")))
   /\ parseProject frontMatterEngine parseDate formatDate stringOf today
                   cache input filePath
      = Err (ParseError (u "Project file missing required field: project")
                        (Some (u "project"))))
  /\ (inherited (stripBom input) = true ->
      parseFrontmatter frontMatterEngine cache input
      = (Err TRIM_OF_UNDEFINED, cache)
      /\ parseDaily frontMatterEngine parseDate formatDate stringOf
                    cache input filePath
         = Err TRIM_OF_UNDEFINED).
Proof.
  intros H. split.
  - intros Hi Hc.
    assert (Hp : fst (parseFrontmatter frontMatterEngine cache input)
                 = Ok {| pr_meta := [];
                         pr_content := trim (stripBom input);
                         pr_raw := input |}).
    { unfold parseFrontmatter.
      pose proof (matter_without_delimiter cache input H Hi Hc) as Hm.
      destruct (matter frontMatterEngine cache input) as [r c'].
      cbn [fst] in Hm. rewrite Hm. reflexivity. }
    split; [exact Hp|].
    unfold parseDaily, parseWeekly, parseProject, parseWith.
    rewrite Hp. repeat split.
  - intros Hi.
    assert (Hp : parseFrontmatter frontMatterEngine cache input
                 = (Err TRIM_OF_UNDEFINED, cache)).
    { unfold parseFrontmatter. rewrite (matter_inherited cache input Hi).
      reflexivity. }
    split; [exact Hp|].
    unfold parseDaily, parseWith. rewrite Hp. reflexivity.
Qed.

End NoFrontMatter.

(** A Markdown file without front matter and the text [constructor], on
    an empty cache and under an engine that rejects everything it is
    given. *)
Lemma parseFrontmatter_without_delimiter_witness :
  fst (parseFrontmatter (fun _ => Err (OtherError [])) ∅ (u "# Notes

plain text
"))
  = Ok {| pr_meta := [];
          pr_content := u "# Notes

plain text";
          pr_raw := u "# Notes

plain text
" |}
  /\ fst (parseFrontmatter (fun _ => Err (OtherError [])) ∅
                           (u "constructor"))
     = Err TRIM_OF_UNDEFINED.
Proof.
  split.
  - refine (proj1 (proj1 (parseFrontmatter_without_delimiter
                     (fun _ => Err (OtherError [])) (fun _ => None)
                     (fun _ => []) (fun _ => []) [] ∅ _ [] _) _ _));
      vm_compute; reflexivity.
  - rewrite (proj1 (proj2 (parseFrontmatter_without_delimiter
                      (fun _ => Err (OtherError [])) (fun _ => None)
                      (fun _ => []) (fun _ => []) [] ∅ (u "constructor") []
                      eq_refl) eq_refl)).
    reflexivity.
Defined.

(** The specification has the parse fail on such a text; the code returns
    the empty mapping, whatever the engine. *)
Lemma parseFrontmatter_does_not_fail : ~ parse_fails_without_delimiter.
Proof.
  intros H.
  destruct (H (fun _ => Err (OtherError [])) ∅ (u "plain text")
              ltac:(vm_compute; reflexivity)) as [e He].
  vm_compute in He. discriminate.
Qed.

(** The readers of a whole directory do recover: a daily file whose parse
    fails, for want of front matter or of a field, is left out of the
    week. *)
Lemma readDaily_skips_failure
    (parseDaily : jsstring -> jsstring -> Result DailyLog)
    (fs : Weekly.FileSystem) (filePath content : jsstring) (e : Error) :
  fs !! filePath = Some content ->
  parseDaily content filePath = Err e ->
  Weekly.readDaily parseDaily fs filePath = [].
Proof.
  intros Hf Hp. unfold Weekly.readDaily. rewrite Hf, Hp. reflexivity.
Qed.

(* ===================================================================== *)
(** ** generateWeekly on an existing report *)
(* ===================================================================== *)

Section GenerateExisting.

Variable getWeeklyFilePath : jsstring -> jsstring.
Variable listDailyFiles : Weekly.FileSystem -> list Weekly.FileInfo.
Variable parseWeekly : jsstring -> jsstring -> Result WeeklyReport.
Variable parseDaily : jsstring -> jsstring -> Result DailyLog.
Variable serializeWeekly : WeeklyReport -> jsstring.
Variable weekStartEnd : N -> N -> jsstring * jsstring.
Variable getCurrentWeek : jsstring.
Variable localeCompare : jsstring -> jsstring -> Z.

Let aggregateFromDailies :=
  Weekly.aggregateFromDailies listDailyFiles parseDaily weekStartEnd
                              localeCompare.
Let generateWeekly :=
  Weekly.generateWeekly getWeeklyFilePath listDailyFiles parseWeekly
                        parseDaily serializeWeekly weekStartEnd
                        getCurrentWeek localeCompare.

Lemma aggregateFromDailies_valid (fs : Weekly.FileSystem) (w : jsstring)
    (year week : N) :
  Weekly.parseWeekString w = Some (year, week) ->
  exists dailies,
    aggregateFromDailies fs w
    = Ok (aggregateDailiesToWeekly localeCompare dailies
            (createDefaultWeeklyMeta w (fst (weekStartEnd year week))
                                       (snd (weekStartEnd year week)))).
Proof.
  intros Hw. unfold aggregateFromDailies, Weekly.aggregateFromDailies,
    Weekly.getDailiesForWeek, Weekly.getWeekDateRange.
  rewrite Hw. simpl. eexists. reflexivity.
Qed.

(** The week the call works on: the argument, or the week of the clock
    when the argument is omitted or empty. *)
Let targetWeek (week : option jsstring) : jsstring :=
  match week with
  | Some w => if truthy w then w else getCurrentWeek
  | None => getCurrentWeek
  end.

(** C9. When the report of the target week [w] exists and parses as
    [existing], and [w] is a week identifier, [generateWeekly] succeeds;
    the report it serialises and writes has the [week], [type],
    [start_date] and [end_date] of [existing], the project list of the
    fresh aggregation, the merged body and the path of [existing]; it is
    written at the path of the week, and no other file is changed. *)
Theorem generateWeekly_existing (fs : Weekly.FileSystem)
    (week : option jsstring) (raw : jsstring) (existing : WeeklyReport)
    (year weekNo : N) :
  let w := targetWeek week in
  fs !! getWeeklyFilePath w = Some raw ->
  parseWeekly raw (getWeeklyFilePath w) = Ok existing ->
  Weekly.parseWeekString w = Some (year, weekNo) ->
  exists (aggregation : WeeklyAggregation) (weekly : WeeklyReport),
    aggregateFromDailies fs w = Ok aggregation
    /\ generateWeekly fs week
       = Ok (<[getWeeklyFilePath w := serializeWeekly weekly]> fs, weekly)
    /\ weekly_week (wr_meta weekly) = weekly_week (wr_meta existing)
    /\ weekly_type (wr_meta weekly) = weekly_type (wr_meta existing)
    /\ weekly_start_date (wr_meta weekly)
       = weekly_start_date (wr_meta existing)
    /\ weekly_end_date (wr_meta weekly) = weekly_end_date (wr_meta existing)
    /\ weekly_projects (wr_meta weekly) = agg_projects aggregation
    /\ wr_content weekly
       = mergeWeeklyContent (wr_content existing) aggregation
    /\ wr_filePath weekly = wr_filePath existing
    /\ (forall p : jsstring,
          p <> getWeeklyFilePath w ->
          (<[getWeeklyFilePath w := serializeWeekly weekly]> fs) !! p
          = fs !! p).
Proof.
  intros w Hfile Hparse Hweek.
  destruct (aggregateFromDailies_valid fs w year weekNo Hweek)
    as [dailies Hagg].
  eexists. eexists. split; [exact Hagg|].
  split.
  - unfold generateWeekly, Weekly.generateWeekly, Weekly.getWeekly.
    fold (targetWeek week). fold w.
    rewrite Hfile, Hparse. simpl bind.
    fold aggregateFromDailies. rewrite Hagg. simpl bind. reflexivity.
  - repeat split.
    intros p Hp. apply lookup_insert_ne. congruence.
Qed.

End GenerateExisting.

(** The report of week 2026-W03 exists with hand-written dates, and the
    workspace has no daily log. *)
Lemma generateWeekly_existing_witness :
  let path := fun w : jsstring => u "weekly/" ++ w ++ u ".md" in
  let existing :=
    {| wr_meta := {| weekly_week := u "2026-W03";
                     weekly_type := u "weekly";
                     weekly_start_date := u "2026-01-12";
                     weekly_end_date := u "2026-01-18";
                     weekly_projects := [u "old"] |};
       wr_content := u "# Week 2026-W03";
       wr_filePath := path (u "2026-W03") |} in
  let fs : Weekly.FileSystem := {[ path (u "2026-W03") := u "raw" ]} in
  exists aggregation weekly,
    Weekly.generateWeekly path (fun _ => [])
      (fun _ _ => Ok existing) (fun _ _ => Err (OtherError []))
      (fun _ => []) (fun _ _ => (u "2026-01-12", u "2026-01-18"))
      (u "2026-W45") codeUnitCompare fs (Some (u "2026-W03"))
    = Ok (<[path (u "2026-W03") := []]> fs, weekly)
    /\ weekly_start_date (wr_meta weekly) = u "2026-01-12"
    /\ weekly_projects (wr_meta weekly) = agg_projects aggregation.
Proof.
  intros path existing fs.
  destruct (generateWeekly_existing path (fun _ => [])
              (fun _ _ => Ok existing) (fun _ _ => Err (OtherError []))
              (fun _ => []) (fun _ _ => (u "2026-01-12", u "2026-01-18"))
              (u "2026-W45") codeUnitCompare fs (Some (u "2026-W03"))
              (u "raw") existing 2026 3)
    as (aggregation & weekly & _ & Hgen & _ & _ & Hstart & _ & Hproj & _).
  - apply lookup_singleton_eq.
  - reflexivity.
  - reflexivity.
  - exists aggregation, weekly. split; [exact Hgen|]. split; assumption.
Defined.

(* ===================================================================== *)
(** ** The input array of the aggregator *)
(* ===================================================================== *)

Section InputArray.

Variable localeCompare : jsstring -> jsstring -> Z.

Lemma spread_fresh (h : Heap.heap) (dailies copy : Heap.loc)
    (h1 : Heap.heap) (D : list DailyLog) :
  h !! dailies = Some D ->
  Heap.spread h dailies = Some (h1, copy) ->
  copy <> dailies /\ h1 = <[copy := D]> h /\ h !! copy = None.
Proof.
  intros HD Hs. unfold Heap.spread in Hs. rewrite HD in Hs.
  injection Hs as <- <-.
  assert (Hfresh : h !! fresh (dom h) = None).
  { apply not_elem_of_dom. apply is_fresh. }
  split; [|split; [reflexivity|exact Hfresh]].
  intros Heq. rewrite Heq in Hfresh. congruence.
Qed.

(** C10. When the aggregator is given the array at location [dailies],
    holding the daily logs [D], it returns the aggregation of [D], and in
    the heap it leaves the array at [dailies] holds the same elements in
    the same order; so does every other array that existed before the call
    (the sort works on a copy, the only array the call adds). *)
Theorem aggregate_keeps_input (h : Heap.heap) (dailies : Heap.loc)
    (D : list DailyLog) (weekMeta : WeeklyMeta) :
  h !! dailies = Some D ->
  exists h',
    Heap.aggregateDailiesToWeekly localeCompare h dailies weekMeta
    = Some (h', aggregateDailiesToWeekly localeCompare D weekMeta)
    /\ h' !! dailies = Some D
    /\ (forall l : Heap.loc, is_Some (h !! l) -> h' !! l = h !! l).
Proof.
  intros HD.
  unfold Heap.aggregateDailiesToWeekly.
  destruct (Heap.spread h dailies) as [[h1 copy]|] eqn:Hs.
  2:{ unfold Heap.spread in Hs. rewrite HD in Hs. discriminate. }
  destruct (spread_fresh h dailies copy h1 D HD Hs) as (Hne & -> & Hnone).
  unfold Heap.sortInPlace.
  assert (Hcopy : alter (sortByDate localeCompare) copy (<[copy := D]> h)
                  !! copy = Some (sortByDate localeCompare D)).
  { rewrite lookup_alter_eq, lookup_insert_eq. reflexivity. }
  rewrite Hcopy. eexists. split; [reflexivity|]. split.
  - rewrite lookup_alter_ne, lookup_insert_ne by assumption. exact HD.
  - intros l [x Hl].
    assert (copy <> l) by (intros ->; congruence).
    rewrite lookup_alter_ne, lookup_insert_ne by assumption. reflexivity.
Qed.

End InputArray.

(** Two daily logs given out of order stay out of order in the caller's
    array. *)
Lemma aggregate_keeps_input_witness :
  let d15 := {| dl_meta := createDefaultDailyMeta (u "2026-01-15") (u "2026-W03");
                dl_content := u "later"; dl_filePath := u "daily/2026-01-15.md" |} in
  let d12 := {| dl_meta := createDefaultDailyMeta (u "2026-01-12") (u "2026-W03");
                dl_content := u "earlier"; dl_filePath := u "daily/2026-01-12.md" |} in
  let h : Heap.heap := {[ 1%positive := [d15; d12] ]} in
  let w := createDefaultWeeklyMeta (u "2026-W03") (u "2026-01-12") (u "2026-01-18") in
  sortByDate codeUnitCompare [d15; d12] = [d12; d15]
  /\ exists h',
       Heap.aggregateDailiesToWeekly codeUnitCompare h 1%positive w
       = Some (h', aggregateDailiesToWeekly codeUnitCompare [d15; d12] w)
       /\ h' !! 1%positive = Some [d15; d12].
Proof.
  intros d15 d12 h w. split; [vm_compute; reflexivity|].
  destruct (aggregate_keeps_input codeUnitCompare h 1%positive [d15; d12] w)
    as (h' & Hrun & Hin & _).
  - apply lookup_singleton_eq.
  - exists h'. split; assumption.
Defined.

(* ===================================================================== *)
(** ** The lines of a generated report *)
(* ===================================================================== *)

Lemma cleanLines_app (a b : list jsstring) :
  cleanLines (a ++ b) = cleanLines a && cleanLines b.
Proof. apply forallb_app. Qed.

Lemma cleanLines_flat_map {A : Type} (f g : A -> list jsstring)
    (xs : list A) :
  (forall x, forallb pieceClean (g x) = true ->
             cleanLines (flat_map splitLines (f x)) = true) ->
  forallb pieceClean (flat_map g xs) = true ->
  cleanLines (flat_map splitLines (flat_map f xs)) = true.
Proof.
  intros Hfg. induction xs as [|x xs IH]; simpl; [reflexivity|].
  rewrite forallb_app, flat_map_app, cleanLines_app.
  intros H. apply andb_prop in H as [Hx Hxs].
  rewrite (Hfg x Hx), (IH Hxs). reflexivity.
Qed.

Lemma clean_highlightLines (h : HighlightEntry) :
  forallb pieceClean [H3 ++ hl_date h; hl_content h] = true ->
  cleanLines (flat_map splitLines (highlightLines h)) = true.
Proof.
  cbn [forallb]. rewrite andb_true_r. intros H. apply andb_prop in H as [Hd Hc].
  unfold highlightLines.
  change (flat_map splitLines [H3 ++ hl_date h; []; hl_content h; []])
    with (splitLines (H3 ++ hl_date h) ++ [[]]
          ++ splitLines (hl_content h) ++ [[]]).
  unfold cleanLines, pieceClean in *.
  rewrite !forallb_app, Hd, Hc. reflexivity.
Qed.

Lemma clean_projectLines (p : jsstring) :
  forallb pieceClean [H3 ++ p] = true ->
  cleanLines (flat_map splitLines (projectLines p)) = true.
Proof.
  cbn [forallb]. rewrite andb_true_r. intros Hp.
  unfold projectLines.
  change (flat_map splitLines [H3 ++ p; P_PROGRESS; P_STATUS; P_NEXT; []])
    with (splitLines (H3 ++ p)
          ++ flat_map splitLines [P_PROGRESS; P_STATUS; P_NEXT; []]).
  unfold cleanLines, pieceClean in *.
  rewrite forallb_app, Hp. vm_compute. reflexivity.
Qed.

Lemma clean_summaryLines (s : DailySummary) :
  forallb pieceClean [summaryHeading s; ds_excerpt s] = true ->
  cleanLines (flat_map splitLines (summaryLines s)) = true.
Proof.
  cbn [forallb]. rewrite andb_true_r. intros H. apply andb_prop in H as [Hh He].
  unfold summaryLines.
  set (body := if truthy (ds_excerpt s) then ds_excerpt s else NO_CONTENT).
  change (flat_map splitLines [summaryHeading s; []; body; []])
    with (splitLines (summaryHeading s) ++ [[]] ++ splitLines body ++ [[]]).
  unfold cleanLines, pieceClean in *.
  rewrite !forallb_app, Hh. subst body.
  destruct (truthy (ds_excerpt s)).
  - rewrite He. reflexivity.
  - vm_compute. reflexivity.
Qed.

Lemma generated_lines (w : WeeklyMeta) (ps : list jsstring)
    (hs : list HighlightEntry) (ss : list DailySummary) :
  splitLines (generateWeeklyContent w ps hs ss) =
  splitLines (T_TITLE_PREFIX ++ weekly_week w ++ T_TITLE_SUFFIX)
  ++ [[]; H_SUMMARY; []; []; H_HIGHLIGHTS]
  ++ middleLines ps hs ss
  ++ [H_RISKS; DASH; []; H_PLAN; DASH; []].
Proof.
  unfold generateWeeklyContent.
  rewrite splitLines_joinLines by (unfold weeklyLines; discriminate).
  unfold weeklyLines, middleLines.
  rewrite !flat_map_app. simpl flat_map at 1.
  rewrite <- !app_assoc. reflexivity.
Qed.

Lemma clean_middleLines (w : WeeklyMeta) (ps : list jsstring)
    (hs : list HighlightEntry) (ss : list DailySummary) :
  forallb pieceClean (dataPieces w ps hs ss) = true ->
  cleanLines (splitLines (T_TITLE_PREFIX ++ weekly_week w ++ T_TITLE_SUFFIX))
  = true
  /\ cleanLines (middleLines ps hs ss) = true.
Proof.
  unfold dataPieces. rewrite !forallb_app. intros H.
  apply andb_prop in H as [Ht H]. apply andb_prop in H as [Hh H].
  apply andb_prop in H as [Hp Hs].
  split.
  - simpl in Ht. rewrite andb_true_r in Ht. exact Ht.
  - unfold middleLines. rewrite !cleanLines_app.
    assert (H1 : cleanLines (flat_map splitLines
                  match hs with
                  | [] => [NO_HIGHLIGHTS; []]
                  | _ :: _ => flat_map highlightLines hs
                  end) = true).
    { destruct hs as [|h hs']; [vm_compute; reflexivity|].
      apply (cleanLines_flat_map _ _ _ clean_highlightLines Hh). }
    assert (H2 : cleanLines (flat_map splitLines
                  match ps with
                  | [] => [NO_PROJECTS; []]
                  | _ :: _ => flat_map projectLines ps
                  end) = true).
    { destruct ps as [|p ps']; [vm_compute; reflexivity|].
      apply (cleanLines_flat_map _ _ _ clean_projectLines Hp). }
    assert (H3' : cleanLines (flat_map splitLines
                  match ss with
                  | [] => [NO_DAILIES; []]
                  | _ :: _ => flat_map summaryLines ss
                  end) = true).
    { destruct ss as [|s ss']; [vm_compute; reflexivity|].
      apply (cleanLines_flat_map _ _ _ clean_summaryLines Hs). }
    rewrite H1, H2, H3'. vm_compute. reflexivity.
Qed.

(** Lines that do not open the section are passed over. *)
Lemma extractLoop_skip (t : jsstring) (pre rest : list jsstring)
    (acc : list jsstring) :
  forallb (fun l => negb (opensSection t l)) pre = true ->
  extractLoop t (pre ++ rest) false acc = extractLoop t rest false acc.
Proof.
  induction pre as [|l pre IH]; simpl; [reflexivity|].
  intros H. apply andb_prop in H as [Hl Hpre].
  apply negb_true_iff in Hl. rewrite Hl. apply IH, Hpre.
Qed.

Lemma cleanLines_quiet (ls : list jsstring) :
  cleanLines ls = true ->
  forallb (fun l => negb (opensSection T_SUMMARY l)) ls = true
  /\ forallb (fun l => negb (opensSection T_RISKS l)) ls = true
  /\ forallb (fun l => negb (opensSection T_PLAN l)) ls = true.
Proof.
  unfold cleanLines, opensPreserved.
  induction ls as [|l ls IH]; simpl; [auto|].
  intros H. apply andb_prop in H as [Hl Hls].
  destruct (IH Hls) as (H1 & H2 & H3).
  rewrite H1, H2, H3.
  destruct (opensSection T_SUMMARY l), (opensSection T_RISKS l),
    (opensSection T_PLAN l); simpl in *; try discriminate; auto.
Qed.

(** What the merge reads from a generated report whose data is clean: the
    three placeholders. *)
Lemma generated_sections (w : WeeklyMeta) (ps : list jsstring)
    (hs : list HighlightEntry) (ss : list DailySummary) :
  forallb pieceClean (dataPieces w ps hs ss) = true ->
  extractSection (generateWeeklyContent w ps hs ss) T_SUMMARY = []
  /\ extractSection (generateWeeklyContent w ps hs ss) T_RISKS = DASH
  /\ extractSection (generateWeeklyContent w ps hs ss) T_PLAN = DASH.
Proof.
  intros Hclean.
  destruct (clean_middleLines w ps hs ss Hclean) as [Ht Hm].
  destruct (cleanLines_quiet _ Ht) as (Ht1 & Ht2 & Ht3).
  destruct (cleanLines_quiet _ Hm) as (Hm1 & Hm2 & Hm3).
  unfold extractSection. rewrite generated_lines.
  set (TL := splitLines (T_TITLE_PREFIX ++ weekly_week w ++ T_TITLE_SUFFIX)) in *.
  set (M := middleLines ps hs ss) in *.
  split; [|split].
  - rewrite extractLoop_skip by exact Ht1.
    set (X := M ++ [H_RISKS; DASH; []; H_PLAN; DASH; []]).
    vm_compute. reflexivity.
  - rewrite extractLoop_skip by exact Ht2.
    rewrite (app_assoc _ M).
    rewrite extractLoop_skip.
    + vm_compute. reflexivity.
    + rewrite forallb_app, Hm2. vm_compute. reflexivity.
  - rewrite extractLoop_skip by exact Ht3.
    rewrite (app_assoc _ M).
    rewrite extractLoop_skip.
    + vm_compute. reflexivity.
    + rewrite forallb_app, Hm3. vm_compute. reflexivity.
Qed.

(* ===================================================================== *)
(** ** Idempotence of the merge *)
(* ===================================================================== *)

(** C1 (as the code has it). For every list of daily logs and weekly
    metadata whose aggregation is clean (no line of the title, of a [###]
    heading, of a highlight or of an excerpt starts with a [#] run,
    optional whitespace and one of the titles "本周总结", "风险与阻塞",
    "下周计划"), merging the generated content with its own aggregation
    returns the generated content, and merging the result once more
    returns it again. *)
Theorem merge_idempotent_clean (localeCompare : jsstring -> jsstring -> Z)
    (D : list DailyLog) (w : WeeklyMeta) :
  let A := aggregateDailiesToWeekly localeCompare D w in
  dataClean A = true ->
  mergeWeeklyContent (agg_content A) A = agg_content A
  /\ mergeWeeklyContent (mergeWeeklyContent (agg_content A) A) A
     = mergeWeeklyContent (agg_content A) A.
Proof.
  intros A Hclean.
  assert (H : mergeWeeklyContent (agg_content A) A = agg_content A).
  { unfold mergeWeeklyContent.
    destruct (negb (truthy (trim (agg_content A)))); [reflexivity|].
    destruct (generated_sections w (agg_projects A) (agg_highlights A)
                (agg_dailySummaries A) Hclean) as (H1 & H2 & H3).
    change (generateWeeklyContent w (agg_projects A) (agg_highlights A)
              (agg_dailySummaries A)) with (agg_content A) in H1, H2, H3.
    rewrite H1, H2, H3. reflexivity. }
  split; [exact H|]. rewrite H. exact H.
Qed.

(** A clean week: one daily log made from the built-in template. *)
Lemma merge_idempotent_clean_witness :
  let d := {| dl_meta := createDefaultDailyMeta (u "2026-01-12") (u "2026-W03");
              dl_content := u "# 2026-01-12 Daily Log

## 今日计划
- [ ]

## 今日完成
-

## 项目进展
-

## 问题 / 风险
-

## 备注
-";
              dl_filePath := u "daily/2026-01-12.md" |} in
  let w := createDefaultWeeklyMeta (u "2026-W03") (u "2026-01-12")
                                   (u "2026-01-18") in
  let A := aggregateDailiesToWeekly codeUnitCompare [d] w in
  dataClean A = true
  /\ mergeWeeklyContent (agg_content A) A = agg_content A.
Proof.
  intros d w A. split; [vm_compute; reflexivity|].
  apply (proj1 (merge_idempotent_clean codeUnitCompare [d] w
                  ltac:(vm_compute; reflexivity))).
Defined.

(** The idempotence fails on a highlighted daily log whose body has a
    section named like a preserved one: the highlight carries the heading
    "## 下周计划" into the report, the merge reads the text under it as the
    user's plan and splices it in. *)
Lemma merge_not_idempotent :
  let d := {| dl_meta :=
                {| daily_date := u "2026-01-12";
                   daily_type := u "daily";
                   daily_week := u "2026-W03";
                   daily_projects := [];
                   daily_tags := [];
                   daily_weekly_highlight := true;
                   daily_github := {| gh_issues := []; gh_prs := [] |} |};
              dl_content := u "## 下周计划
- ship it";
              dl_filePath := u "daily/2026-01-12.md" |} in
  let w := createDefaultWeeklyMeta (u "2026-W03") (u "2026-01-12")
                                   (u "2026-01-18") in
  ~ merge_idempotent_at codeUnitCompare [d] w.
Proof.
  intros d w H. unfold merge_idempotent_at in H.
  vm_compute in H. discriminate.
Qed.

(* ===================================================================== *)
(** ** Blank bodies *)
(* ===================================================================== *)

Lemma trimStart_head (s : jsstring) (c : N) (r : jsstring) :
  trimStart s = c :: r -> isSpace c = false.
Proof.
  induction s as [|x s IH]; simpl; [discriminate|].
  destruct (isSpace x) eqn:Hx; [exact IH|].
  intros H. injection H as <- _. exact Hx.
Qed.

Lemma trimStart_nil (s : jsstring) :
  trimStart s = [] -> forallb isSpace s = true.
Proof.
  induction s as [|x s IH]; simpl; [reflexivity|].
  destruct (isSpace x); [exact IH|discriminate].
Qed.

Lemma trimEnd_nil (s : jsstring) :
  trimEnd s = [] -> forallb isSpace s = true.
Proof.
  induction s as [|x s IH]; simpl; [reflexivity|].
  destruct (isSpace x); simpl.
  - destruct (trimEnd s); [intros _; apply IH; reflexivity|discriminate].
  - discriminate.
Qed.

Lemma trim_nil (s : jsstring) : trim s = [] -> forallb isSpace s = true.
Proof.
  unfold trim. intros H. apply trimEnd_nil in H.
  destruct (trimStart s) as [|c r] eqn:Hs.
  - apply trimStart_nil, Hs.
  - apply trimStart_head in Hs. simpl in H. rewrite Hs in H. discriminate.
Qed.

Lemma splitLines_blank (s : jsstring) :
  forallb isSpace s = true ->
  Forall (fun l => forallb isSpace l = true) (splitLines s).
Proof.
  induction s as [|c s IH]; simpl.
  - intros _. constructor; [reflexivity|constructor].
  - intros H. apply andb_prop in H as [Hc Hs]. specialize (IH Hs).
    destruct (c =? c_nl).
    + constructor; [reflexivity|exact IH].
    + destruct (splitLines s) as [|l ls].
      * constructor; [simpl; rewrite Hc; reflexivity|constructor].
      * inversion IH; subst. constructor; [|assumption].
        simpl. rewrite Hc. assumption.
Qed.

Lemma opensSection_not_hash (t : jsstring) (c : N) (s : jsstring) :
  (c =? c_hash) = false -> opensSection t (c :: s) = false.
Proof. intros H. unfold opensSection. simpl. rewrite H. reflexivity. Qed.

Lemma isSpace_not_hash (c : N) : isSpace c = true -> (c =? c_hash) = false.
Proof.
  intros H. destruct (c =? c_hash) eqn:E; [|reflexivity].
  apply N.eqb_eq in E. subst c. discriminate.
Qed.

Lemma opensSection_blank (t l : jsstring) :
  forallb isSpace l = true -> opensSection t l = false.
Proof.
  destruct l as [|c l]; [reflexivity|]. simpl forallb.
  intros H. apply andb_prop in H as [Hc _].
  apply opensSection_not_hash, isSpace_not_hash, Hc.
Qed.

(** Nothing is found in a body of whitespace. *)
Lemma extractSection_blank (body t : jsstring) :
  trim body = [] -> extractSection body t = [].
Proof.
  intros H. apply trim_nil, splitLines_blank in H.
  unfold extractSection. rewrite extractLoop_outside.
  assert (Hn : afterFirst (opensSection t) (splitLines body) = None).
  { induction H as [|l ls Hl _ IH]; [reflexivity|].
    simpl. rewrite (opensSection_blank t l Hl). exact IH. }
  rewrite Hn. reflexivity.
Qed.

(* ===================================================================== *)
(** ** The loop of replaceSection *)
(* ===================================================================== *)

Lemma replaceLoop_cons (t new line : jsstring) (rest : list jsstring)
    (b : bool) (acc : list jsstring) :
  replaceLoop t new (line :: rest) b acc =
  if opensSection t line then
    replaceLoop t new rest true (acc ++ [line; []; new])
  else if (if b && isHeading line then false else b) then
    replaceLoop t new rest (if b && isHeading line then false else b) acc
  else
    replaceLoop t new rest (if b && isHeading line then false else b)
                (acc ++ [line]).
Proof. reflexivity. Qed.

Lemma replaceLoop_acc (t new : jsstring) (ls : list jsstring) (b : bool)
    (acc : list jsstring) :
  replaceLoop t new ls b acc = acc ++ replaceLoop t new ls b [].
Proof.
  revert b acc. induction ls as [|l ls IH]; intros b acc.
  - simpl. rewrite app_nil_r. reflexivity.
  - rewrite !replaceLoop_cons.
    destruct (opensSection t l).
    + rewrite IH, (IH true ([] ++ _)), app_assoc. reflexivity.
    + destruct (if b && isHeading l then false else b).
      * apply IH.
      * rewrite IH, (IH _ ([] ++ _)), app_assoc. reflexivity.
Qed.

(** A line that is not a heading of the section and is met outside of it
    is copied. *)
Lemma replaceLoop_copy (t new line : jsstring) (rest : list jsstring)
    (acc : list jsstring) :
  opensSection t line = false ->
  replaceLoop t new (line :: rest) false acc
  = replaceLoop t new rest false (acc ++ [line]).
Proof. intros H. rewrite replaceLoop_cons, H. reflexivity. Qed.

(** A heading line that does not open the section closes it and is
    copied. *)
Lemma replaceLoop_close (t new line : jsstring) (rest : list jsstring)
    (b : bool) (acc : list jsstring) :
  opensSection t line = false -> isHeading line = true ->
  replaceLoop t new (line :: rest) b acc
  = replaceLoop t new rest false (acc ++ [line]).
Proof.
  intros H Hh. rewrite replaceLoop_cons, H, Hh, andb_true_r.
  destruct b; reflexivity.
Qed.

(** Every heading line of the input is a line of the output. *)
Lemma replaceLoop_keeps_headings (t new l : jsstring) (ls : list jsstring)
    (b : bool) (acc : list jsstring) :
  In l ls -> isHeading l = true -> In l (replaceLoop t new ls b acc).
Proof.
  revert b acc. induction ls as [|x ls IH]; intros b acc Hin Hh; [contradiction|].
  destruct Hin as [->|Hin].
  - rewrite replaceLoop_cons.
    destruct (opensSection t l).
    + rewrite replaceLoop_acc. apply in_or_app. left.
      apply in_or_app. right. left. reflexivity.
    + rewrite Hh, andb_true_r.
      replace (if b then false else b) with false by (destruct b; reflexivity).
      rewrite replaceLoop_acc. apply in_or_app. left.
      apply in_or_app. right. left. reflexivity.
  - rewrite replaceLoop_cons.
    destruct (opensSection t x); [apply IH; assumption|].
    destruct (if b && isHeading x then false else b); apply IH; assumption.
Qed.

(* ===================================================================== *)
(** ** The merge keeps the Summary and the headings of the new data *)
(* ===================================================================== *)

Section KeepSummary.

(** The user's sentence [S] and the block the splice leaves in the report:
    the Summary heading, an empty line, the sentence, the next heading. *)
Variable S : jsstring.
Hypothesis S_sentence : sentence S = true.

Let block : list jsstring := [H_SUMMARY; []; S; H_HIGHLIGHTS].

Lemma sentence_facts :
  S <> [] /\ noNewline S = true /\ forall t, opensSection t S = false.
Proof.
  unfold sentence in S_sentence.
  apply andb_prop in S_sentence as [H Hh]. apply andb_prop in H as [Ht Hn].
  split; [|split; [exact Hn|]].
  - destruct S; [discriminate|discriminate].
  - intros t. destruct S as [|c s]; [reflexivity|].
    apply opensSection_not_hash. simpl in Hh. rewrite andb_true_r in Hh.
    apply negb_true_iff in Hh. rewrite N.eqb_sym. exact Hh.
Qed.

Lemma block_lines : flat_map splitLines block = block.
Proof.
  destruct sentence_facts as (_ & Hn & _).
  unfold block.
  change (flat_map splitLines [H_SUMMARY; []; S; H_HIGHLIGHTS])
    with (splitLines H_SUMMARY ++ splitLines [] ++ splitLines S
          ++ splitLines H_HIGHLIGHTS ++ []).
  rewrite (splitLines_noNewline S Hn). reflexivity.
Qed.

(** The pass for the Summary splices the sentence in under the generated
    heading, whatever precedes it. *)
Lemma summary_pass_block (pre rest : list jsstring) (b : bool)
    (acc : list jsstring) :
  exists x y,
    replaceLoop T_SUMMARY_FULL S
      (pre ++ [H_SUMMARY; []; []; H_HIGHLIGHTS] ++ rest) b acc
    = x ++ block ++ y.
Proof.
  revert b acc. induction pre as [|l pre IH]; intros b acc.
  - change ([] ++ [H_SUMMARY; []; []; H_HIGHLIGHTS] ++ rest)
      with (H_SUMMARY :: [] :: [] :: H_HIGHLIGHTS :: rest).
    rewrite replaceLoop_cons.
    replace (opensSection T_SUMMARY_FULL H_SUMMARY) with true
      by (vm_compute; reflexivity).
    rewrite replaceLoop_cons.
    replace (opensSection T_SUMMARY_FULL []) with false by reflexivity.
    cbn [isHeading andb].
    rewrite replaceLoop_cons.
    replace (opensSection T_SUMMARY_FULL []) with false by reflexivity.
    cbn [isHeading andb].
    rewrite replaceLoop_close by (vm_compute; reflexivity).
    rewrite replaceLoop_acc.
    exists acc, (replaceLoop T_SUMMARY_FULL S rest false []).
    unfold block. rewrite <- !app_assoc. reflexivity.
  - change ((l :: pre) ++ [H_SUMMARY; []; []; H_HIGHLIGHTS] ++ rest)
      with (l :: (pre ++ [H_SUMMARY; []; []; H_HIGHLIGHTS] ++ rest)).
    rewrite replaceLoop_cons.
    destruct (opensSection T_SUMMARY_FULL l); [apply IH|].
    destruct (if b && isHeading l then false else b); apply IH.
Qed.

(** A pass for another section leaves the block in place. *)
Lemma other_pass_block (t new : jsstring) (x y : list jsstring) (b : bool)
    (acc : list jsstring) :
  opensSection t H_SUMMARY = false ->
  opensSection t H_HIGHLIGHTS = false ->
  exists x' y',
    replaceLoop t new (x ++ block ++ y) b acc = x' ++ block ++ y'.
Proof.
  intros Ho1 Ho2. destruct sentence_facts as (_ & _ & HS).
  revert b acc. induction x as [|l x IH]; intros b acc.
  - change ([] ++ block ++ y)
      with (H_SUMMARY :: [] :: S :: H_HIGHLIGHTS :: y).
    rewrite replaceLoop_close by (assumption || (vm_compute; reflexivity)).
    rewrite replaceLoop_copy by reflexivity.
    rewrite replaceLoop_copy by apply HS.
    rewrite replaceLoop_close by (assumption || (vm_compute; reflexivity)).
    rewrite replaceLoop_acc.
    exists acc, (replaceLoop t new y false []).
    unfold block. rewrite <- !app_assoc. reflexivity.
  - change ((l :: x) ++ block ++ y) with (l :: (x ++ block ++ y)).
    rewrite replaceLoop_cons.
    destruct (opensSection t l); [apply IH|].
    destruct (if b && isHeading l then false else b); apply IH.
Qed.

(** The heading [mark] that the passes must keep. *)
Variable mark : jsstring.
Hypothesis mark_heading : forall rest, isHeading (mark ++ rest) = true.

Lemma startsWith_elim (p s : jsstring) :
  startsWith p s = true -> exists b, s = p ++ b.
Proof.
  revert s. induction p as [|c p IH]; intros s H.
  - exists s. reflexivity.
  - destruct s as [|d s]; [discriminate|]. simpl in H.
    apply andb_prop in H as [Hc H]. apply N.eqb_eq in Hc. subst d.
    destruct (IH _ H) as [b ->]. exists b. reflexivity.
Qed.

Lemma good_resplit (out : list jsstring) :
  good S mark out -> good S mark (flat_map splitLines out).
Proof.
  intros [(x & y & ->) (l & Hin & Hm & Hn)]. split.
  - exists (flat_map splitLines x), (flat_map splitLines y).
    rewrite !flat_map_app. fold block. rewrite block_lines. reflexivity.
  - exists l. split; [|split; assumption].
    apply in_flat_map. exists l. split; [exact Hin|].
    rewrite (splitLines_noNewline l Hn). left. reflexivity.
Qed.

Lemma good_not_nil (ls : list jsstring) : good S mark ls -> ls <> [].
Proof. intros [(x & y & ->) _]. destruct x; discriminate. Qed.

Lemma good_mark_heading (l : jsstring) :
  startsWith mark l = true -> isHeading l = true.
Proof.
  intros H. apply startsWith_elim in H as [b ->]. apply mark_heading.
Qed.

Lemma summary_pass_good (w : WeeklyMeta) (ps : list jsstring)
    (hs : list HighlightEntry) (ss : list DailySummary) :
  (exists l, In l (splitLines (generateWeeklyContent w ps hs ss))
             /\ startsWith mark l = true) ->
  good S mark (splitLines
          (replaceSection (generateWeeklyContent w ps hs ss)
                          T_SUMMARY_FULL S)).
Proof.
  intros (l & Hin & Hm).
  assert (Hout : good S mark (replaceLoop T_SUMMARY_FULL S
                         (splitLines (generateWeeklyContent w ps hs ss))
                         false [])).
  { split.
    - rewrite generated_lines.
      set (TL := splitLines (T_TITLE_PREFIX ++ weekly_week w ++ T_TITLE_SUFFIX)).
      change (TL ++ [[]; H_SUMMARY; []; []; H_HIGHLIGHTS]
                 ++ middleLines ps hs ss
                 ++ [H_RISKS; DASH; []; H_PLAN; DASH; []])
        with (TL ++ [[]] ++ [H_SUMMARY; []; []; H_HIGHLIGHTS]
                 ++ middleLines ps hs ss
                 ++ [H_RISKS; DASH; []; H_PLAN; DASH; []]).
      rewrite (app_assoc TL). apply summary_pass_block.
    - exists l. split; [|split; [exact Hm|]].
      + apply replaceLoop_keeps_headings;
          [exact Hin|apply good_mark_heading, Hm].
      + pose proof (splitLines_lines_noNewline
                      (generateWeeklyContent w ps hs ss)) as Hall.
        rewrite List.Forall_forall in Hall. apply Hall, Hin. }
  unfold replaceSection.
  rewrite splitLines_joinLines by (apply good_not_nil, Hout).
  apply good_resplit, Hout.
Qed.

Lemma other_pass_good (t new content : jsstring) :
  opensSection t H_SUMMARY = false ->
  opensSection t H_HIGHLIGHTS = false ->
  good S mark (splitLines content) ->
  good S mark (splitLines (replaceSection content t new)).
Proof.
  intros Ho1 Ho2 Hg.
  assert (Hout : good S mark (replaceLoop t new (splitLines content) false [])).
  { destruct Hg as [(x & y & Hxy) (l & Hin & Hm & Hn)]. split.
    - rewrite Hxy. apply other_pass_block; assumption.
    - exists l. split; [|split; assumption].
      apply replaceLoop_keeps_headings;
        [exact Hin|apply good_mark_heading, Hm]. }
  unfold replaceSection.
  rewrite splitLines_joinLines by (apply good_not_nil, Hout).
  apply good_resplit, Hout.
Qed.

Lemma joinLines_splitLines (s : jsstring) : joinLines (splitLines s) = s.
Proof.
  induction s as [|c s IH]; [reflexivity|]. simpl.
  destruct (c =? c_nl) eqn:Hc.
  - apply N.eqb_eq in Hc. subst c.
    pose proof (splitLines_not_nil s) as Hne.
    destruct (splitLines s) as [|l ls]; [contradiction|].
    rewrite joinLines_cons2, IH. reflexivity.
  - pose proof (splitLines_not_nil s) as Hne.
    destruct (splitLines s) as [|l ls]; [contradiction|].
    destruct ls as [|l' ls].
    + simpl in *. rewrite IH. reflexivity.
    + rewrite joinLines_cons2 in *. rewrite <- IH. reflexivity.
Qed.

Lemma good_includes (content : jsstring) :
  good S mark (splitLines content) ->
  includes content (joinLines block) = true
  /\ includes content S = true
  /\ includes content mark = true.
Proof.
  intros [(x & y & Hxy) (l & Hin & Hm & _)].
  assert (Hb : includes content (joinLines block) = true).
  { rewrite <- (joinLines_splitLines content), Hxy.
    apply includes_joinLines_block. discriminate. }
  split; [exact Hb|]. split.
  - apply (includes_trans _ _ _ Hb).
    apply (includes_joinLines_block [H_SUMMARY; []] [S] [H_HIGHLIGHTS]).
    discriminate.
  - apply in_split in Hin as (x' & y' & Hl).
    apply includes_trans with (q := l).
    + rewrite <- (joinLines_splitLines content), Hl.
      apply (includes_joinLines_block x' [l] y'). discriminate.
    + apply startsWith_elim in Hm as [b ->]. apply (includes_intro [] mark b).
Qed.

End KeepSummary.

Lemma prefixCI_app (a b s : jsstring) :
  prefixCI (a ++ b) s = true -> prefixCI a s = true.
Proof.
  revert s. induction a as [|x a IH]; intros s H; [reflexivity|].
  destruct s as [|c s]; [discriminate|]. simpl in *.
  apply andb_prop in H as [Hx H]. rewrite Hx, (IH _ H). reflexivity.
Qed.

Lemma wsStarTitle_app (a b s : jsstring) :
  wsStarTitle (a ++ b) s = true -> wsStarTitle a s = true.
Proof.
  induction s as [|c s IH]; simpl.
  - apply prefixCI_app.
  - intros H. apply orb_prop in H as [H|H].
    + apply andb_prop in H as [Hc H]. rewrite Hc, (IH H). reflexivity.
    + apply prefixCI_app in H. rewrite H. apply orb_true_r.
Qed.

(** A line that opens the section of a longer title opens the section of
    any prefix of that title. *)
Lemma opensSection_app (a b l : jsstring) :
  opensSection (a ++ b) l = true -> opensSection a l = true.
Proof.
  unfold opensSection. induction l as [|c l IH]; simpl; [discriminate|].
  intros H. apply andb_prop in H as [Hc H]. rewrite Hc. simpl.
  apply orb_prop in H as [H|H].
  - rewrite (IH H). reflexivity.
  - rewrite (wsStarTitle_app _ _ _ H). apply orb_true_r.
Qed.

Lemma cleanLines_quiet_full (ls : list jsstring) :
  cleanLines ls = true ->
  forallb (fun l => negb (opensSection T_SUMMARY_FULL l)) ls = true.
Proof.
  intros H. apply cleanLines_quiet in H as (H & _ & _).
  induction ls as [|l ls IH]; [reflexivity|].
  simpl in *. apply andb_prop in H as [Hl Hls]. rewrite (IH Hls), andb_true_r.
  apply negb_true_iff. apply negb_true_iff in Hl.
  destruct (opensSection T_SUMMARY_FULL l) eqn:E; [|reflexivity].
  change T_SUMMARY_FULL with (T_SUMMARY ++ [65288; 19968; 21477; 35805; 65289])
    in E.
  apply opensSection_app in E. congruence.
Qed.

(** Outside the section, lines that do not open it are copied. *)
Lemma replaceLoop_quiet (t new : jsstring) (ls : list jsstring)
    (acc : list jsstring) :
  forallb (fun l => negb (opensSection t l)) ls = true ->
  replaceLoop t new ls false acc = acc ++ ls.
Proof.
  revert acc. induction ls as [|l ls IH]; intros acc H.
  - simpl. rewrite app_nil_r. reflexivity.
  - simpl in H. apply andb_prop in H as [Hl Hls]. apply negb_true_iff in Hl.
    rewrite replaceLoop_copy by exact Hl.
    rewrite (IH _ Hls), <- app_assoc. reflexivity.
Qed.

Lemma replaceLoop_app_quiet (t new : jsstring) (pre rest : list jsstring)
    (acc : list jsstring) :
  forallb (fun l => negb (opensSection t l)) pre = true ->
  replaceLoop t new (pre ++ rest) false acc
  = replaceLoop t new rest false (acc ++ pre).
Proof.
  revert acc. induction pre as [|l pre IH]; intros acc H.
  - rewrite app_nil_r. reflexivity.
  - simpl in H. apply andb_prop in H as [Hl Hpre]. apply negb_true_iff in Hl.
    change ((l :: pre) ++ rest) with (l :: (pre ++ rest)).
    rewrite replaceLoop_copy by exact Hl.
    rewrite (IH _ Hpre), <- app_assoc. reflexivity.
Qed.

(** On a report whose data is clean the pass for the Summary changes the
    two empty lines under the Summary heading into an empty line and the
    new text, and nothing else. *)
Lemma summary_pass_clean (w : WeeklyMeta) (ps : list jsstring)
    (hs : list HighlightEntry) (ss : list DailySummary) (new : jsstring) :
  forallb pieceClean (dataPieces w ps hs ss) = true ->
  exists pre post,
    generateWeeklyContent w ps hs ss
    = joinLines (pre ++ [H_SUMMARY; []; []] ++ H_HIGHLIGHTS :: post)
    /\ replaceSection (generateWeeklyContent w ps hs ss) T_SUMMARY_FULL new
       = joinLines (pre ++ [H_SUMMARY; []; new] ++ H_HIGHLIGHTS :: post).
Proof.
  intros Hclean.
  destruct (clean_middleLines w ps hs ss Hclean) as [Ht Hm].
  apply cleanLines_quiet_full in Ht, Hm.
  set (TL := splitLines (T_TITLE_PREFIX ++ weekly_week w ++ T_TITLE_SUFFIX)) in *.
  set (M := middleLines ps hs ss) in *.
  exists (TL ++ [[]]), (M ++ [H_RISKS; DASH; []; H_PLAN; DASH; []]).
  assert (Hlines : splitLines (generateWeeklyContent w ps hs ss)
                   = (TL ++ [[]]) ++ [H_SUMMARY; []; []]
                     ++ H_HIGHLIGHTS :: M ++ [H_RISKS; DASH; []; H_PLAN; DASH; []]).
  { rewrite generated_lines. fold TL. fold M.
    rewrite <- !app_assoc. reflexivity. }
  split.
  - rewrite <- (joinLines_splitLines (generateWeeklyContent w ps hs ss)).
    rewrite Hlines. reflexivity.
  - unfold replaceSection. rewrite Hlines.
    rewrite replaceLoop_app_quiet
      by (rewrite forallb_app, Ht; reflexivity).
    change ([H_SUMMARY; []; []] ++ H_HIGHLIGHTS
            :: M ++ [H_RISKS; DASH; []; H_PLAN; DASH; []])
      with (H_SUMMARY :: [] :: [] :: H_HIGHLIGHTS
            :: (M ++ [H_RISKS; DASH; []; H_PLAN; DASH; []])).
    rewrite replaceLoop_cons.
    replace (opensSection T_SUMMARY_FULL H_SUMMARY) with true
      by (vm_compute; reflexivity).
    rewrite replaceLoop_cons.
    replace (opensSection T_SUMMARY_FULL []) with false by reflexivity.
    cbn [isHeading andb].
    rewrite replaceLoop_cons.
    replace (opensSection T_SUMMARY_FULL []) with false by reflexivity.
    cbn [isHeading andb].
    rewrite replaceLoop_close by (vm_compute; reflexivity).
    rewrite replaceLoop_quiet
      by (rewrite forallb_app, Hm; vm_compute; reflexivity).
    rewrite <- !app_assoc. reflexivity.
Qed.

Lemma sortInsert_In (localeCompare : jsstring -> jsstring -> Z)
    (a x : DailyLog) (l : list DailyLog) :
  In x (sortInsert localeCompare a l) <-> x = a \/ In x l.
Proof.
  induction l as [|b l IH]; simpl.
  - intuition.
  - destruct (localeCompare _ _ <=? 0)%Z; simpl; [intuition|].
    rewrite IH. intuition.
Qed.

(** Sorting loses no daily log. *)
Lemma sortByDate_In (localeCompare : jsstring -> jsstring -> Z)
    (x : DailyLog) (D : list DailyLog) :
  In x D -> In x (sortByDate localeCompare D).
Proof.
  induction D as [|a D IH]; simpl; [tauto|].
  intros [<-|H]; apply sortInsert_In; [left; reflexivity|right; apply IH, H].
Qed.

Lemma splitLines_head (p rest : jsstring) :
  noNewline p = true ->
  exists l ls, splitLines (p ++ rest) = (p ++ l) :: ls.
Proof.
  induction p as [|c p IH]; simpl.
  - intros _. pose proof (splitLines_not_nil rest).
    destruct (splitLines rest) as [|l ls]; [contradiction|].
    exists l, ls. reflexivity.
  - intros H. apply andb_prop in H as [Hc Hp]. apply negb_true_iff in Hc.
    rewrite Hc. destruct (IH Hp) as (l & ls & ->).
    exists l, ls. reflexivity.
Qed.

Lemma noNewline_app (a b : jsstring) :
  noNewline (a ++ b) = noNewline a && noNewline b.
Proof. apply forallb_app. Qed.

(** The heading of the summary of a day is a line of the report. *)
Lemma generated_has_date_heading (w : WeeklyMeta) (ps : list jsstring)
    (hs : list HighlightEntry) (ss : list DailySummary) (s : DailySummary) :
  In s ss -> noNewline (ds_date s) = true ->
  exists l, In l (splitLines (generateWeeklyContent w ps hs ss))
            /\ startsWith (H3 ++ ds_date s) l = true.
Proof.
  intros Hin Hn.
  assert (Hp : noNewline (H3 ++ ds_date s) = true)
    by (rewrite noNewline_app, Hn; reflexivity).
  assert (Hhead : exists l ls,
            splitLines (summaryHeading s) = ((H3 ++ ds_date s) ++ l) :: ls).
  { unfold summaryHeading. cbv zeta. rewrite app_assoc.
    apply splitLines_head, Hp. }
  destruct Hhead as (l & ls & Hl).
  exists ((H3 ++ ds_date s) ++ l). split; [|apply startsWith_app].
  rewrite generated_lines.
  apply in_or_app. right. apply in_or_app. right. apply in_or_app. left.
  unfold middleLines.
  apply in_or_app. right. apply in_or_app. right. apply in_or_app. right.
  apply in_or_app. right. apply in_or_app. right.
  destruct ss as [|s0 ss0]; [contradiction|].
  apply in_flat_map. exists (summaryHeading s). split.
  - apply in_flat_map. exists s. split; [exact Hin|]. left. reflexivity.
  - rewrite Hl. left. reflexivity.
Qed.

(* ===================================================================== *)
(** ** The collections of an aggregation *)
(* ===================================================================== *)

Lemma sortInsert_Permutation (localeCompare : jsstring -> jsstring -> Z)
    (a : DailyLog) (l : list DailyLog) :
  Permutation (sortInsert localeCompare a l) (a :: l).
Proof.
  induction l as [|b l IH]; simpl; [reflexivity|].
  destruct (localeCompare _ _ <=? 0)%Z; [reflexivity|].
  rewrite IH. apply perm_swap.
Qed.

Lemma sortByDate_Permutation (localeCompare : jsstring -> jsstring -> Z)
    (D : list DailyLog) :
  Permutation (sortByDate localeCompare D) D.
Proof.
  induction D as [|a D IH]; simpl; [reflexivity|].
  rewrite sortInsert_Permutation. apply perm_skip, IH.
Qed.

Lemma filter_length_Permutation {A : Type} (p : A -> bool) (l l' : list A) :
  Permutation l l' ->
  length (List.filter p l) = length (List.filter p l').
Proof.
  induction 1 as [|x l l' _ IH|x y l|l l' l'' _ IH1 _ IH2]; simpl.
  - reflexivity.
  - destruct (p x); simpl; congruence.
  - destruct (p x), (p y); reflexivity.
  - congruence.
Qed.

Lemma filter_Permutation {A : Type} (p : A -> bool) (l l' : list A) :
  Permutation l l' -> Permutation (List.filter p l) (List.filter p l').
Proof.
  induction 1 as [|x l l' _ IH|x y l|l l' l'' _ IH1 _ IH2]; simpl.
  - constructor.
  - destruct (p x); [apply perm_skip|]; exact IH.
  - destruct (p x), (p y); try reflexivity. apply perm_swap.
  - exact (perm_trans IH1 IH2).
Qed.

(** X1. Whatever the collation, the aggregation summarises every daily
    log exactly once and makes exactly one highlight for each daily log
    flagged as such: the summaries are a rearrangement of the summaries of
    the daily logs given, and the highlights a rearrangement of the
    highlights (date and highlight text) of the flagged ones.  So the
    dates of the summaries are a rearrangement of the dates of the input,
    and every highlight has the date and the text of a flagged daily
    log. *)
Theorem aggregate_covers_input (localeCompare : jsstring -> jsstring -> Z)
    (D : list DailyLog) (w : WeeklyMeta) :
  let A := aggregateDailiesToWeekly localeCompare D w in
  Permutation (agg_dailySummaries A) (List.map createDailySummary D)
  /\ Permutation (agg_highlights A)
       (List.map (fun d => {| hl_date := daily_date (dl_meta d);
                              hl_content := extractHighlightContent d |})
          (List.filter (fun d => daily_weekly_highlight (dl_meta d)) D))
  /\ Permutation (List.map ds_date (agg_dailySummaries A))
                 (List.map (fun d => daily_date (dl_meta d)) D)
  /\ length (agg_dailySummaries A) = length D
  /\ length (agg_highlights A)
     = length (List.filter (fun d => daily_weekly_highlight (dl_meta d)) D)
  /\ (forall h, In h (agg_highlights A) ->
        exists d, In d D
                  /\ daily_weekly_highlight (dl_meta d) = true
                  /\ hl_date h = daily_date (dl_meta d)
                  /\ hl_content h = extractHighlightContent d).
Proof.
  intros A. pose proof (sortByDate_Permutation localeCompare D) as HP.
  split; [|split; [|split; [|split; [|split]]]].
  - unfold A, aggregateDailiesToWeekly, aggregateSorted. simpl.
    apply Permutation_map, HP.
  - unfold A, aggregateDailiesToWeekly, aggregateSorted. simpl.
    apply Permutation_map, filter_Permutation, HP.
  - unfold A, aggregateDailiesToWeekly, aggregateSorted. simpl.
    rewrite List.map_map. simpl.
    apply (Permutation_map (fun d => daily_date (dl_meta d))), HP.
  - unfold A, aggregateDailiesToWeekly, aggregateSorted. simpl.
    rewrite length_map. apply Permutation_length, HP.
  - unfold A, aggregateDailiesToWeekly, aggregateSorted. simpl.
    rewrite length_map. apply filter_length_Permutation, HP.
  - intros h Hh. unfold A, aggregateDailiesToWeekly, aggregateSorted in Hh.
    simpl in Hh. apply in_map_iff in Hh as (d & <- & Hd).
    apply filter_In in Hd as [Hd Hf].
    exists d. split; [|split; [exact Hf|split; reflexivity]].
    apply (Permutation_in _ HP), Hd.
Qed.

Section SortedDates.

(** A collation that orders the dates: any two dates compare one way or
    the other, and the comparison is transitive. *)
Variable localeCompare : jsstring -> jsstring -> Z.
Hypothesis compare_total :
  forall a b, (localeCompare a b <= 0)%Z \/ (localeCompare b a <= 0)%Z.
Hypothesis compare_trans :
  forall a b c, (localeCompare a b <= 0)%Z -> (localeCompare b c <= 0)%Z ->
                (localeCompare a c <= 0)%Z.

Let before (a b : DailyLog) : Prop :=
  (localeCompare (daily_date (dl_meta a)) (daily_date (dl_meta b)) <= 0)%Z.

Lemma sortInsert_sorted (a : DailyLog) (l : list DailyLog) :
  StronglySorted before l ->
  StronglySorted before (sortInsert localeCompare a l).
Proof.
  induction 1 as [|b l Hl IH Hb]; simpl.
  - constructor; constructor.
  - destruct (localeCompare _ _ <=? 0)%Z eqn:E.
    + apply Z.leb_le in E. constructor; [constructor; assumption|].
      constructor; [exact E|].
      rewrite List.Forall_forall in Hb |- *. intros x Hx.
      apply (compare_trans _ _ _ E), Hb, Hx.
    + apply Z.leb_gt in E. constructor; [exact IH|].
      rewrite List.Forall_forall in Hb |- *. intros x Hx.
      apply sortInsert_In in Hx as [->|Hx]; [|apply Hb, Hx].
      destruct (compare_total (daily_date (dl_meta a))
                              (daily_date (dl_meta b))) as [H|H];
        [lia|exact H].
Qed.

Lemma sortByDate_sorted (D : list DailyLog) :
  StronglySorted before (sortByDate localeCompare D).
Proof.
  induction D as [|a D IH]; simpl; [constructor|].
  apply sortInsert_sorted, IH.
Qed.

(** X2. Under a collation that orders the dates, the daily summaries and
    the highlights of an aggregation come in ascending order of date,
    however the daily logs were given. *)
Theorem aggregate_in_date_order (D : list DailyLog) (w : WeeklyMeta) :
  let A := aggregateDailiesToWeekly localeCompare D w in
  StronglySorted (fun a b => (localeCompare a b <= 0)%Z)
                 (List.map ds_date (agg_dailySummaries A))
  /\ StronglySorted (fun a b => (localeCompare a b <= 0)%Z)
                    (List.map hl_date (agg_highlights A)).
Proof.
  intros A. pose proof (sortByDate_sorted D) as HS.
  unfold A, aggregateDailiesToWeekly, aggregateSorted. simpl.
  rewrite !List.map_map. simpl.
  split.
  - induction HS as [|b l Hl IH Hb]; simpl; constructor; [exact IH|].
    rewrite List.Forall_forall in Hb |- *. intros x Hx.
    apply in_map_iff in Hx as (d & <- & Hd). apply Hb, Hd.
  - induction HS as [|b l Hl IH Hb]; simpl; [constructor|].
    destruct (daily_weekly_highlight (dl_meta b)); [|exact IH].
    simpl. constructor; [exact IH|].
    rewrite List.Forall_forall in Hb |- *. intros x Hx.
    apply in_map_iff in Hx as (d & <- & Hd).
    apply filter_In in Hd as [Hd _]. apply Hb, Hd.
Qed.

End SortedDates.

Lemma codeUnitCompare_total (a b : jsstring) :
  (codeUnitCompare a b <= 0)%Z \/ (codeUnitCompare b a <= 0)%Z.
Proof.
  revert b. induction a as [|x a IH]; intros [|y b]; simpl; try lia.
  destruct (x <? y) eqn:E1, (y <? x) eqn:E2; try lia.
  apply IH.
Qed.

Lemma codeUnitCompare_trans (a b c : jsstring) :
  (codeUnitCompare a b <= 0)%Z -> (codeUnitCompare b c <= 0)%Z ->
  (codeUnitCompare a c <= 0)%Z.
Proof.
  revert b c. induction a as [|x a IH]; intros [|y b] [|z c]; simpl;
    try lia.
  destruct (x <? y) eqn:E1, (y <? x) eqn:E2, (y <? z) eqn:E3,
    (z <? y) eqn:E4, (x <? z) eqn:E5, (z <? x) eqn:E6;
    try lia;
    try (apply N.ltb_lt in E1); try (apply N.ltb_ge in E1);
    try (apply N.ltb_lt in E2); try (apply N.ltb_ge in E2);
    try (apply N.ltb_lt in E3); try (apply N.ltb_ge in E3);
    try (apply N.ltb_lt in E4); try (apply N.ltb_ge in E4);
    try (apply N.ltb_lt in E5); try (apply N.ltb_ge in E5);
    try (apply N.ltb_lt in E6); try (apply N.ltb_ge in E6);
    try lia.
  apply IH.
Qed.

(** Three daily logs given out of order, under the order of code units. *)
Lemma aggregate_in_date_order_witness :
  let daily := fun (date : jsstring) (hl : bool) =>
    {| dl_meta := {| daily_date := date; daily_type := u "daily";
                     daily_week := u "2026-W03"; daily_projects := [];
                     daily_tags := []; daily_weekly_highlight := hl;
                     daily_github := {| gh_issues := []; gh_prs := [] |} |};
       dl_content := []; dl_filePath := [] |} in
  let w := createDefaultWeeklyMeta (u "2026-W03") (u "2026-01-12")
                                   (u "2026-01-18") in
  let A := aggregateDailiesToWeekly codeUnitCompare
             [daily (u "2026-01-16") true; daily (u "2026-01-12") false;
              daily (u "2026-01-14") true] w in
  List.map ds_date (agg_dailySummaries A)
  = [u "2026-01-12"; u "2026-01-14"; u "2026-01-16"]
  /\ StronglySorted (fun a b => (codeUnitCompare a b <= 0)%Z)
                    (List.map ds_date (agg_dailySummaries A))
  /\ StronglySorted (fun a b => (codeUnitCompare a b <= 0)%Z)
                    (List.map hl_date (agg_highlights A)).
Proof.
  intros daily w A. split; [vm_compute; reflexivity|].
  apply (aggregate_in_date_order codeUnitCompare codeUnitCompare_total
           codeUnitCompare_trans).
Defined.

Lemma eqb_eq (a b : jsstring) : JS.eqb a b = true <-> a = b.
Proof.
  revert b. induction a as [|x a IH]; intros [|y b]; simpl;
    try (split; [discriminate|discriminate]); [tauto|].
  rewrite andb_true_iff, N.eqb_eq, IH. split.
  - intros [-> ->]. reflexivity.
  - intros H. injection H as -> ->. split; reflexivity.
Qed.

Lemma eqb_refl (a : jsstring) : JS.eqb a a = true.
Proof. apply eqb_eq. reflexivity. Qed.

Lemma existsb_eqb_In (x : jsstring) (s : list jsstring) :
  existsb (JS.eqb x) s = true <-> In x s.
Proof.
  rewrite existsb_exists. split.
  - intros (y & Hy & E). apply eqb_eq in E. subst y. exact Hy.
  - intros H. exists x. split; [exact H|apply eqb_refl].
Qed.

Lemma setAdd_In (x y : jsstring) (s : list jsstring) :
  In y (setAdd x s) <-> y = x \/ In y s.
Proof.
  unfold setAdd. destruct (existsb (JS.eqb x) s) eqn:E.
  - apply existsb_eqb_In in E. split; [tauto|]. intros [->|H]; assumption.
  - rewrite in_app_iff. simpl. intuition.
Qed.

Lemma setAdd_NoDup (x : jsstring) (s : list jsstring) :
  List.NoDup s -> List.NoDup (setAdd x s).
Proof.
  intros H. unfold setAdd. destruct (existsb (JS.eqb x) s) eqn:E; [exact H|].
  assert (Hn : ~ In x s).
  { intros Hin. apply existsb_eqb_In in Hin. congruence. }
  clear E. induction H as [|y s Hy Hs IH].
  - simpl. constructor; [simpl; tauto|constructor].
  - change ((y :: s) ++ [x]) with (y :: (s ++ [x])). constructor.
    + rewrite in_app_iff. simpl. intros [H|[H|[]]]; [contradiction|].
      apply Hn. left. symmetry. exact H.
    + apply IH. intros H. apply Hn. right. exact H.
Qed.

Lemma addAll_spec (ps s : list jsstring) :
  List.NoDup s ->
  List.NoDup (fold_left (fun s project => setAdd project s) ps s)
  /\ forall p, In p (fold_left (fun s project => setAdd project s) ps s)
               <-> In p s \/ In p ps.
Proof.
  revert s. induction ps as [|q ps IH]; intros s Hs; simpl.
  - split; [exact Hs|]. intros p. tauto.
  - destruct (IH (setAdd q s) (setAdd_NoDup q s Hs)) as [Hn Hin].
    split; [exact Hn|]. intros p. rewrite Hin, setAdd_In. intuition.
Qed.

Lemma collectFrom_spec (ds : list DailyLog) (s : list jsstring) :
  List.NoDup s ->
  let r := fold_left
             (fun projectSet daily =>
                fold_left (fun s project => setAdd project s)
                          (daily_projects (dl_meta daily)) projectSet)
             ds s in
  List.NoDup r
  /\ forall p, In p r <->
               In p s \/ exists d, In d ds /\ In p (daily_projects (dl_meta d)).
Proof.
  revert s. induction ds as [|d ds IH]; intros s Hs; simpl.
  - split; [exact Hs|]. intros p. split; [tauto|].
    intros [H|(d & [] & _)]. exact H.
  - destruct (addAll_spec (daily_projects (dl_meta d)) s Hs) as [Hn Hin].
    destruct (IH _ Hn) as [Hn' Hin']. split; [exact Hn'|].
    intros p. rewrite Hin', Hin. split.
    + intros [[H|H]|(d' & Hd' & Hp)].
      * left. exact H.
      * right. exists d. split; [left; reflexivity|exact H].
      * right. exists d'. split; [right; exact Hd'|exact Hp].
    + intros [H|(d' & [<-|Hd'] & Hp)].
      * left. left. exact H.
      * left. right. exact Hp.
      * right. exists d'. split; assumption.
Qed.

(** X3. The project list of an aggregation holds every project named by
    a daily log of the input, each once, and nothing else; the metadata of
    the aggregation carries the same list. *)
Theorem aggregate_projects (localeCompare : jsstring -> jsstring -> Z)
    (D : list DailyLog) (w : WeeklyMeta) :
  let A := aggregateDailiesToWeekly localeCompare D w in
  List.NoDup (agg_projects A)
  /\ (forall p, In p (agg_projects A) <->
                exists d, In d D /\ In p (daily_projects (dl_meta d)))
  /\ weekly_projects (agg_meta A) = agg_projects A.
Proof.
  intros A.
  destruct (collectFrom_spec (sortByDate localeCompare D) [] (List.NoDup_nil _))
    as [Hn Hin].
  split; [exact Hn|]. split; [|reflexivity].
  intros p. unfold A, aggregateDailiesToWeekly, aggregateSorted. simpl.
  unfold collectProjects. rewrite Hin. split.
  - intros [[]|(d & Hd & Hp)]. exists d. split; [|exact Hp].
    apply (Permutation_in _ (sortByDate_Permutation localeCompare D)), Hd.
  - intros (d & Hd & Hp). right. exists d. split; [|exact Hp].
    apply sortByDate_In, Hd.
Qed.

(* ===================================================================== *)
(** ** Trimmed results *)
(* ===================================================================== *)

Lemma trimEnd_idem (s : jsstring) : trimEnd (trimEnd s) = trimEnd s.
Proof.
  induction s as [|c s IH]; [reflexivity|]. simpl.
  destruct (isSpace c && isEmpty (trimEnd s)) eqn:E; [reflexivity|].
  simpl. rewrite IH, E. reflexivity.
Qed.

Lemma trimEnd_head (c : N) (s : jsstring) :
  isSpace c = false -> trimEnd (c :: s) = c :: trimEnd s.
Proof. intros H. simpl. rewrite H. reflexivity. Qed.

Lemma trimStart_fixed (s : jsstring) :
  match s with c :: _ => isSpace c = false | [] => True end ->
  trimStart s = s.
Proof. destruct s as [|c s]; [reflexivity|]. simpl. intros ->. reflexivity. Qed.

Lemma trim_head (s : jsstring) :
  match trim s with c :: _ => isSpace c = false | [] => True end.
Proof.
  unfold trim. destruct (trimStart s) as [|c r] eqn:E; [exact I|].
  pose proof (trimStart_head s c r E) as Hc.
  rewrite (trimEnd_head c r Hc). exact Hc.
Qed.

Lemma trim_idem (s : jsstring) : trim (trim s) = trim s.
Proof.
  unfold trim at 1. rewrite (trimStart_fixed _ (trim_head s)).
  unfold trim. apply trimEnd_idem.
Qed.

Lemma trimEnd_app (a b : jsstring) :
  trimEnd b <> [] -> trimEnd (a ++ b) = a ++ trimEnd b.
Proof.
  intros Hb. induction a as [|c a IH]; [reflexivity|].
  simpl. rewrite IH. destruct (a ++ trimEnd b) eqn:E.
  - destruct a; [simpl in E; contradiction|discriminate].
  - rewrite andb_false_r. reflexivity.
Qed.

(** X4. Every item [extractListItems] returns is non-empty and has no
    whitespace at either end, and there are at most as many items as the
    section has lines. *)
Theorem extractListItems_items (body title item : jsstring) :
  In item (extractListItems body title) ->
  item <> [] /\ trim item = item
  /\ (length (extractListItems body title)
      <= length (splitLines (extractSection body title)))%nat.
Proof.
  unfold extractListItems. intros H. split; [|split].
  - apply in_flat_map in H as (l & _ & H).
    unfold listItemOf in H. destruct (matchListItem l) as [m|]; [|contradiction].
    destruct (truthy (trim m)) eqn:E; [|contradiction].
    destruct H as [<-|[]]. intros Hn. rewrite Hn in E. discriminate.
  - apply in_flat_map in H as (l & _ & H).
    unfold listItemOf in H. destruct (matchListItem l) as [m|]; [|contradiction].
    destruct (truthy (trim m)) eqn:E; [|contradiction].
    destruct H as [<-|[]]. apply trim_idem.
  - clear H.
    induction (splitLines (extractSection body title)) as [|l ls IH];
      [reflexivity|].
    simpl. rewrite length_app.
    assert (length (listItemOf l) <= 1)%nat.
    { unfold listItemOf. destruct (matchListItem l); [|simpl; lia].
      destruct (truthy _); simpl; lia. }
    lia.
Qed.

(** An item written with spaces around it, between a blank item and a
    line that is not an item. *)
Lemma extractListItems_items_witness :
  In (u "padded item") (extractListItems (u "## Tasks
-   padded item   
-    
not an item") (u "Tasks"))
  /\ trim (u "padded item") = u "padded item".
Proof.
  assert (H : In (u "padded item") (extractListItems (u "## Tasks
-   padded item   
-    
not an item") (u "Tasks"))) by (vm_compute; left; reflexivity).
  split; [exact H|].
  apply (extractListItems_items _ _ _ H).
Defined.

(* ===================================================================== *)
(** ** The shape of an excerpt *)
(* ===================================================================== *)

Lemma noTriple_tail (c : N) (s : jsstring) :
  noTripleNewline (c :: s) = true -> noTripleNewline s = true.
Proof. simpl. intros H. apply andb_prop in H as [_ H]. exact H. Qed.

Lemma noTriple_trimStart (s : jsstring) :
  noTripleNewline s = true -> noTripleNewline (trimStart s) = true.
Proof.
  induction s as [|c s IH]; [reflexivity|]. intros H. simpl.
  destruct (isSpace c); [apply IH, (noTriple_tail c s H)|exact H].
Qed.

Lemma noTriple_prefix (a b : jsstring) :
  noTripleNewline (a ++ b) = true -> noTripleNewline a = true.
Proof.
  induction a as [|x a IH]; [reflexivity|].
  change ((x :: a) ++ b) with (x :: (a ++ b)). intros H.
  pose proof (IH (noTriple_tail _ _ H)) as Ha.
  simpl in H |- *. rewrite Ha, andb_true_r.
  apply andb_prop in H as [H _].
  destruct (x =? c_nl); [|reflexivity]. simpl in *.
  destruct a as [|y [|z a]]; try reflexivity. exact H.
Qed.

Lemma trimEnd_prefix (s : jsstring) : exists b, s = trimEnd s ++ b.
Proof.
  induction s as [|c s [b IH]]; [exists []; reflexivity|]. simpl.
  destruct (isSpace c && isEmpty (trimEnd s)).
  - exists (c :: s). reflexivity.
  - exists b. simpl. rewrite <- IH. reflexivity.
Qed.

Lemma noTriple_trim (s : jsstring) :
  noTripleNewline s = true -> noTripleNewline (trim s) = true.
Proof.
  intros H. unfold trim. apply noTriple_trimStart in H.
  destruct (trimEnd_prefix (trimStart s)) as [b Hb].
  rewrite Hb in H. apply noTriple_prefix in H. exact H.
Qed.

Lemma noTriple_firstn (n : nat) (s : jsstring) :
  noTripleNewline s = true -> noTripleNewline (firstn n s) = true.
Proof.
  intros H. rewrite <- (firstn_skipn n s) in H.
  apply noTriple_prefix in H. exact H.
Qed.

Lemma noTriple_ellipsis (t : jsstring) :
  noTripleNewline t = true -> noTripleNewline (t ++ ELLIPSIS) = true.
Proof.
  induction t as [|x t IH]; [reflexivity|]. intros H.
  pose proof (IH (noTriple_tail _ _ H)) as Ht.
  change ((x :: t) ++ ELLIPSIS) with (x :: (t ++ ELLIPSIS)).
  simpl in H |- *. rewrite Ht, andb_true_r.
  apply andb_prop in H as [H _].
  destruct (x =? c_nl); [|reflexivity]. simpl in *.
  destruct t as [|y [|z t]]; simpl.
  - reflexivity.
  - rewrite andb_false_r. reflexivity.
  - exact H.
Qed.

(** The output of the collapse: at most [2 - run] newlines in front, and
    no three in a row. *)
Lemma collapseNewlines_noTriple (s : jsstring) (run : nat) :
  noTripleNewline (collapseNewlines s run) = true
  /\ ((1 <= run)%nat ->
      match collapseNewlines s run with
      | a :: b :: _ => (a =? c_nl) && (b =? c_nl) = false
      | _ => True
      end)
  /\ ((2 <= run)%nat ->
      match collapseNewlines s run with
      | a :: _ => (a =? c_nl) = false
      | _ => True
      end).
Proof.
  revert run. induction s as [|c s IH]; intros run; [simpl; auto|].
  simpl. destruct (c =? c_nl) eqn:Hc.
  - destruct (IH (S run)) as (H1 & H2 & H3).
    destruct (run <? 2)%nat eqn:Hr.
    + apply Nat.ltb_lt in Hr. split; [|split].
      * simpl. rewrite H1, Hc, andb_true_r. simpl.
        destruct run as [|[|run]]; [| |lia].
        -- specialize (H2 ltac:(lia)).
           destruct (collapseNewlines s 1) as [|a [|b r]]; try reflexivity.
           rewrite H2. reflexivity.
        -- specialize (H3 ltac:(lia)).
           destruct (collapseNewlines s 2) as [|a [|b r]]; try reflexivity.
           rewrite H3. reflexivity.
      * intros Hrun. assert (run = 1)%nat by lia. subst run.
        specialize (H3 ltac:(lia)).
        destruct (collapseNewlines s 2) as [|a r]; [exact I|].
        rewrite H3, andb_false_r. reflexivity.
      * intros Hrun. lia.
    + apply Nat.ltb_ge in Hr. split; [exact H1|]. split.
      * intros _. apply H2. lia.
      * intros _. apply H3. lia.
  - destruct (IH 0%nat) as (H1 & _ & _). split; [|split].
    + simpl. rewrite H1, Hc. reflexivity.
    + intros _. destruct (collapseNewlines s 0); [exact I|].
      rewrite Hc. reflexivity.
    + intros _. exact Hc.
Qed.

Lemma noTriple_includes (s : jsstring) :
  noTripleNewline s = true -> includes s [c_nl; c_nl; c_nl] = false.
Proof.
  induction s as [|a s IH]; [reflexivity|]. intros H.
  pose proof (IH (noTriple_tail _ _ H)) as Hs.
  change (includes (a :: s) [c_nl; c_nl; c_nl])
    with (startsWith [c_nl; c_nl; c_nl] (a :: s)
          || includes s [c_nl; c_nl; c_nl]).
  rewrite Hs, orb_false_r.
  simpl in H. apply andb_prop in H as [H _]. apply negb_true_iff in H.
  destruct s as [|b [|c s]]; cbn [startsWith].
  - apply andb_false_r.
  - rewrite !andb_false_r. reflexivity.
  - rewrite andb_true_r, (N.eqb_sym c_nl a), (N.eqb_sym c_nl b),
      (N.eqb_sym c_nl c). exact H.
Qed.

(** X5. Whatever the content and the length asked for, an excerpt has no
    whitespace at either end and never three newlines in a row; the
    excerpt of a daily summary has at most 203 characters. *)
Theorem generateExcerpt_shape (content : jsstring) (N : Z)
    (daily : DailyLog) :
  trim (generateExcerpt content N) = generateExcerpt content N
  /\ includes (generateExcerpt content N) [c_nl; c_nl; c_nl] = false
  /\ (len (ds_excerpt (createDailySummary daily)) <= 203)%Z.
Proof.
  assert (Hclean : forall c, noTripleNewline (cleanContent c) = true).
  { intros c. unfold cleanContent. apply noTriple_trim.
    apply (collapseNewlines_noTriple _ 0). }
  split; [|split].
  - unfold generateExcerpt. destruct (len _ <=? N)%Z.
    + unfold cleanContent. apply trim_idem.
    + set (t := trim (substring0 (cleanContent content) N)).
      unfold trim at 1.
      assert (Hs : trimStart (t ++ ELLIPSIS) = t ++ ELLIPSIS).
      { apply trimStart_fixed. pose proof (trim_head
          (substring0 (cleanContent content) N)) as Hh. fold t in Hh.
        destruct t; [reflexivity|exact Hh]. }
      rewrite Hs. rewrite trimEnd_app by discriminate. reflexivity.
  - apply noTriple_includes.
    unfold generateExcerpt. destruct (len _ <=? N)%Z; [apply Hclean|].
    apply noTriple_ellipsis, noTriple_trim, noTriple_firstn, Hclean.
  - simpl. unfold generateExcerpt.
    destruct (len (cleanContent (dl_content daily)) <=? 200)%Z eqn:E.
    + apply Z.leb_le in E. lia.
    + pose proof (trim_length (substring0 (cleanContent (dl_content daily)) 200)).
      pose proof (substring0_length (cleanContent (dl_content daily)) 200
                    ltac:(lia)).
      unfold len in *. rewrite length_app. simpl length. lia.
Qed.

(* ===================================================================== *)
(** ** replaceSection and extractSection *)
(* ===================================================================== *)

(** Inside the section, lines that neither open it nor close it are
    dropped. *)
Lemma replaceLoop_drop (t new : jsstring) (interior rest : list jsstring)
    (acc : list jsstring) :
  forallb (fun l => negb (isHeading l) && negb (opensSection t l)) interior
  = true ->
  replaceLoop t new (interior ++ rest) true acc
  = replaceLoop t new rest true acc.
Proof.
  induction interior as [|l ls IH]; [reflexivity|]. simpl forallb.
  intros H. apply andb_prop in H as [Hl Hls]. apply andb_prop in Hl as [Hh Ho].
  apply negb_true_iff in Hh, Ho.
  change ((l :: ls) ++ rest) with (l :: (ls ++ rest)).
  rewrite replaceLoop_cons, Ho, Hh. simpl. apply IH, Hls.
Qed.

(** Inside the section, lines that neither open it nor close it are
    collected. *)
Lemma extractLoop_collect (t : jsstring) (interior rest : list jsstring)
    (acc : list jsstring) :
  forallb (fun l => negb (isHeading l) && negb (opensSection t l)) interior
  = true ->
  extractLoop t (interior ++ rest) true acc
  = extractLoop t rest true (acc ++ interior).
Proof.
  revert acc. induction interior as [|l ls IH]; intros acc.
  - rewrite app_nil_r. reflexivity.
  - simpl forallb. intros H. apply andb_prop in H as [Hl Hls].
    apply andb_prop in Hl as [Hh Ho]. apply negb_true_iff in Hh, Ho.
    change ((l :: ls) ++ rest) with (l :: (ls ++ rest)).
    simpl extractLoop. rewrite Ho, Hh. simpl.
    rewrite (IH _ Hls), <- app_assoc. reflexivity.
Qed.

Lemma flat_map_splitLines_id (ls : list jsstring) :
  Forall (fun l => noNewline l = true) ls -> flat_map splitLines ls = ls.
Proof.
  induction 1 as [|l ls Hl _ IH]; [reflexivity|].
  simpl. rewrite (splitLines_noNewline l Hl), IH. reflexivity.
Qed.

(** X6. Reading back what was written.  Let the section [t] of a text be
    opened by its first matching line and closed by a heading or by the end
    of the text, with no heading and no matching line in between.  After
    [replaceSection] has put [new] there, a text whose lines are neither
    headings nor matching lines, [extractSection] returns [new], trimmed. *)
Theorem extractSection_replaceSection (content t new : jsstring)
    (pre : list jsstring) (h : jsstring) (interior rest : list jsstring) :
  splitLines content = pre ++ h :: interior ++ rest ->
  forallb (fun l => negb (opensSection t l)) pre = true ->
  opensSection t h = true ->
  forallb (fun l => negb (isHeading l) && negb (opensSection t l)) interior
  = true ->
  match rest with
  | [] => True
  | c :: _ => isHeading c = true /\ opensSection t c = false
  end ->
  forallb (fun l => negb (isHeading l) && negb (opensSection t l))
          (splitLines new) = true ->
  extractSection (replaceSection content t new) t = trim new.
Proof.
  intros Hlines Hpre Hh Hint Hrest Hnew.
  pose proof (splitLines_lines_noNewline content) as Hnl.
  rewrite Hlines in Hnl.
  apply Forall_app in Hnl as [Hnl_pre Hnl]. 
  apply List.Forall_cons_iff in Hnl as [Hnl_h Hnl].
  apply Forall_app in Hnl as [_ Hnl_rest].
  (* the lines replaceSection joins *)
  assert (Hout : exists tail,
             replaceLoop t new (splitLines content) false []
             = pre ++ [h; []; new] ++ tail
             /\ match tail with
                | [] => True
                | c :: _ => isHeading c = true /\ opensSection t c = false
                            /\ noNewline c = true
                end).
  { rewrite Hlines, (replaceLoop_app_quiet _ _ _ _ _ Hpre).
    rewrite replaceLoop_cons, Hh.
    rewrite (replaceLoop_drop _ _ _ _ _ Hint).
    destruct rest as [|c rest'].
    - exists []. split; [|exact I]. simpl. reflexivity.
    - destruct Hrest as [Hc Ho].
      rewrite replaceLoop_close by assumption.
      rewrite replaceLoop_acc.
      exists (c :: replaceLoop t new rest' false []).
      split.
      + simpl. rewrite <- ?app_assoc. reflexivity.
      + split; [exact Hc|]. split; [exact Ho|].
        apply List.Forall_cons_iff in Hnl_rest as [Hn _]. exact Hn. }
  destruct Hout as (tail & Hout & Htail).
  unfold replaceSection. rewrite Hout.
  unfold extractSection.
  rewrite splitLines_joinLines by (destruct pre; discriminate).
  rewrite flat_map_app, (flat_map_splitLines_id pre Hnl_pre).
  rewrite extractLoop_skip by exact Hpre.
  change (flat_map splitLines ([h; []; new] ++ tail))
    with (splitLines h ++ [[]] ++ splitLines new ++ flat_map splitLines tail).
  rewrite (splitLines_noNewline h Hnl_h).
  change ([h] ++ [[]] ++ splitLines new ++ flat_map splitLines tail)
    with (h :: ([[]] ++ splitLines new) ++ flat_map splitLines tail).
  simpl extractLoop at 1. rewrite Hh.
  rewrite extractLoop_collect
    by (simpl; rewrite Hnew; reflexivity).
  match goal with
  | |- context [extractLoop ?a ?b ?c ?d] =>
    assert (Hend : extractLoop a b c d = [] :: splitLines new)
  end.
  { destruct tail as [|c tail']; [reflexivity|].
    destruct Htail as (Hc & Ho & Hn).
    simpl flat_map. rewrite (splitLines_noNewline c Hn).
    simpl. rewrite Ho, Hc. reflexivity. }
  rewrite Hend.
  pose proof (splitLines_not_nil new) as Hne.
  pose proof (joinLines_splitLines new) as Hj.
  destruct (splitLines new) as [|l ls]; [contradiction|].
  rewrite joinLines_cons2, Hj. reflexivity.
Qed.

(** The plan of a generated report is replaced, then read back. *)
Lemma extractSection_replaceSection_witness :
  extractSection
    (replaceSection (u "# Week 2026-W03

## 风险与阻塞
-

## 下周计划
-
") (u "风险与阻塞") (u "- vendor delay
- review pending")) (u "风险与阻塞")
  = u "- vendor delay
- review pending".
Proof.
  refine (extractSection_replaceSection _ _ _
            (List.map u ["# Week 2026-W03"; ""]%string)
            (u "## 风险与阻塞")
            (List.map u ["-"; ""]%string)
            (List.map u ["## 下周计划"; "-"; ""]%string) _ _ _ _ _ _);
    vm_compute; try reflexivity.
  split; reflexivity.
Defined.

(** One guarded replacement of the merge keeps a heading line. *)
Lemma guarded_replace_keeps (b : bool) (c t new l : jsstring) :
  In l (splitLines c) -> isHeading l = true ->
  In l (splitLines (if b then replaceSection c t new else c)).
Proof.
  intros Hin Hh. destruct b; [|exact Hin].
  pose proof (replaceLoop_keeps_headings t new l _ false [] Hin Hh) as Hout.
  unfold replaceSection.
  rewrite splitLines_joinLines by (intros E; rewrite E in Hout; exact Hout).
  apply in_flat_map. exists l. split; [exact Hout|].
  pose proof (splitLines_lines_noNewline c) as Hall.
  rewrite List.Forall_forall in Hall.
  rewrite (splitLines_noNewline l (Hall l Hin)). left. reflexivity.
Qed.

(** X7. [replaceSection] never drops a heading line; and when no line of
    the text opens the section, it returns the text unchanged (the new
    content is not appended). *)
Theorem replaceSection_frame (content t new : jsstring) :
  (forall l, In l (splitLines content) -> isHeading l = true ->
             In l (splitLines (replaceSection content t new)))
  /\ (forallb (fun l => negb (opensSection t l)) (splitLines content) = true ->
      replaceSection content t new = content).
Proof.
  split.
  - intros l Hin Hh.
    apply (guarded_replace_keeps true content t new l Hin Hh).
  - intros Hq. unfold replaceSection.
    rewrite (replaceLoop_quiet _ _ _ _ Hq). apply joinLines_splitLines.
Qed.

(** A heading inside a replaced section stays; a text without the section
    is returned as it is. *)
Lemma replaceSection_frame_witness :
  In (u "### detail")
     (splitLines (replaceSection (u "## Plan
old
### detail
more") (u "Plan") (u "new")))
  /\ replaceSection (u "# Notes
text") (u "Plan") (u "new") = u "# Notes
text".
Proof.
  split.
  - apply (proj1 (replaceSection_frame _ _ _)).
    + vm_compute. tauto.
    + vm_compute. reflexivity.
  - apply (proj2 (replaceSection_frame _ _ _)). vm_compute. reflexivity.
Defined.

(** X8. A persisted body without any of the three preserved headings
    (no line starting with a [#] run, optional whitespace and "本周总结",
    "风险与阻塞" or "下周计划") contributes nothing: the merge returns the
    fresh content, whatever else the body holds. *)
Theorem merge_without_preserved_headings (existing : jsstring)
    (A : WeeklyAggregation) :
  forallb (fun l => negb (opensPreserved l)) (splitLines existing) = true ->
  mergeWeeklyContent existing A = agg_content A.
Proof.
  intros H. apply cleanLines_quiet in H as (H1 & H2 & H3).
  assert (Hx : forall t,
             forallb (fun l => negb (opensSection t l)) (splitLines existing)
             = true ->
             extractSection existing t = []).
  { intros t Ht. unfold extractSection.
    pose proof (extractLoop_skip t (splitLines existing) [] [] Ht) as E.
    rewrite app_nil_r in E. rewrite E. reflexivity. }
  unfold mergeWeeklyContent.
  rewrite (Hx _ H1), (Hx _ H2), (Hx _ H3).
  destruct (negb (truthy (trim existing))); reflexivity.
Qed.

(** A report rewritten by hand under headings of its own. *)
Lemma merge_without_preserved_headings_witness :
  let w := createDefaultWeeklyMeta (u "2026-W03") (u "2026-01-12")
                                   (u "2026-01-18") in
  let A := aggregateDailiesToWeekly codeUnitCompare [] w in
  mergeWeeklyContent (u "# My week

## Summary
Shipped the parser.

## Risks
- none") A = agg_content A.
Proof.
  intros w A. apply merge_without_preserved_headings.
  vm_compute. reflexivity.
Defined.

(** X9. The merge never drops a heading line of the fresh content: every
    heading the aggregation wrote (sections, dates, projects) is a line of
    the merged report, whatever the persisted body. *)
Theorem merge_keeps_fresh_headings (existing : jsstring)
    (A : WeeklyAggregation) (l : jsstring) :
  In l (splitLines (agg_content A)) ->
  isHeading l = true ->
  In l (splitLines (mergeWeeklyContent existing A)).
Proof.
  intros Hin Hh. unfold mergeWeeklyContent.
  destruct (negb (truthy (trim existing))); [exact Hin|].
  cbv zeta.
  repeat (apply guarded_replace_keeps; [|exact Hh]).
  exact Hin.
Qed.

(** The date heading of a fresh report survives a merge that carries a
    summary over. *)
Lemma merge_keeps_fresh_headings_witness :
  let w := createDefaultWeeklyMeta (u "2026-W03") (u "2026-01-12")
                                   (u "2026-01-18") in
  let A := aggregateDailiesToWeekly codeUnitCompare [] w in
  In (u "## 每日工作摘要")
     (splitLines (mergeWeeklyContent (u "## 本周总结
Shipped the parser.") A)).
Proof.
  intros w A. apply merge_keeps_fresh_headings.
  - vm_compute. tauto.
  - vm_compute. reflexivity.
Defined.

(* ===================================================================== *)
(** ** The text of a highlight *)
(* ===================================================================== *)

Lemma substring0_prefix (s : jsstring) (n : Z) :
  exists r, s = substring0 s n ++ r.
Proof.
  unfold substring0. exists (skipn (Z.to_nat n) s).
  symmetry. apply firstn_skipn.
Qed.

(** X10. The text of a highlight is empty exactly when the body of the
    daily log is the empty string.  It is either a section of the body,
    trimmed, or the first code units of the body, at most 500, as they
    are: a body of blanks is passed on as blanks. *)
Theorem extractHighlightContent_cases (daily : DailyLog) :
  let r := extractHighlightContent daily in
  (r = [] <-> dl_content daily = [])
  /\ (trim r = r
      \/ ((len r <= 500)%Z /\ exists rest, dl_content daily = r ++ rest))
  /\ (trim (dl_content daily) = [] -> (len (dl_content daily) <= 500)%Z ->
      r = dl_content daily).
Proof.
  intros r. subst r. unfold extractHighlightContent. cbv zeta.
  destruct (truthy (extractSection (dl_content daily) T_COMPLETED)) eqn:H1;
    [|destruct (truthy (extractSection (dl_content daily) T_PROGRESS)) eqn:H2].
  - split; [|split].
    + split; intros H.
      * rewrite H in H1. discriminate.
      * rewrite H in H1. discriminate.
    + left. unfold extractSection. apply trim_idem.
    + intros Hb _. rewrite (extractSection_blank _ _ Hb) in H1. discriminate.
  - split; [|split].
    + split; intros H.
      * rewrite H in H2. discriminate.
      * rewrite H in H2. discriminate.
    + left. unfold extractSection. apply trim_idem.
    + intros Hb _. rewrite (extractSection_blank _ _ Hb) in H2. discriminate.
  - split; [|split].
    + unfold substring0. split; intros H.
      * destruct (dl_content daily); [reflexivity|discriminate].
      * rewrite H. reflexivity.
    + right. split; [|apply substring0_prefix].
      pose proof (substring0_length (dl_content daily) 500). lia.
    + intros _ Hl. unfold substring0, len in *.
      apply firstn_all2. lia.
Qed.

(** A body of two blanks. *)
Lemma extractHighlightContent_cases_witness :
  let daily :=
    {| dl_meta := createDefaultDailyMeta (u "2026-01-12") (u "2026-W03");
       dl_content := u "  ";
       dl_filePath := u "daily/2026-01-12.md" |} in
  extractHighlightContent daily = dl_content daily.
Proof.
  intros daily.
  apply (proj2 (proj2 (extractHighlightContent_cases daily))).
  - vm_compute. reflexivity.
  - vm_compute. discriminate.
Defined.

(* ===================================================================== *)
(** ** Validated metadata *)
(* ===================================================================== *)

Lemma eqb_sym (a b : jsstring) : JS.eqb a b = JS.eqb b a.
Proof.
  destruct (JS.eqb a b) eqn:E1, (JS.eqb b a) eqn:E2; try reflexivity.
  - apply eqb_eq in E1. subst. rewrite eqb_refl in E2. discriminate.
  - apply eqb_eq in E2. subst. rewrite eqb_refl in E1. discriminate.
Qed.

Lemma eqb_neq (a b : jsstring) : a <> b -> JS.eqb a b = false.
Proof.
  intros H. destruct (JS.eqb a b) eqn:E; [|reflexivity].
  apply eqb_eq in E. contradiction.
Qed.

(** Reading a field after an assignment. *)
Lemma getField_setField (k k' : jsstring) (v : Yaml) (m : Meta) :
  getField k' (setField k v m)
  = if JS.eqb k k' then Some v else getField k' m.
Proof.
  induction m as [|[k0 v0] m IH]; simpl.
  - destruct (JS.eqb k k'); reflexivity.
  - destruct (JS.eqb k0 k) eqn:E0; simpl.
    + apply eqb_eq in E0. subst k0.
      destruct (JS.eqb k k'); reflexivity.
    + rewrite IH. destruct (JS.eqb k0 k') eqn:E1; [|reflexivity].
      apply eqb_eq in E1. subst k0. rewrite eqb_sym, E0. reflexivity.
Qed.

Lemma getField_orDefault (k k' : jsstring) (d : Yaml) (m : Meta) :
  getField k' (orDefault k d m)
  = if JS.eqb k k' then
      (if isTruthy (getField k m) then getField k m else Some d)
    else getField k' m.
Proof.
  unfold orDefault. destruct (isTruthy (getField k m)) eqn:T.
  - destruct (JS.eqb k k') eqn:E; [|reflexivity].
    apply eqb_eq in E. subst. reflexivity.
  - apply getField_setField.
Qed.

(** Rewriting of reads through the assignments of a validation; the
    comparisons of two literal keys are evaluated. *)
Ltac read_fields :=
  repeat rewrite ?getField_orDefault, ?getField_setField;
  repeat match goal with
  | |- context [JS.eqb (u ?a) (u ?b)] =>
    let v := eval vm_compute in (JS.eqb (u a) (u b)) in
    change (JS.eqb (u a) (u b)) with v
  end;
  cbv iota.

Section ValidatedMeta.

Variable parseDate : jsstring -> option Z.
Variable formatDate : Z -> jsstring.
Variable stringOf : Yaml -> jsstring.

Local Abbreviation normalizeDate := (normalizeDate parseDate formatDate stringOf).
Local Abbreviation validateDailyMeta :=
  (validateDailyMeta parseDate formatDate stringOf).
Local Abbreviation validateWeeklyMeta :=
  (validateWeeklyMeta parseDate formatDate stringOf).

(** A truthy value is normalised exactly when it is a non-empty string or
    a valid date. *)
Lemma normalizeDate_ok (v : option Yaml) :
  isTruthy v = true ->
  (exists d, normalizeDate v = Ok d)
  <-> ((exists s, v = Some (YStr s)) \/ (exists t, v = Some (YDate (Some t)))).
Proof.
  intros T. split.
  - intros [d H]. destruct v as [[| | | s |[t|]| |]|]; simpl in H;
      try discriminate.
    + left. eexists. reflexivity.
    + right. eexists. reflexivity.
  - intros [[s ->]|[t ->]]; simpl.
    + destruct (parseDate s); eexists; reflexivity.
    + eexists. reflexivity.
Qed.

(** X11. [validateDailyMeta] accepts exactly the metadata whose [type] is
    the string [daily] and whose [date] is a non-empty string or a valid
    date; a number, a boolean, a sequence, a mapping or an invalid date as
    [date] is refused. *)
Theorem validateDailyMeta_accepts (meta : Meta) :
  (exists meta', validateDailyMeta meta = Ok meta')
  <-> (getField (u "type") meta = Some (YStr (u "daily"))
       /\ ((exists s, getField (u "date") meta = Some (YStr s) /\ s <> [])
           \/ (exists t, getField (u "date") meta = Some (YDate (Some t))))).
Proof.
  unfold Parser.validateDailyMeta.
  destruct (isTruthy (getField (u "date") meta)) eqn:T; simpl negb; cbv iota.
  - split.
    + intros [m' H].
      destruct (getField (u "type") meta) as [[| | | t | | |]|] eqn:Ht;
        try discriminate.
      destruct (JS.eqb t (u "daily")) eqn:Et; [|discriminate].
      apply eqb_eq in Et. subst t. split; [reflexivity|].
      destruct (Parser.normalizeDate parseDate formatDate stringOf
                  (getField (u "date") meta)) as [d|e] eqn:Hd;
        [|discriminate].
      destruct (proj1 (normalizeDate_ok _ T) (ex_intro _ d Hd))
        as [[s Hs]|[t Ht']].
      * left. exists s. split; [exact Hs|].
        rewrite Hs in T. intros ->. discriminate.
      * right. exists t. exact Ht'.
    + intros [Ht Hd]. rewrite Ht. change (JS.eqb (u "daily") (u "daily")) with true.
      cbv iota.
      assert (Hn : exists d, normalizeDate (getField (u "date") meta) = Ok d).
      { apply (normalizeDate_ok _ T).
        destruct Hd as [(s & Hs & _)|[t Ht']]; [left|right]; eexists; eassumption. }
      destruct Hn as [d Hn]. rewrite Hn. simpl bind. eexists. reflexivity.
  - split.
    + intros [m' H]. discriminate.
    + intros [_ [(s & Hs & Hne)|[t Ht']]].
      * rewrite Hs in T. destruct s; [contradiction|discriminate].
      * rewrite Ht' in T. discriminate.
Qed.

(** X12. After a successful [validateDailyMeta] the seven fields of a daily
    log are defined: [date] is a string and [type] is [daily]; [week],
    [projects], [tags] and [github] keep a truthy value and get their
    default otherwise; [weekly_highlight] keeps any value but a missing or
    null one, which becomes [false]; every other key reads as before. *)
Theorem validateDailyMeta_defaults (meta meta' : Meta) :
  validateDailyMeta meta = Ok meta' ->
  (exists d, getField (u "date") meta' = Some (YStr d))
  /\ getField (u "type") meta' = Some (YStr (u "daily"))
  /\ (forall k dflt,
        In (k, dflt) [(u "week", YStr []); (u "projects", YSeq []);
                      (u "tags", YSeq []);
                      (u "github",
                       YMap [(u "issues", YSeq []); (u "prs", YSeq [])])] ->
        getField k meta'
        = if isTruthy (getField k meta) then getField k meta else Some dflt)
  /\ getField (u "weekly_highlight") meta'
     = match getField (u "weekly_highlight") meta with
       | None | Some YNull => Some (YBool false)
       | Some v => Some v
       end
  /\ (forall k,
        ~ In k [u "date"; u "week"; u "projects"; u "tags";
                u "weekly_highlight"; u "github"] ->
        getField k meta' = getField k meta).
Proof.
  unfold Parser.validateDailyMeta.
  destruct (negb (isTruthy (getField (u "date") meta))); [discriminate|].
  destruct (getField (u "type") meta) as [[| | | t | | |]|] eqn:Ht;
    try discriminate.
  destruct (JS.eqb t (u "daily")) eqn:Et; [|discriminate].
  apply eqb_eq in Et. subst t.
  destruct (Parser.normalizeDate parseDate formatDate stringOf
              (getField (u "date") meta)) as [d|e]; [|discriminate].
  simpl bind. cbv zeta. intros H. injection H as <-.
  set (m1 := setField (u "date") (YStr d) meta).
  set (m2 := orDefault (u "week") (YStr []) m1).
  set (m3 := orDefault (u "projects") (YSeq []) m2).
  set (m4 := orDefault (u "tags") (YSeq []) m3).
  set (m5 := match getField (u "weekly_highlight") m4 with
             | None | Some YNull =>
               setField (u "weekly_highlight") (YBool false) m4
             | Some _ => m4
             end).
  assert (H5 : forall k,
             getField k m5
             = if JS.eqb (u "weekly_highlight") k then
                 match getField (u "weekly_highlight") m4 with
                 | None | Some YNull => Some (YBool false)
                 | Some v => Some v
                 end
               else getField k m4).
  { intros k. subst m5.
    destruct (getField (u "weekly_highlight") m4) as [[| | | | | |]|] eqn:E;
      try (destruct (JS.eqb (u "weekly_highlight") k) eqn:Ek;
           [apply eqb_eq in Ek; subst k; exact E|reflexivity]);
      apply getField_setField. }
  split; [|split; [|split; [|split]]].
  - exists d. rewrite getField_orDefault.
    change (JS.eqb (u "github") (u "date")) with false. cbv iota.
    rewrite H5. change (JS.eqb (u "weekly_highlight") (u "date")) with false.
    cbv iota. subst m4 m3 m2 m1. read_fields. reflexivity.
  - rewrite getField_orDefault.
    change (JS.eqb (u "github") (u "type")) with false. cbv iota.
    rewrite H5. change (JS.eqb (u "weekly_highlight") (u "type")) with false.
    cbv iota. subst m4 m3 m2 m1. read_fields. exact Ht.
  - intros k dflt Hin. simpl in Hin.
    destruct Hin as [E|[E|[E|[E|[]]]]]; injection E as <- <-.
    + rewrite getField_orDefault.
      change (JS.eqb (u "github") (u "week")) with false. cbv iota.
      rewrite H5. change (JS.eqb (u "weekly_highlight") (u "week")) with false.
      cbv iota. subst m4 m3 m2 m1. read_fields. reflexivity.
    + rewrite getField_orDefault.
      change (JS.eqb (u "github") (u "projects")) with false. cbv iota.
      rewrite H5.
      change (JS.eqb (u "weekly_highlight") (u "projects")) with false.
      cbv iota. subst m4 m3 m2 m1. read_fields. reflexivity.
    + rewrite getField_orDefault.
      change (JS.eqb (u "github") (u "tags")) with false. cbv iota.
      rewrite H5. change (JS.eqb (u "weekly_highlight") (u "tags")) with false.
      cbv iota. subst m4 m3 m2 m1. read_fields. reflexivity.
    + rewrite getField_orDefault.
      change (JS.eqb (u "github") (u "github")) with true. cbv iota.
      rewrite !H5.
      change (JS.eqb (u "weekly_highlight") (u "github")) with false.
      cbv iota. subst m4 m3 m2 m1. read_fields. reflexivity.
  - rewrite getField_orDefault.
    change (JS.eqb (u "github") (u "weekly_highlight")) with false. cbv iota.
    rewrite H5. rewrite eqb_refl. subst m4 m3 m2 m1. read_fields.
    reflexivity.
  - intros k Hk. simpl in Hk.
    assert (N1 : JS.eqb (u "date") k = false) by (apply eqb_neq; tauto).
    assert (N2 : JS.eqb (u "week") k = false) by (apply eqb_neq; tauto).
    assert (N3 : JS.eqb (u "projects") k = false) by (apply eqb_neq; tauto).
    assert (N4 : JS.eqb (u "tags") k = false) by (apply eqb_neq; tauto).
    assert (N5 : JS.eqb (u "weekly_highlight") k = false)
      by (apply eqb_neq; tauto).
    assert (N6 : JS.eqb (u "github") k = false) by (apply eqb_neq; tauto).
    rewrite getField_orDefault, N6, H5, N5. subst m4 m3 m2 m1.
    rewrite !getField_orDefault, N4, N3, N2, getField_setField, N1.
    reflexivity.
Qed.

(** What [normalizeOrEmpty] leaves in the metadata. *)
Lemma normalizeOrEmpty_ok (key : jsstring) (m m' : Meta) :
  normalizeOrEmpty parseDate formatDate stringOf key m = Ok m' ->
  exists s, m' = setField key (YStr s) m
            /\ (isTruthy (getField key m) = false -> s = []).
Proof.
  unfold normalizeOrEmpty. destruct (isTruthy (getField key m)).
  - destruct (Parser.normalizeDate parseDate formatDate stringOf
                (getField key m)) as [d|e]; [|discriminate].
    simpl. intros H. injection H as <-. exists d. split; [reflexivity|].
    discriminate.
  - intros H. injection H as <-. exists []. split; reflexivity.
Qed.

(** X13. After a successful [validateWeeklyMeta], [week] and [type] read as
    before, [start_date] and [end_date] are strings, empty when they were
    missing or falsy, [projects] keeps a truthy value and is the empty
    list otherwise, and every other key reads as before. *)
Theorem validateWeeklyMeta_defaults (meta meta' : Meta) :
  validateWeeklyMeta meta = Ok meta' ->
  getField (u "type") meta' = Some (YStr (u "weekly"))
  /\ getField (u "week") meta' = getField (u "week") meta
  /\ isTruthy (getField (u "week") meta') = true
  /\ (forall k, In k [u "start_date"; u "end_date"] ->
        exists s, getField k meta' = Some (YStr s)
                  /\ (isTruthy (getField k meta) = false -> s = []))
  /\ getField (u "projects") meta'
     = (if isTruthy (getField (u "projects") meta)
        then getField (u "projects") meta else Some (YSeq []))
  /\ (forall k, ~ In k [u "start_date"; u "end_date"; u "projects"] ->
        getField k meta' = getField k meta).
Proof.
  unfold Parser.validateWeeklyMeta.
  destruct (isTruthy (getField (u "week") meta)) eqn:Tw; [|discriminate].
  simpl negb. cbv iota.
  destruct (getField (u "type") meta) as [[| | | t | | |]|] eqn:Ht;
    try discriminate.
  destruct (JS.eqb t (u "weekly")) eqn:Et; [|discriminate].
  apply eqb_eq in Et. subst t.
  destruct (normalizeOrEmpty parseDate formatDate stringOf (u "start_date")
              meta) as [m1|e] eqn:H1; [|discriminate].
  simpl bind.
  destruct (normalizeOrEmpty parseDate formatDate stringOf (u "end_date")
              m1) as [m2|e] eqn:H2; [|discriminate].
  simpl bind. intros H. injection H as <-.
  apply normalizeOrEmpty_ok in H1 as (s1 & -> & Hs1).
  apply normalizeOrEmpty_ok in H2 as (s2 & -> & Hs2).
  rewrite getField_setField in Hs2.
  change (JS.eqb (u "start_date") (u "end_date")) with false in Hs2.
  cbv iota in Hs2.
  split; [|split; [|split; [|split; [|split]]]].
  - read_fields. exact Ht.
  - read_fields. reflexivity.
  - read_fields. exact Tw.
  - intros k Hk. simpl in Hk. destruct Hk as [<-|[<-|[]]].
    + exists s1. split; [read_fields; reflexivity|exact Hs1].
    + exists s2. split; [read_fields; reflexivity|exact Hs2].
  - read_fields. reflexivity.
  - intros k Hk. simpl in Hk.
    assert (N1 : JS.eqb (u "start_date") k = false) by (apply eqb_neq; tauto).
    assert (N2 : JS.eqb (u "end_date") k = false) by (apply eqb_neq; tauto).
    assert (N3 : JS.eqb (u "projects") k = false) by (apply eqb_neq; tauto).
    rewrite getField_orDefault, N3, !getField_setField, N2, N1. reflexivity.
Qed.

Section Project.

Variable today : jsstring.

Local Abbreviation validateProjectMeta :=
  (validateProjectMeta parseDate formatDate stringOf today).

(** X14. After a successful [validateProjectMeta] only the key [project]
    has changed; it was and is a mapping, whose [name] and [github_repo]
    read as before and are truthy, whose [type] and [status] are truthy
    ([software] and [Planning] when they were not), whose [start_date] is
    a string, and whose other keys, [end_date] apart, read as before. *)
Theorem validateProjectMeta_defaults (meta meta' : Meta) :
  validateProjectMeta meta = Ok meta' ->
  exists project project',
    getField (u "project") meta = Some (YMap project)
    /\ getField (u "project") meta' = Some (YMap project')
    /\ (forall k, k <> u "project" -> getField k meta' = getField k meta)
    /\ (forall k, In k [u "name"; u "github_repo"] ->
          getField k project' = getField k project
          /\ isTruthy (getField k project') = true)
    /\ getField (u "type") project'
       = (if isTruthy (getField (u "type") project)
          then getField (u "type") project else Some (YStr (u "software")))
    /\ getField (u "status") project'
       = (if isTruthy (getField (u "status") project)
          then getField (u "status") project else Some (YStr (u "Planning")))
    /\ (exists s, getField (u "start_date") project' = Some (YStr s)
                  /\ (isTruthy (getField (u "start_date") project) = false ->
                      s = today))
    /\ (forall k, ~ In k [u "type"; u "status"; u "start_date"; u "end_date"] ->
          getField k project' = getField k project).
Proof.
  unfold Parser.validateProjectMeta.
  destruct (isTruthy (getField (u "project") meta)) eqn:Tp; [|discriminate].
  simpl negb. cbv iota zeta.
  destruct (isTruthy (getField (u "name")
                        (fieldsOf (getField (u "project") meta)))) eqn:Tn;
    [|discriminate].
  simpl negb. cbv iota.
  destruct (isTruthy (getField (u "github_repo")
                        (fieldsOf (getField (u "project") meta)))) eqn:Tg;
    [|discriminate].
  simpl negb. cbv iota.
  destruct (getField (u "project") meta) as [[| | | | | |project]|] eqn:Hp;
    try discriminate.
  simpl fieldsOf in *.
  set (p1 := orDefault (u "type") (YStr (u "software")) project).
  set (p2 := orDefault (u "status") (YStr (u "Planning")) p1).
  assert (Hstart : forall q p3,
             (if isTruthy (getField (u "start_date") q)
              then
                bind (Parser.normalizeDate parseDate formatDate stringOf
                        (getField (u "start_date") q))
                     (fun d => Ok (setField (u "start_date") (YStr d) q))
              else Ok (setField (u "start_date") (YStr today) q)) = Ok p3 ->
             exists s, p3 = setField (u "start_date") (YStr s) q
                       /\ (isTruthy (getField (u "start_date") q) = false ->
                           s = today)).
  { intros q p3. destruct (isTruthy (getField (u "start_date") q)).
    - destruct (Parser.normalizeDate parseDate formatDate stringOf
                  (getField (u "start_date") q)) as [d|e]; [|discriminate].
      simpl bind. intros H. injection H as <-. exists d.
      split; [reflexivity|discriminate].
    - intros H. injection H as <-. exists today. split; reflexivity. }
  assert (Hend : forall q p4,
             (if isTruthy (getField (u "end_date") q)
              then
                bind (Parser.normalizeDate parseDate formatDate stringOf
                        (getField (u "end_date") q))
                     (fun d => Ok (setField (u "end_date") (YStr d) q))
              else Ok q) = Ok p4 ->
             forall k, JS.eqb (u "end_date") k = false ->
                       getField k p4 = getField k q).
  { intros q p4. destruct (isTruthy (getField (u "end_date") q)).
    - destruct (Parser.normalizeDate parseDate formatDate stringOf
                  (getField (u "end_date") q)) as [d|e]; [|discriminate].
      simpl bind. intros H. injection H as <-. intros k Hk.
      rewrite getField_setField, Hk. reflexivity.
    - intros H. injection H as <-. reflexivity. }
  match goal with
  | |- bind ?r _ = _ -> _ => destruct r as [p3|e] eqn:H3; [|discriminate]
  end.
  simpl bind.
  destruct (Hstart _ p3 H3) as (s & -> & Hs). clear Hstart H3.
  set (p3 := setField (u "start_date") (YStr s) p2).
  match goal with
  | |- bind ?r _ = _ -> _ => destruct r as [p4|e] eqn:H4; [|discriminate]
  end.
  simpl bind. intros H. injection H as <-.
  pose proof (Hend _ p4 H4) as Hp4. clear Hend H4.
  exists project, p4.
  split; [reflexivity|].
  split; [rewrite getField_setField, eqb_refl; reflexivity|].
  split.
  { intros k Hk. rewrite getField_setField, eqb_neq by congruence.
    reflexivity. }
  assert (Hs' : isTruthy (getField (u "start_date") project) = false ->
                s = today).
  { intros Hf. apply Hs. subst p2 p1. read_fields. exact Hf. }
  split; [|split; [|split; [|split]]].
  - intros k Hk. simpl in Hk. destruct Hk as [<-|[<-|[]]].
    + rewrite Hp4 by reflexivity. subst p3 p2 p1. read_fields.
      split; [reflexivity|exact Tn].
    + rewrite Hp4 by reflexivity. subst p3 p2 p1. read_fields.
      split; [reflexivity|exact Tg].
  - rewrite Hp4 by reflexivity. subst p3 p2 p1. read_fields. reflexivity.
  - rewrite Hp4 by reflexivity. subst p3 p2 p1. read_fields. reflexivity.
  - exists s. split; [|exact Hs'].
    rewrite Hp4 by reflexivity. subst p3. read_fields. reflexivity.
  - intros k Hk. simpl in Hk.
    assert (N1 : JS.eqb (u "type") k = false) by (apply eqb_neq; tauto).
    assert (N2 : JS.eqb (u "status") k = false) by (apply eqb_neq; tauto).
    assert (N3 : JS.eqb (u "start_date") k = false) by (apply eqb_neq; tauto).
    assert (N4 : JS.eqb (u "end_date") k = false) by (apply eqb_neq; tauto).
    rewrite (Hp4 k N4). subst p3 p2 p1.
    rewrite getField_setField, N3, !getField_orDefault, N2, N1. reflexivity.
Qed.

End Project.

End ValidatedMeta.

(** A daily log with its two required fields and a key of its own. *)
Lemma validateDailyMeta_defaults_witness :
  let meta := [(u "type", YStr (u "daily"));
               (u "date", YStr (u "2026-01-12"));
               (u "mood", YStr (u "fine"))] in
  exists meta',
    validateDailyMeta (fun _ => None) (fun _ => []) (fun _ => []) meta
    = Ok meta'
    /\ (forall k,
          ~ In k [u "date"; u "week"; u "projects"; u "tags";
                  u "weekly_highlight"; u "github"] ->
          getField k meta' = getField k meta).
Proof.
  intros meta. eexists. split; [vm_compute; reflexivity|].
  refine (proj2 (proj2 (proj2 (proj2
            (validateDailyMeta_defaults (fun _ => None) (fun _ => [])
               (fun _ => []) meta _ _))))).
  vm_compute. reflexivity.
Defined.

(** A weekly report without dates. *)
Lemma validateWeeklyMeta_defaults_witness :
  let meta := [(u "week", YStr (u "2026-W03"));
               (u "type", YStr (u "weekly"))] in
  exists meta',
    validateWeeklyMeta (fun _ => None) (fun _ => []) (fun _ => []) meta
    = Ok meta'
    /\ getField (u "projects") meta' = Some (YSeq []).
Proof.
  intros meta. eexists. split; [vm_compute; reflexivity|].
  refine (proj1 (proj2 (proj2 (proj2 (proj2
            (validateWeeklyMeta_defaults (fun _ => None) (fun _ => [])
               (fun _ => []) meta _ _)))))).
  vm_compute. reflexivity.
Defined.

(** A project with a name and a repository. *)
Lemma validateProjectMeta_defaults_witness :
  let meta := [(u "project",
                YMap [(u "name", YStr (u "pwork"));
                      (u "github_repo", YStr (u "blowinding/pWork-OS"))])] in
  exists meta',
    validateProjectMeta (fun _ => None) (fun _ => []) (fun _ => [])
                        (u "2026-01-12") meta = Ok meta'
    /\ exists project project',
         getField (u "project") meta = Some (YMap project)
         /\ getField (u "project") meta' = Some (YMap project')
         /\ getField (u "status") project' = Some (YStr (u "Planning")).
Proof.
  intros meta. eexists. split; [vm_compute; reflexivity|].
  destruct (validateProjectMeta_defaults (fun _ => None) (fun _ => [])
              (fun _ => []) (u "2026-01-12") meta _ eq_refl)
    as (project & project' & H1 & H2 & _ & _ & _ & H6 & _).
  exists project, project'. split; [exact H1|]. split; [exact H2|].
  rewrite H6. unfold meta in H1. simpl in H1. injection H1 as <-.
  reflexivity.
Defined.

(* ===================================================================== *)
(** ** Texts with and without front matter *)
(* ===================================================================== *)

Lemma trimStart_stripBom (s : jsstring) :
  trimStart (stripBom s) = trimStart s.
Proof.
  destruct s as [|c s]; [reflexivity|]. simpl stripBom.
  destruct (c =? 65279) eqn:E; [|reflexivity].
  apply N.eqb_eq in E. subst c. reflexivity.
Qed.

Lemma startsWith_DELIM_trimStart (s : jsstring) :
  startsWith DELIM s = true -> startsWith DELIM (trimStart s) = true.
Proof.
  intros H. rewrite trimStart_fixed; [exact H|].
  destruct s as [|c s]; [exact I|].
  unfold DELIM in H. cbn [startsWith] in H.
  apply andb_prop in H as [H _]. apply N.eqb_eq in H.
  subst c. reflexivity.
Qed.

Section ValidatedType.

Variable parseDate : jsstring -> option Z.
Variable formatDate : Z -> jsstring.
Variable stringOf : Yaml -> jsstring.

(** The validations leave [type] as it is. *)
Lemma validateDailyMeta_type (meta meta' : Meta) :
  validateDailyMeta parseDate formatDate stringOf meta = Ok meta' ->
  getField (u "type") meta' = Some (YStr (u "daily")).
Proof.
  unfold validateDailyMeta.
  destruct (negb (isTruthy (getField (u "date") meta))); [discriminate|].
  destruct (getField (u "type") meta) as [[| | | t | | |]|] eqn:Ht;
    try discriminate.
  destruct (JS.eqb t (u "daily")) eqn:Et; [|discriminate].
  apply eqb_eq in Et. subst t.
  destruct (normalizeDate parseDate formatDate stringOf
              (getField (u "date") meta)) as [d|e]; [|discriminate].
  simpl bind. cbv zeta. intros H. injection H as <-.
  rewrite getField_orDefault.
  change (JS.eqb (u "github") (u "type")) with false. cbv iota.
  match goal with
  | |- getField _ (match ?v with _ => _ end) = _ =>
    assert (Hh : forall m,
               getField (u "type")
                 (match v with
                  | None | Some YNull =>
                    setField (u "weekly_highlight") (YBool false) m
                  | Some _ => m
                  end) = getField (u "type") m)
      by (intros m; destruct v as [[| | | | | |]|]; try reflexivity;
          apply getField_setField)
  end.
  rewrite Hh. read_fields. exact Ht.
Qed.

Lemma validateWeeklyMeta_type (meta meta' : Meta) :
  validateWeeklyMeta parseDate formatDate stringOf meta = Ok meta' ->
  getField (u "type") meta' = Some (YStr (u "weekly")).
Proof.
  unfold validateWeeklyMeta.
  destruct (negb (isTruthy (getField (u "week") meta))); [discriminate|].
  destruct (getField (u "type") meta) as [[| | | t | | |]|] eqn:Ht;
    try discriminate.
  destruct (JS.eqb t (u "weekly")) eqn:Et; [|discriminate].
  apply eqb_eq in Et. subst t.
  destruct (normalizeOrEmpty parseDate formatDate stringOf (u "start_date")
              meta) as [m1|e] eqn:H1; [|discriminate].
  simpl bind.
  destruct (normalizeOrEmpty parseDate formatDate stringOf (u "end_date")
              m1) as [m2|e] eqn:H2; [|discriminate].
  simpl bind. intros H. injection H as <-.
  apply normalizeOrEmpty_ok in H1 as (s1 & -> & _).
  apply normalizeOrEmpty_ok in H2 as (s2 & -> & _).
  read_fields. exact Ht.
Qed.

(** The validation of a project assigns the key [project] only, a
    mapping. *)
Lemma validateProjectMeta_frame (today : jsstring) (meta meta' : Meta) :
  validateProjectMeta parseDate formatDate stringOf today meta = Ok meta' ->
  exists project,
    getField (u "project") meta' = Some (YMap project)
    /\ getField (u "type") meta' = getField (u "type") meta.
Proof.
  unfold validateProjectMeta.
  destruct (negb (isTruthy (getField (u "project") meta))); [discriminate|].
  cbv zeta.
  destruct (negb (isTruthy (getField (u "name") _))); [discriminate|].
  destruct (negb (isTruthy (getField (u "github_repo") _))); [discriminate|].
  match goal with
  | |- bind ?r _ = _ -> _ => destruct r as [p3|e]; [|discriminate]
  end.
  simpl bind.
  match goal with
  | |- bind ?r _ = _ -> _ => destruct r as [p4|e]; [|discriminate]
  end.
  simpl bind. intros H. injection H as <-.
  exists p4. read_fields. split; reflexivity.
Qed.

End ValidatedType.

Section FrontMatterMarker.

Variable frontMatterEngine : jsstring -> Result (Meta * jsstring).
Variable parseDate : jsstring -> option Z.
Variable formatDate : Z -> jsstring.
Variable stringOf : Yaml -> jsstring.
Variable today : jsstring.
Variable yamlStringify : Meta -> jsstring.

(** A text that [hasFrontmatter] refuses does not start with the
    delimiter. *)
Lemma unmarked_no_delimiter (content : jsstring) :
  hasFrontmatter content = false ->
  startsWith DELIM (stripBom content) = false.
Proof.
  unfold hasFrontmatter. intros H.
  destruct (startsWith DELIM (stripBom content)) eqn:E; [|reflexivity].
  apply startsWith_DELIM_trimStart in E.
  rewrite trimStart_stripBom, H in E. discriminate.
Qed.

(** A second call of [matter] on the same text finds what the first has
    returned. *)
Lemma matter_again (cache cache' : Cache) (input : jsstring) (f : File) :
  matter frontMatterEngine cache input = (Ok f, cache') ->
  matter frontMatterEngine cache' input = (Ok f, cache').
Proof.
  unfold matter. destruct (isEmpty input).
  - intros H. injection H as <- <-. reflexivity.
  - cbv zeta. destruct (inherited (stripBom input)).
    + intros H. injection H as <- <-. reflexivity.
    + destruct (cache !! stripBom input) as [[data content]|] eqn:Hc.
      * intros H. injection H as <- <-. rewrite Hc. reflexivity.
      * destruct (startsWith DELIM (stripBom input)).
        -- destruct (frontMatterEngine (stripBom input)) as [[data content]|e];
             [|discriminate].
           intros H. injection H as <- <-.
           rewrite lookup_insert_eq. reflexivity.
        -- intros H. injection H as <- <-.
           rewrite lookup_insert_eq. reflexivity.
Qed.

Lemma parseFrontmatter_again (cache : Cache) (input : jsstring)
    (pr : ParseResult) :
  fst (parseFrontmatter frontMatterEngine cache input) = Ok pr ->
  fst (parseFrontmatter frontMatterEngine
         (snd (parseFrontmatter frontMatterEngine cache input)) input)
  = Ok pr.
Proof.
  unfold parseFrontmatter.
  destruct (matter frontMatterEngine cache input) as [[[data content| ]|e] c']
    eqn:Hm; cbn [fst snd]; try discriminate.
  intros H. rewrite (matter_again _ _ _ _ Hm). exact H.
Qed.

(** X15. [hasFrontmatter] errs on one side only.  A text it refuses, for
    which the cache of gray-matter holds no modified file, has no
    metadata: [extractFrontmatter] returns null, and [parseFrontmatter]
    returns the empty object and the whole text, trimmed, without
    consulting the YAML engine, unless the text is the name of a member
    of [Object.prototype], on which it throws a [TypeError].  Everything
    [serializeFrontmatter] writes is accepted by [hasFrontmatter], and is
    handed to the engine when the cache does not hold it. *)
Theorem hasFrontmatter_sound (cache : Cache) (content : jsstring)
    (meta : Meta) (body : jsstring) :
  (hasFrontmatter content = false ->
   unmodified cache (stripBom content) = true ->
   extractFrontmatter frontMatterEngine cache content = None
   /\ (inherited (stripBom content) = false ->
       fst (parseFrontmatter frontMatterEngine cache content)
       = Ok {| pr_meta := [];
               pr_content := trim content;
               pr_raw := content |})
   /\ (inherited (stripBom content) = true ->
       fst (parseFrontmatter frontMatterEngine cache content)
       = Err TRIM_OF_UNDEFINED))
  /\ hasFrontmatter (serializeFrontmatter yamlStringify meta body) = true
  /\ (cache !! serializeFrontmatter yamlStringify meta body = None ->
      fst (matter frontMatterEngine cache
             (serializeFrontmatter yamlStringify meta body))
      = match frontMatterEngine
                (serializeFrontmatter yamlStringify meta body) with
        | Ok (data, rest) => Ok (FileOf data rest)
        | Err e => Err e
        end).
Proof.
  split; [|split].
  - intros H Hc. apply unmarked_no_delimiter in H.
    destruct (inherited (stripBom content)) eqn:Hi.
    + pose proof (matter_inherited frontMatterEngine cache content Hi) as Hm.
      split; [|split]; [| discriminate |].
      * unfold extractFrontmatter. rewrite Hm. reflexivity.
      * intros _. unfold parseFrontmatter. rewrite Hm. reflexivity.
    + pose proof (matter_without_delimiter frontMatterEngine cache content
                    H Hi Hc) as Hm.
      split; [|split]; [| |discriminate].
      * unfold extractFrontmatter. rewrite Hm. reflexivity.
      * intros _. unfold parseFrontmatter.
        destruct (matter frontMatterEngine cache content) as [r c'].
        cbn [fst] in Hm. rewrite Hm. cbn [fst].
        unfold trim. rewrite trimStart_stripBom. reflexivity.
  - unfold hasFrontmatter, serializeFrontmatter. cbv zeta.
    apply startsWith_DELIM_trimStart, startsWith_app.
  - unfold matter, serializeFrontmatter. cbv zeta.
    change (stripBom (DELIM ++ ?x)) with (DELIM ++ x).
    change (isEmpty (DELIM ++ ?x)) with false.
    change (inherited (DELIM ++ ?x)) with false. cbv iota.
    intros Hc. rewrite Hc, startsWith_app.
    destruct (frontMatterEngine _) as [[data rest]|e]; reflexivity.
Qed.

(** X16. [parseDocument] on a text that [hasFrontmatter] refuses, for
    which the cache holds no modified file, throws the plain error
    [Unknown document type in file: <path>], or a [TypeError] when the
    text is the name of a member of [Object.prototype].  When it returns,
    the tag agrees with the metadata returned: a daily document has
    [type] daily, a weekly one [type] weekly, and a project document has
    a [project] mapping and neither of these types. *)
Theorem parseDocument_tag (cache : Cache) (fileContent filePath : jsstring) :
  (hasFrontmatter fileContent = false ->
   unmodified cache (stripBom fileContent) = true ->
   (inherited (stripBom fileContent) = false ->
    parseDocument frontMatterEngine parseDate formatDate stringOf today
                  cache fileContent filePath
    = Err (OtherError (u "Unknown document type in file: " ++ filePath)))
   /\ (inherited (stripBom fileContent) = true ->
       parseDocument frontMatterEngine parseDate formatDate stringOf today
                     cache fileContent filePath
       = Err TRIM_OF_UNDEFINED))
  /\ (forall tag document,
        parseDocument frontMatterEngine parseDate formatDate stringOf today
                      cache fileContent filePath = Ok (tag, document) ->
        doc_filePath document = filePath
        /\ match tag with
           | DocDaily => typeIs (u "daily") (doc_meta document) = true
           | DocWeekly => typeIs (u "weekly") (doc_meta document) = true
           | DocProject =>
             typeIs (u "daily") (doc_meta document) = false
             /\ typeIs (u "weekly") (doc_meta document) = false
             /\ exists project,
                  getField (u "project") (doc_meta document)
                  = Some (YMap project)
           end).
Proof.
  split.
  - intros H Hc. apply unmarked_no_delimiter in H. split; intros Hi.
    + pose proof (matter_without_delimiter frontMatterEngine cache
                    fileContent H Hi Hc) as Hm.
      unfold parseDocument, parseFrontmatter.
      destruct (matter frontMatterEngine cache fileContent) as [r c'].
      cbn [fst] in Hm. rewrite Hm. reflexivity.
    + unfold parseDocument, parseFrontmatter.
      rewrite (matter_inherited frontMatterEngine cache fileContent Hi).
      reflexivity.
  - intros tag document. unfold parseDocument. cbv zeta.
    destruct (fst (parseFrontmatter frontMatterEngine cache fileContent))
      as [pr|e] eqn:Hp; [|discriminate].
    pose proof (parseFrontmatter_again cache fileContent pr Hp) as Hp2.
    simpl bind.
    unfold parseDaily, parseWeekly, parseProject, parseWith.
    rewrite Hp2. simpl bind.
    destruct (typeIs (u "daily") (pr_meta pr)) eqn:Td;
      [|destruct (typeIs (u "weekly") (pr_meta pr)) eqn:Tw;
        [|destruct (isTruthy (getField (u "project") (pr_meta pr))) eqn:Tp;
          [|discriminate]]].
    + destruct (validateDailyMeta parseDate formatDate stringOf (pr_meta pr))
        as [m|e] eqn:Hv; [|discriminate].
      simpl bind. intros H. injection H as <- <-. split; [reflexivity|].
      simpl. unfold typeIs.
      rewrite (validateDailyMeta_type _ _ _ _ _ Hv). reflexivity.
    + destruct (validateWeeklyMeta parseDate formatDate stringOf (pr_meta pr))
        as [m|e] eqn:Hv; [|discriminate].
      simpl bind. intros H. injection H as <- <-. split; [reflexivity|].
      simpl. unfold typeIs.
      rewrite (validateWeeklyMeta_type _ _ _ _ _ Hv). reflexivity.
    + destruct (validateProjectMeta parseDate formatDate stringOf today
                  (pr_meta pr)) as [m|e] eqn:Hv; [|discriminate].
      simpl bind. intros H. injection H as <- <-. split; [reflexivity|].
      simpl.
      destruct (validateProjectMeta_frame _ _ _ _ _ _ Hv) as (p' & Hp' & Hk).
      unfold typeIs in *. rewrite Hk.
      split; [exact Td|]. split; [exact Tw|]. exists p'. exact Hp'.
Qed.

End FrontMatterMarker.

Lemma unmodified_empty (str : jsstring) : unmodified ∅ str = true.
Proof. unfold unmodified. rewrite lookup_empty. reflexivity. Qed.

(** Notes without front matter and the text [toString], on an empty
    cache and under an engine that refuses everything. *)
Lemma hasFrontmatter_sound_witness :
  fst (parseFrontmatter (fun _ => Err (OtherError [])) ∅ (u " # Notes "))
  = Ok {| pr_meta := [];
          pr_content := trim (u " # Notes ");
          pr_raw := u " # Notes " |}
  /\ fst (parseFrontmatter (fun _ => Err (OtherError [])) ∅ (u "toString"))
     = Err TRIM_OF_UNDEFINED
  /\ extractFrontmatter (fun _ => Err (OtherError [])) ∅ (u "toString")
     = None.
Proof.
  destruct (proj1 (hasFrontmatter_sound (fun _ => Err (OtherError []))
                     (fun _ => []) ∅ (u " # Notes ") [] []) eq_refl
                  (unmodified_empty _))
    as (_ & H1 & _).
  destruct (proj1 (hasFrontmatter_sound (fun _ => Err (OtherError []))
                     (fun _ => []) ∅ (u "toString") [] []) eq_refl
                  (unmodified_empty _))
    as (H2 & _ & H3).
  split; [exact (H1 eq_refl)|]. split; [exact (H3 eq_refl)|exact H2].
Defined.

Lemma parseDocument_tag_witness :
  parseDocument (fun _ => Err (OtherError [])) (fun _ => None) (fun _ => [])
                (fun _ => []) (u "2026-01-12") ∅ (u "no front matter")
                (u "notes/a.md")
  = Err (OtherError (u "Unknown document type in file: " ++ u "notes/a.md"))
  /\ parseDocument (fun _ => Err (OtherError [])) (fun _ => None)
                   (fun _ => []) (fun _ => []) (u "2026-01-12") ∅
                   (u "toString") (u "notes/a.md")
     = Err TRIM_OF_UNDEFINED
  /\ exists document,
       parseDocument
         (fun _ => Ok ([(u "type", YStr (u "daily"));
                        (u "date", YStr (u "2026-01-12"))], u "body"))
         (fun _ => None) (fun _ => []) (fun _ => []) (u "2026-01-12") ∅
         (u "---") (u "daily/2026-01-12.md")
       = Ok (DocDaily, document)
       /\ typeIs (u "daily") (doc_meta document) = true.
Proof.
  split; [|split].
  - apply (proj1 (proj1 (parseDocument_tag (fun _ => Err (OtherError []))
                    (fun _ => None) (fun _ => []) (fun _ => [])
                    (u "2026-01-12") ∅ (u "no front matter")
                    (u "notes/a.md")) eq_refl (unmodified_empty _))).
    reflexivity.
  - apply (proj2 (proj1 (parseDocument_tag (fun _ => Err (OtherError []))
                    (fun _ => None) (fun _ => []) (fun _ => [])
                    (u "2026-01-12") ∅ (u "toString")
                    (u "notes/a.md")) eq_refl (unmodified_empty _))).
    reflexivity.
  - eexists. split; [vm_compute; reflexivity|].
    refine (proj2 (proj2 (parseDocument_tag
                            (fun _ => Ok ([(u "type", YStr (u "daily"));
                                           (u "date", YStr (u "2026-01-12"))],
                                          u "body"))
                            (fun _ => None) (fun _ => []) (fun _ => [])
                            (u "2026-01-12") ∅ (u "---")
                            (u "daily/2026-01-12.md")) DocDaily _ _)).
    vm_compute. reflexivity.
Defined.

(* ===================================================================== *)
(** ** Week identifiers *)
(* ===================================================================== *)

(** What [parseWeekString] accepts. *)
Lemma parseWeekString_shape (s : jsstring) (year week : N) :
  Weekly.parseWeekString s = Some (year, week) ->
  exists y1 y2 y3 y4 w1 w2,
    s = [y1; y2; y3; y4; 45; 87; w1; w2]
    /\ forallb Weekly.isDigit [y1; y2; y3; y4; w1; w2] = true.
Proof.
  unfold Weekly.parseWeekString.
  destruct s as [|y1 [|y2 [|y3 [|y4 [|d [|w [|w1 [|w2 [|x s]]]]]]]]];
    try discriminate.
  destruct (forallb Weekly.isDigit [y1; y2; y3; y4; w1; w2]) eqn:Hd;
    [|discriminate].
  destruct (d =? 45) eqn:E1; [|discriminate].
  destruct (w =? 87) eqn:E2; [|discriminate].
  apply N.eqb_eq in E1, E2. subst d w. intros _.
  exists y1, y2, y3, y4, w1, w2. split; [reflexivity|exact Hd].
Qed.

(** The digits of a number are digits. *)
Lemma decimalDigits_digits (fuel : nat) (n : N) (acc : jsstring) :
  forallb Weekly.isDigit acc = true ->
  forallb Weekly.isDigit (WeeklyOps.decimalDigits fuel n acc) = true.
Proof.
  revert n acc. induction fuel as [|k IH]; intros n acc Hacc; [exact Hacc|].
  cbn [WeeklyOps.decimalDigits]. cbv zeta.
  assert (Hd : forallb Weekly.isDigit ((48 + n mod 10) :: acc) = true).
  { cbn [forallb]. rewrite Hacc, andb_true_r. unfold Weekly.isDigit.
    assert (Hm : n mod 10 < 10) by (apply N.mod_upper_bound; discriminate).
    generalize dependent (n mod 10). intros r Hr.
    apply andb_true_intro. split; apply N.leb_le; lia. }
  destruct (n / 10 =? 0); [exact Hd|]. apply IH, Hd.
Qed.

Lemma decimalDigits_length (fuel : nat) (n : N) (acc : jsstring) :
  (length acc <= length (WeeklyOps.decimalDigits fuel n acc))%nat.
Proof.
  revert n acc. induction fuel as [|k IH]; intros n acc;
    cbn [WeeklyOps.decimalDigits]; cbv zeta; [lia|].
  destruct (n / 10 =? 0); [cbn [length]; lia|].
  specialize (IH (n / 10) ((48 + n mod 10) :: acc)). cbn [length] in IH. lia.
Qed.

(** A number of at least [10 ^ k] has more than [k] digits. *)
Lemma decimalDigits_long (k fuel : nat) (n : N) (acc : jsstring) :
  10 ^ N.of_nat k <= n -> (k < fuel)%nat ->
  (length acc + k + 1 <= length (WeeklyOps.decimalDigits fuel n acc))%nat.
Proof.
  revert fuel n acc. induction k as [|k IH]; intros fuel n acc Hn Hf;
    (destruct fuel as [|f]; [lia|]);
    cbn [WeeklyOps.decimalDigits]; cbv zeta.
  - destruct (n / 10 =? 0); [cbn [length]; lia|].
    pose proof (decimalDigits_length f (n / 10) ((48 + n mod 10) :: acc))
      as Hl.
    cbn [length] in Hl. lia.
  - assert (Hq : 10 ^ N.of_nat k <= n / 10).
    { apply N.div_le_lower_bound; [discriminate|].
      rewrite Nat2N.inj_succ, N.pow_succ_r' in Hn. exact Hn. }
    assert (Hpos : 0 < 10 ^ N.of_nat k)
      by (apply N.neq_0_lt_0, N.pow_nonzero; discriminate).
    destruct (n / 10 =? 0) eqn:E; [apply N.eqb_eq in E; lia|].
    specialize (IH f (n / 10) ((48 + n mod 10) :: acc) Hq ltac:(lia)).
    cbn [length] in IH. lia.
Qed.

(** A number of five digits or more. *)
Lemma decimal_long (n : N) :
  10000 <= n -> (5 <= length (WeeklyOps.decimal n))%nat.
Proof.
  intros Hn. unfold WeeklyOps.decimal.
  assert (Hs : (5 <= N.size_nat n)%nat).
  { destruct n as [|p]; [lia|].
    assert (Hm : (Pos.size_nat 16 <= Pos.size_nat p)%nat)
      by (apply Pos.size_nat_monotone; lia).
    exact Hm. }
  pose proof (decimalDigits_long 4 (S (N.size_nat n)) n []) as Hl.
  cbn [length] in Hl. apply Hl; [exact Hn|lia].
Qed.

Lemma range_checked (p : N -> bool) (lo count n : N) :
  forallb p (List.map (fun i => lo + N.of_nat i) (seq 0 (N.to_nat count)))
  = true ->
  lo <= n < lo + count -> p n = true.
Proof.
  intros H Hn. rewrite forallb_forall in H. apply H.
  apply in_map_iff. exists (N.to_nat (n - lo)). split; [lia|].
  apply in_seq. lia.
Qed.

Lemma years_checked (year : N) :
  1000 <= year <= 9999 -> yearChecked year = true.
Proof.
  intros H. apply (range_checked yearChecked 1000 9000);
    [vm_compute; reflexivity|lia].
Qed.

Lemma weeks_checked (week : N) : week <= 99 -> weekChecked week = true.
Proof.
  intros H. apply (range_checked weekChecked 0 100);
    [vm_compute; reflexivity|lia].
Qed.

Lemma short_years (year : N) : year < 1000 -> shortYear year = true.
Proof.
  intros H. apply (range_checked shortYear 0 1000);
    [vm_compute; reflexivity|lia].
Qed.

(** X17. The identifier that [getCurrentWeek] and [formatWeek] build from a
    year of four digits and a week from 1 to 53 is accepted by
    [isValidWeekString] and read back by the pattern of
    [generateWeekVariables] as that year and that week.  For a year with
    fewer or more digits, or a negative one, the identifier is refused. *)
Theorem weekId_round_trip (year : Z) (week : N) :
  ((1000 <= year <= 9999)%Z -> 1 <= week <= 53 ->
   Weekly.parseWeekString (WeeklyOps.weekId year week)
   = Some (Z.to_N year, week)
   /\ WeeklyOps.isValidWeekString (WeeklyOps.weekId year week) = true)
  /\ ((year < 1000)%Z \/ (9999 < year)%Z ->
      Weekly.parseWeekString (WeeklyOps.weekId year week) = None
      /\ WeeklyOps.isValidWeekString (WeeklyOps.weekId year week) = false).
Proof.
  split.
  - intros Hy Hw.
    assert (Hp : Weekly.parseWeekString (WeeklyOps.weekId year week)
                 = Some (Z.to_N year, week)).
    { unfold WeeklyOps.weekId, WeeklyOps.decimalZ.
      destruct (year <? 0)%Z eqn:Eneg; [apply Z.ltb_lt in Eneg; lia|].
      replace (Z.abs_N year) with (Z.to_N year) by lia.
      assert (Hyc : yearChecked (Z.to_N year) = true)
        by (apply years_checked; lia).
      assert (Hwc : weekChecked week = true) by (apply weeks_checked; lia).
      unfold yearChecked in Hyc. unfold weekChecked in Hwc.
      destruct (WeeklyOps.decimal (Z.to_N year))
        as [|y1 [|y2 [|y3 [|y4 [|y5 ys]]]]]; try discriminate.
      destruct (WeeklyOps.padStart 2 48 (WeeklyOps.decimal week))
        as [|w1 [|w2 [|w3 ws]]]; try discriminate.
      apply andb_prop in Hyc as [Hyd Hyv]. apply andb_prop in Hwc as [Hwd Hwv].
      apply N.eqb_eq in Hyv, Hwv.
      cbn [forallb] in Hyd, Hwd.
      repeat match goal with
      | H : _ && _ = true |- _ => apply andb_prop in H as [? H]
      end.
      cbn [app Weekly.parseWeekString forallb].
      repeat match goal with
      | H : Weekly.isDigit _ = true |- _ => rewrite H; clear H
      end.
      change (45 =? 45) with true. change (87 =? 87) with true.
      cbn [andb]. rewrite Hyv, Hwv. reflexivity. }
    split; [exact Hp|].
    unfold WeeklyOps.isValidWeekString. rewrite Hp.
    apply andb_true_intro. split; apply N.leb_le; lia.
  - intros Hy.
    assert (Hp : Weekly.parseWeekString (WeeklyOps.weekId year week) = None).
    { destruct (Weekly.parseWeekString (WeeklyOps.weekId year week))
        as [[y w]|] eqn:E; [|reflexivity].
      exfalso. apply parseWeekString_shape in E
        as (y1 & y2 & y3 & y4 & w1 & w2 & Hs & Hd).
      cbn [forallb] in Hd.
      apply andb_prop in Hd as [D1 Hd]. apply andb_prop in Hd as [D2 Hd].
      apply andb_prop in Hd as [D3 Hd]. apply andb_prop in Hd as [D4 _].
      unfold WeeklyOps.weekId, WeeklyOps.decimalZ in Hs.
      destruct (year <? 0)%Z eqn:Eneg.
      - injection Hs as <-. discriminate.
      - apply Z.ltb_ge in Eneg.
        destruct (Z.le_gt_cases 10000 year) as [Hbig|Hsmall].
        + assert (Hl : (5 <= length (WeeklyOps.decimal (Z.abs_N year)))%nat)
            by (apply decimal_long; lia).
          pose proof (decimalDigits_digits (S (N.size_nat (Z.abs_N year)))
                        (Z.abs_N year) [] eq_refl) as Hdig.
          fold (WeeklyOps.decimal (Z.abs_N year)) in Hdig.
          destruct (WeeklyOps.decimal (Z.abs_N year))
            as [|a [|b [|c [|d [|e r]]]]]; simpl in Hl; try lia.
          injection Hs as _ _ _ _ He. subst e.
          cbn [forallb] in Hdig.
          rewrite !andb_true_iff in Hdig.
          destruct Hdig as (_ & _ & _ & _ & He & _). discriminate.
        + assert (Hl : shortYear (Z.abs_N year) = true)
            by (apply short_years; lia).
          unfold shortYear in Hl. apply Nat.leb_le in Hl.
          destruct (WeeklyOps.decimal (Z.abs_N year))
            as [|a [|b [|c [|d r]]]]; simpl in Hl; try lia;
            injection Hs; intros; subst; discriminate. }
    split; [exact Hp|].
    unfold WeeklyOps.isValidWeekString. rewrite Hp. reflexivity.
Qed.

(** Week 3 of 2026. *)
Lemma weekId_round_trip_witness :
  Weekly.parseWeekString (WeeklyOps.weekId 2026 3) = Some (2026, 3)
  /\ WeeklyOps.isValidWeekString (WeeklyOps.weekId 2026 3) = true.
Proof.
  apply (proj1 (weekId_round_trip 2026 3)); lia.
Defined.

(* ===================================================================== *)
(** ** The reports of a workspace *)
(* ===================================================================== *)

Section WeeklyLifecycle.

Variable getWeeklyFilePath : jsstring -> jsstring.
Variable listDailyFiles : Weekly.FileSystem -> list Weekly.FileInfo.
Variable parseWeekly : jsstring -> jsstring -> Result WeeklyReport.
Variable parseDaily : jsstring -> jsstring -> Result DailyLog.
Variable serializeWeekly : WeeklyReport -> jsstring.
Variable weekStartEnd : N -> N -> jsstring * jsstring.
Variable getCurrentWeek : jsstring.
Variable localeCompare : jsstring -> jsstring -> Z.
Variable renderWeeklyTemplate :
  Weekly.FileSystem -> jsstring -> Result jsstring.

Let getWeekly := Weekly.getWeekly getWeeklyFilePath parseWeekly.
Let getDailiesForWeek :=
  Weekly.getDailiesForWeek listDailyFiles parseDaily weekStartEnd.
Let aggregateFromDailies :=
  Weekly.aggregateFromDailies listDailyFiles parseDaily weekStartEnd
                              localeCompare.
Let generateWeekly :=
  Weekly.generateWeekly getWeeklyFilePath listDailyFiles parseWeekly
                        parseDaily serializeWeekly weekStartEnd
                        getCurrentWeek localeCompare.
Let createWeekly :=
  WeeklyOps.createWeekly getWeeklyFilePath listDailyFiles parseWeekly
                         parseDaily serializeWeekly weekStartEnd
                         getCurrentWeek localeCompare renderWeeklyTemplate.
Let deleteWeekly := WeeklyOps.deleteWeekly getWeeklyFilePath.

(** The week a call works on: the argument, or the week of the clock when
    the argument is omitted or empty. *)
Let weekOf (week : option jsstring) : jsstring :=
  match week with
  | Some w => if truthy w then w else getCurrentWeek
  | None => getCurrentWeek
  end.

(** The aggregation of a week whose identifier is well formed. *)
Lemma aggregateFromDailies_ok (fs : Weekly.FileSystem) (w : jsstring)
    (year weekNo : N) :
  Weekly.parseWeekString w = Some (year, weekNo) ->
  exists dailies,
    getDailiesForWeek fs w = Ok dailies
    /\ aggregateFromDailies fs w
       = Ok (aggregateDailiesToWeekly localeCompare dailies
               (createDefaultWeeklyMeta w (fst (weekStartEnd year weekNo))
                                          (snd (weekStartEnd year weekNo)))).
Proof.
  intros Hw. unfold aggregateFromDailies, Weekly.aggregateFromDailies,
    getDailiesForWeek, Weekly.getDailiesForWeek, Weekly.getWeekDateRange.
  rewrite Hw. simpl. eexists. split; reflexivity.
Qed.

(** The aggregation of a week whose identifier is malformed. *)
Lemma aggregateFromDailies_invalid (fs : Weekly.FileSystem) (w : jsstring) :
  Weekly.parseWeekString w = None ->
  aggregateFromDailies fs w
  = Err (OtherError (u "Invalid week format: " ++ w
                     ++ u ". Expected YYYY-Www")).
Proof.
  intros Hw. unfold aggregateFromDailies, Weekly.aggregateFromDailies,
    Weekly.getWeekDateRange.
  rewrite Hw. reflexivity.
Qed.

(** What a successful [generateWeekly] leaves behind. *)
Lemma generateWeekly_written (fs fs' : Weekly.FileSystem)
    (week : option jsstring) (weekly : WeeklyReport) :
  generateWeekly fs week = Ok (fs', weekly) ->
  fs' = <[getWeeklyFilePath (weekOf week) := serializeWeekly weekly]> fs.
Proof.
  unfold generateWeekly, Weekly.generateWeekly. fold (weekOf week).
  cbv zeta.
  destruct (Weekly.getWeekly getWeeklyFilePath parseWeekly fs (weekOf week))
    as [existing|e]; [|discriminate].
  simpl bind.
  destruct (Weekly.aggregateFromDailies listDailyFiles parseDaily
              weekStartEnd localeCompare fs (weekOf week)) as [A|e];
    [|discriminate].
  simpl bind.
  match goal with
  | |- bind ?r _ = _ -> _ => destruct r as [wk|e]; [|discriminate]
  end.
  simpl bind. intros H. injection H as <- <-. reflexivity.
Qed.

(** X18. When the target week [w] has no report and [w] is a week
    identifier, [generateWeekly] succeeds: the report it returns and writes
    at the path of the week carries the metadata of the fresh aggregation
    (the week, [weekly], the two dates computed for the week, the
    aggregated projects), the aggregated content and that path; no other
    file is changed. *)
Theorem generateWeekly_new (fs : Weekly.FileSystem)
    (week : option jsstring) (year weekNo : N) :
  let w := weekOf week in
  fs !! getWeeklyFilePath w = None ->
  Weekly.parseWeekString w = Some (year, weekNo) ->
  exists (aggregation : WeeklyAggregation) (weekly : WeeklyReport),
    aggregateFromDailies fs w = Ok aggregation
    /\ generateWeekly fs week
       = Ok (<[getWeeklyFilePath w := serializeWeekly weekly]> fs, weekly)
    /\ wr_meta weekly = agg_meta aggregation
    /\ wr_meta weekly
       = {| weekly_week := w;
            weekly_type := u "weekly";
            weekly_start_date := fst (weekStartEnd year weekNo);
            weekly_end_date := snd (weekStartEnd year weekNo);
            weekly_projects := agg_projects aggregation |}
    /\ wr_content weekly = agg_content aggregation
    /\ wr_filePath weekly = getWeeklyFilePath w
    /\ (forall p : jsstring,
          p <> getWeeklyFilePath w ->
          (<[getWeeklyFilePath w := serializeWeekly weekly]> fs) !! p
          = fs !! p).
Proof.
  intros w Hfile Hweek.
  destruct (aggregateFromDailies_ok fs w year weekNo Hweek)
    as (dailies & _ & Hagg).
  eexists. eexists. split; [exact Hagg|].
  split.
  - unfold generateWeekly, Weekly.generateWeekly, Weekly.getWeekly.
    fold (weekOf week). fold w. cbv zeta.
    rewrite Hfile. simpl bind.
    fold aggregateFromDailies. rewrite Hagg. simpl bind.
    unfold Weekly.getWeekDateRange. rewrite Hweek. simpl bind. reflexivity.
  - repeat split.
    intros p Hp. apply lookup_insert_ne. congruence.
Qed.

(** X19. For a target week that is not of the form of four digits, [-W]
    and two digits, [generateWeekly] never returns and so writes nothing;
    when the week has no report the error is [Invalid week format]. *)
Theorem generateWeekly_invalid_week (fs : Weekly.FileSystem)
    (week : option jsstring) :
  let w := weekOf week in
  Weekly.parseWeekString w = None ->
  (forall r, generateWeekly fs week <> Ok r)
  /\ (fs !! getWeeklyFilePath w = None ->
      generateWeekly fs week
      = Err (OtherError (u "Invalid week format: " ++ w
                         ++ u ". Expected YYYY-Www"))).
Proof.
  intros w Hw.
  pose proof (aggregateFromDailies_invalid fs w Hw) as Hagg.
  split.
  - intros r. unfold generateWeekly, Weekly.generateWeekly.
    fold (weekOf week). fold w. cbv zeta.
    destruct (Weekly.getWeekly getWeeklyFilePath parseWeekly fs w)
      as [existing|e]; [|discriminate].
    simpl bind. fold aggregateFromDailies. rewrite Hagg. discriminate.
  - intros Hfile. unfold generateWeekly, Weekly.generateWeekly,
      Weekly.getWeekly.
    fold (weekOf week). fold w. cbv zeta.
    rewrite Hfile. simpl bind. fold aggregateFromDailies. rewrite Hagg.
    reflexivity.
Qed.

(** X20. After [generateWeekly] has succeeded for a week, [getWeekly]
    reads what was serialised, [createWeekly] refuses the week as
    existing, and [deleteWeekly] succeeds; after the deletion [getWeekly]
    returns null, a second deletion fails as not found, and the files
    other than the report are those from before the generation. *)
Theorem weekly_lifecycle (fs fs' : Weekly.FileSystem)
    (week : option jsstring) (weekly : WeeklyReport) (autoAggregate : bool) :
  let w := weekOf week in
  let path := getWeeklyFilePath w in
  generateWeekly fs week = Ok (fs', weekly) ->
  getWeekly fs' w
  = (let? parsed := parseWeekly (serializeWeekly weekly) path in
     Ok (Some parsed))
  /\ createWeekly fs' week autoAggregate
     = Err (OtherError (u "Weekly report already exists for " ++ w))
  /\ deleteWeekly fs' w = Ok (delete path fs')
  /\ getWeekly (delete path fs') w = Ok None
  /\ deleteWeekly (delete path fs') w
     = Err (OtherError (u "Weekly report not found for " ++ w))
  /\ (forall p, p <> path -> delete path fs' !! p = fs !! p).
Proof.
  intros w path Hgen. apply generateWeekly_written in Hgen.
  fold w in Hgen. fold path in Hgen. subst fs'.
  assert (Hl : (<[path := serializeWeekly weekly]> fs) !! path
               = Some (serializeWeekly weekly)) by apply lookup_insert_eq.
  assert (Hd : delete path (<[path := serializeWeekly weekly]> fs) !! path
               = None) by apply lookup_delete_eq.
  split; [|split; [|split; [|split; [|split]]]].
  - unfold getWeekly, Weekly.getWeekly. fold path. cbv zeta. rewrite Hl.
    reflexivity.
  - unfold createWeekly, WeeklyOps.createWeekly. fold (weekOf week). fold w.
    cbv zeta. fold path. rewrite Hl. reflexivity.
  - unfold deleteWeekly, WeeklyOps.deleteWeekly. cbv zeta. fold path.
    rewrite Hl. reflexivity.
  - unfold getWeekly, Weekly.getWeekly. cbv zeta. fold path. rewrite Hd.
    reflexivity.
  - unfold deleteWeekly, WeeklyOps.deleteWeekly. cbv zeta. fold path.
    rewrite Hd. reflexivity.
  - intros p Hp. rewrite lookup_delete_ne by congruence.
    apply lookup_insert_ne. congruence.
Qed.

(** X21. On a workspace without the report of a week, [createWeekly] with
    [autoAggregate] and [generateWeekly] write the same body and the same
    project list, at the same path; the other metadata of the created
    report is that of the rendered template. *)
Theorem create_generate_agree (fs fs1 fs2 : Weekly.FileSystem)
    (week : option jsstring) (created generated : WeeklyReport) :
  createWeekly fs week true = Ok (fs1, created) ->
  generateWeekly fs week = Ok (fs2, generated) ->
  wr_content created = wr_content generated
  /\ weekly_projects (wr_meta created) = weekly_projects (wr_meta generated)
  /\ fs1 = <[getWeeklyFilePath (weekOf week) := serializeWeekly created]> fs
  /\ fs2 = <[getWeeklyFilePath (weekOf week) := serializeWeekly generated]> fs
  /\ exists content template,
       renderWeeklyTemplate fs (weekOf week) = Ok content
       /\ parseWeekly content (getWeeklyFilePath (weekOf week)) = Ok template
       /\ weekly_week (wr_meta created) = weekly_week (wr_meta template)
       /\ weekly_start_date (wr_meta created)
          = weekly_start_date (wr_meta template)
       /\ weekly_end_date (wr_meta created)
          = weekly_end_date (wr_meta template)
       /\ wr_filePath created = wr_filePath template.
Proof.
  intros Hc Hg. pose proof (generateWeekly_written _ _ _ _ Hg) as Hfs2.
  revert Hc Hg.
  unfold createWeekly, WeeklyOps.createWeekly, generateWeekly,
    Weekly.generateWeekly, Weekly.getWeekly.
  fold (weekOf week). cbv zeta.
  destruct (fs !! getWeeklyFilePath (weekOf week)) as [raw|] eqn:Hfile;
    [discriminate|].
  destruct (renderWeeklyTemplate fs (weekOf week)) as [content|e] eqn:Hr;
    [|discriminate].
  simpl bind.
  destruct (parseWeekly content (getWeeklyFilePath (weekOf week)))
    as [template|e] eqn:Hp; [|discriminate].
  simpl bind.
  destruct (Weekly.aggregateFromDailies listDailyFiles parseDaily
              weekStartEnd localeCompare fs (weekOf week)) as [A|e];
    [|discriminate].
  simpl bind. intros Hc. injection Hc as <- <-.
  destruct (Weekly.getWeekDateRange weekStartEnd (weekOf week)) as [range|e];
    [|discriminate].
  simpl bind. intros Hg. injection Hg as _ <-.
  split; [reflexivity|]. split; [reflexivity|]. split; [reflexivity|].
  split; [exact Hfs2|].
  exists content, template. repeat split; first [assumption|reflexivity].
Qed.

(** X22. [getDailiesForWeek] returns only daily logs read from listed
    files whose name lies between the first and the last day of the week,
    bounds included, and that parse; a file that does not parse is left
    out, so that there are at most as many logs as files listed. *)
Theorem getDailiesForWeek_members (fs : Weekly.FileSystem) (w : jsstring)
    (dailies : list DailyLog) :
  getDailiesForWeek fs w = Ok dailies ->
  exists year weekNo,
    Weekly.parseWeekString w = Some (year, weekNo)
    /\ (forall d, In d dailies ->
          exists file content,
            In file (listDailyFiles fs)
            /\ Weekly.strGe (Weekly.fi_name file)
                            (fst (weekStartEnd year weekNo)) = true
            /\ Weekly.strLe (Weekly.fi_name file)
                            (snd (weekStartEnd year weekNo)) = true
            /\ fs !! Weekly.fi_path file = Some content
            /\ parseDaily content (Weekly.fi_path file) = Ok d)
    /\ (length dailies <= length (listDailyFiles fs))%nat.
Proof.
  unfold getDailiesForWeek, Weekly.getDailiesForWeek, Weekly.getWeekDateRange.
  destruct (Weekly.parseWeekString w) as [[year weekNo]|]; [|discriminate].
  simpl bind. cbv zeta. intros H. injection H as <-.
  exists year, weekNo. split; [reflexivity|]. split.
  - intros d Hd. apply in_flat_map in Hd as (path & Hpath & Hd).
    unfold Weekly.findDailyFilesByDateRange in Hpath.
    apply in_map_iff in Hpath as (file & <- & Hfile).
    apply filter_In in Hfile as [Hin Hrange].
    apply andb_prop in Hrange as [Hge Hle].
    unfold Weekly.readDaily in Hd.
    destruct (fs !! Weekly.fi_path file) as [content|] eqn:Hc;
      [|contradiction].
    destruct (parseDaily content (Weekly.fi_path file)) as [d'|e] eqn:Hp;
      [|contradiction].
    destruct Hd as [<-|[]].
    exists file, content. repeat split; assumption.
  - unfold Weekly.findDailyFilesByDateRange.
    set (files := List.filter _ (listDailyFiles fs)).
    assert (Hf : (length files <= length (listDailyFiles fs))%nat)
      by apply filter_length_le.
    assert (Hr : forall paths,
               (length (flat_map (Weekly.readDaily parseDaily fs) paths)
                <= length paths)%nat).
    { induction paths as [|p ps IH]; [reflexivity|].
      simpl. rewrite length_app. unfold Weekly.readDaily at 1.
      destruct (fs !! p) as [c|]; [|simpl; lia].
      destruct (parseDaily c p); simpl; lia. }
    specialize (Hr (List.map Weekly.fi_path files)).
    rewrite length_map in Hr. lia.
Qed.

End WeeklyLifecycle.

(** A workspace without files, week 2026-W03. *)
Lemma generateWeekly_new_witness :
  let path := fun w : jsstring => u "weekly/" ++ w ++ u ".md" in
  exists aggregation weekly,
    Weekly.generateWeekly path (fun _ => [])
      (fun _ _ => Err (OtherError [])) (fun _ _ => Err (OtherError []))
      wr_content (fun _ _ => (u "2026-01-12", u "2026-01-18"))
      (u "2026-W45") codeUnitCompare ∅ (Some (u "2026-W03"))
    = Ok (<[path (u "2026-W03") := wr_content weekly]> ∅, weekly)
    /\ wr_content weekly = agg_content aggregation
    /\ weekly_start_date (wr_meta weekly) = u "2026-01-12".
Proof.
  intros path.
  destruct (generateWeekly_new path (fun _ => [])
              (fun _ _ => Err (OtherError [])) (fun _ _ => Err (OtherError []))
              wr_content (fun _ _ => (u "2026-01-12", u "2026-01-18"))
              (u "2026-W45") codeUnitCompare ∅ (Some (u "2026-W03")) 2026 3)
    as (aggregation & weekly & _ & Hgen & _ & Hmeta & Hcontent & _).
  - apply lookup_empty.
  - reflexivity.
  - exists aggregation, weekly. split; [exact Hgen|]. split; [exact Hcontent|].
    rewrite Hmeta. reflexivity.
Defined.

(** A week given as a word. *)
Lemma generateWeekly_invalid_week_witness :
  let path := fun w : jsstring => u "weekly/" ++ w ++ u ".md" in
  Weekly.generateWeekly path (fun _ => [])
    (fun _ _ => Err (OtherError [])) (fun _ _ => Err (OtherError []))
    wr_content (fun _ _ => (u "2026-01-12", u "2026-01-18"))
    (u "2026-W45") codeUnitCompare ∅ (Some (u "next"))
  = Err (OtherError (u "Invalid week format: " ++ u "next"
                     ++ u ". Expected YYYY-Www")).
Proof.
  intros path.
  apply (proj2 (generateWeekly_invalid_week path (fun _ => [])
                  (fun _ _ => Err (OtherError []))
                  (fun _ _ => Err (OtherError []))
                  wr_content (fun _ _ => (u "2026-01-12", u "2026-01-18"))
                  (u "2026-W45") codeUnitCompare ∅ (Some (u "next"))
                  eq_refl)).
  apply lookup_empty.
Defined.

(** The report of week 2026-W03 is generated on an empty workspace, then
    created again. *)
Lemma weekly_lifecycle_witness :
  let path := fun w : jsstring => u "weekly/" ++ w ++ u ".md" in
  exists fs' weekly,
    Weekly.generateWeekly path (fun _ => [])
      (fun _ _ => Err (OtherError [])) (fun _ _ => Err (OtherError []))
      wr_content (fun _ _ => (u "2026-01-12", u "2026-01-18"))
      (u "2026-W45") codeUnitCompare ∅ (Some (u "2026-W03"))
    = Ok (fs', weekly)
    /\ WeeklyOps.createWeekly path (fun _ => [])
         (fun _ _ => Err (OtherError [])) (fun _ _ => Err (OtherError []))
         wr_content (fun _ _ => (u "2026-01-12", u "2026-01-18"))
         (u "2026-W45") codeUnitCompare (fun _ _ => Ok [])
         fs' (Some (u "2026-W03")) false
       = Err (OtherError (u "Weekly report already exists for "
                          ++ u "2026-W03")).
Proof.
  intros path. eexists. eexists.
  match goal with
  | |- ?L = Ok (?a, ?b) /\ _ => assert (Hgen : L = Ok (a, b))
  end.
  { unfold Weekly.generateWeekly, Weekly.getWeekly. cbv zeta.
    change (truthy (u "2026-W03")) with true. cbv iota.
    rewrite lookup_empty. reflexivity. }
  split; [exact Hgen|].
  exact (proj1 (proj2 (weekly_lifecycle path (fun _ => [])
                         (fun _ _ => Err (OtherError []))
                         (fun _ _ => Err (OtherError []))
                         wr_content
                         (fun _ _ => (u "2026-01-12", u "2026-01-18"))
                         (u "2026-W45") codeUnitCompare (fun _ _ => Ok [])
                         ∅ _ (Some (u "2026-W03")) _ false Hgen))).
Defined.

(** The same workspace, with a template that parses. *)
Lemma create_generate_agree_witness :
  let path := fun w : jsstring => u "weekly/" ++ w ++ u ".md" in
  let parse := fun (content filePath : jsstring) =>
    Ok {| wr_meta := createDefaultWeeklyMeta (u "2026-W03") (u "2026-01-12")
                                             (u "2026-01-18");
          wr_content := content;
          wr_filePath := filePath |} in
  exists fs1 fs2 created generated,
    WeeklyOps.createWeekly path (fun _ => []) parse
      (fun _ _ => Err (OtherError []))
      wr_content (fun _ _ => (u "2026-01-12", u "2026-01-18"))
      (u "2026-W45") codeUnitCompare (fun _ _ => Ok (u "# template"))
      ∅ (Some (u "2026-W03")) true
    = Ok (fs1, created)
    /\ Weekly.generateWeekly path (fun _ => []) parse
         (fun _ _ => Err (OtherError []))
         wr_content (fun _ _ => (u "2026-01-12", u "2026-01-18"))
         (u "2026-W45") codeUnitCompare ∅ (Some (u "2026-W03"))
       = Ok (fs2, generated)
    /\ wr_content created = wr_content generated.
Proof.
  intros path parse. eexists. eexists. eexists. eexists.
  match goal with
  | |- ?L = Ok (?a, ?b) /\ _ => assert (Hc : L = Ok (a, b))
  end.
  { unfold WeeklyOps.createWeekly. cbv zeta.
    change (truthy (u "2026-W03")) with true. cbv iota.
    rewrite lookup_empty. reflexivity. }
  match goal with
  | |- _ /\ ?L = Ok (?a, ?b) /\ _ => assert (Hg : L = Ok (a, b))
  end.
  { unfold Weekly.generateWeekly, Weekly.getWeekly. cbv zeta.
    change (truthy (u "2026-W03")) with true. cbv iota.
    rewrite lookup_empty. reflexivity. }
  split; [exact Hc|]. split; [exact Hg|].
  exact (proj1 (create_generate_agree path (fun _ => []) parse
                  (fun _ _ => Err (OtherError []))
                  wr_content (fun _ _ => (u "2026-01-12", u "2026-01-18"))
                  (u "2026-W45") codeUnitCompare
                  (fun _ _ => Ok (u "# template"))
                  ∅ _ _ (Some (u "2026-W03")) _ _ Hc Hg)).
Defined.

(** One daily file of the week, which parses. *)
Lemma getDailiesForWeek_members_witness :
  let file := {| Weekly.fi_path := u "daily/2026-01-12.md";
                 Weekly.fi_name := u "2026-01-12" |} in
  let parse := fun (content filePath : jsstring) =>
    Ok {| dl_meta := createDefaultDailyMeta (u "2026-01-12") (u "2026-W03");
          dl_content := content;
          dl_filePath := filePath |} in
  let fs : Weekly.FileSystem := {[ u "daily/2026-01-12.md" := u "done" ]} in
  exists dailies,
    Weekly.getDailiesForWeek (fun _ => [file]) parse
      (fun _ _ => (u "2026-01-12", u "2026-01-18")) fs (u "2026-W03")
    = Ok dailies
    /\ (length dailies <= 1)%nat.
Proof.
  intros file parse fs. eexists.
  match goal with
  | |- ?L = Ok ?a /\ _ => assert (Hd : L = Ok a) by reflexivity
  end.
  split; [exact Hd|].
  destruct (getDailiesForWeek_members (fun _ => [file]) parse
              (fun _ _ => (u "2026-01-12", u "2026-01-18")) fs (u "2026-W03")
              _ Hd) as (year & weekNo & _ & _ & Hlen).
  exact Hlen.
Defined.

(* ===================================================================== *)
(** ** Template variables *)
(* ===================================================================== *)

Lemma takeWord_app (s : jsstring) :
  s = fst (Template.takeWord s) ++ snd (Template.takeWord s).
Proof.
  induction s as [|c s IH]; [reflexivity|]. simpl.
  destruct (Template.isWordChar c); simpl; [|reflexivity].
  rewrite <- IH. reflexivity.
Qed.

(** A match is the text of the variable between its braces. *)
Lemma matchVar_text (s key : jsstring) :
  Template.matchVar s = Some key ->
  exists rest,
    s = [Template.c_lbrace; Template.c_lbrace] ++ key
        ++ [Template.c_rbrace; Template.c_rbrace] ++ rest.
Proof.
  unfold Template.matchVar.
  destruct s as [|a [|b s1]]; try discriminate.
  destruct ((a =? Template.c_lbrace) && (b =? Template.c_lbrace)) eqn:E;
    [|discriminate].
  apply andb_prop in E as [Ea Eb]. apply N.eqb_eq in Ea, Eb. subst a b.
  pose proof (takeWord_app s1) as Hs.
  destruct (Template.takeWord s1) as [w r]. simpl in Hs.
  destruct w as [|k w]; [discriminate|].
  destruct r as [|c [|d r]]; try discriminate.
  destruct ((c =? Template.c_rbrace) && (d =? Template.c_rbrace)) eqn:E;
    [|discriminate].
  apply andb_prop in E as [Ec Ed]. apply N.eqb_eq in Ec, Ed. subst c d.
  intros H. injection H as <-. exists r. rewrite Hs. reflexivity.
Qed.

Lemma scanVariables_keeps (t : jsstring) (skip : nat)
    (acc : list jsstring) (k : jsstring) :
  In k acc -> In k (Template.scanVariables t skip acc).
Proof.
  revert skip acc. induction t as [|c t IH]; intros skip acc Hk;
    [exact Hk|].
  cbn [Template.scanVariables]. destruct skip as [|n]; [|apply IH, Hk].
  destruct (Template.matchVar (c :: t)); apply IH; [|exact Hk].
  apply setAdd_In. right. exact Hk.
Qed.

Lemma replaceVariables_unbound (t : jsstring)
    (variables : jsstring -> option jsstring) (skip : nat)
    (acc : list jsstring) :
  (forall k, In k (Template.scanVariables t skip acc) ->
             variables k = None) ->
  Template.replaceVariables t variables skip = skipn skip t.
Proof.
  revert skip acc. induction t as [|c t IH]; intros skip acc H.
  - destruct skip; reflexivity.
  - cbn [Template.replaceVariables Template.scanVariables] in *.
    destruct skip as [|n]; [|exact (IH n acc H)].
    destruct (Template.matchVar (c :: t)) as [key|] eqn:Hm.
    + rewrite (H key)
        by (apply scanVariables_keeps, setAdd_In; left; reflexivity).
      rewrite (IH _ _ H).
      apply matchVar_text in Hm as [rest Hm].
      simpl in Hm. injection Hm as -> ->.
      cbn [skipn app]. f_equal. f_equal.
      replace (length key + 3)%nat
        with (length (key ++ [Template.c_rbrace; Template.c_rbrace]) + 1)%nat
        by (rewrite length_app; simpl; lia).
      change (Template.c_lbrace :: key
              ++ Template.c_rbrace :: Template.c_rbrace :: rest)
        with ([Template.c_lbrace]
              ++ (key ++ Template.c_rbrace :: Template.c_rbrace :: rest)).
      change (key ++ Template.c_rbrace :: Template.c_rbrace :: rest)
        with (key ++ [Template.c_rbrace; Template.c_rbrace] ++ rest).
      rewrite (app_assoc key), Nat.add_comm.
      cbn [Nat.add skipn app].
      rewrite skipn_app, skipn_all, Nat.sub_diag. reflexivity.
    + rewrite (IH 0%nat acc H). reflexivity.
Qed.

(** X23. Rendering leaves a template as it is when none of the variables
    that [extractVariables] finds in it has a value: in particular a
    template without a pair of opening braces.  The lookup [variables k]
    is the read [variables[key]] of the code, which for an object literal
    also finds the members inherited from [Object.prototype]. *)
Theorem replaceVariables_unbound_identity (template : jsstring)
    (variables : jsstring -> option jsstring) :
  (forall k, In k (Template.extractVariables template) ->
             variables k = None) ->
  Template.replaceVariables template variables 0 = template.
Proof.
  intros H. apply (replaceVariables_unbound template variables 0 [] H).
Qed.

(** The title line of the weekly template, rendered with the date only. *)
Lemma replaceVariables_unbound_identity_witness :
  let variables := fun k : jsstring =>
    if JS.eqb k (u "DATE") then Some (u "2026-01-12") else None in
  Template.replaceVariables (u "# Week {{WEEK}} {x}") variables 0
  = u "# Week {{WEEK}} {x}".
Proof.
  intros variables. apply replaceVariables_unbound_identity.
  intros k Hk. vm_compute in Hk. destruct Hk as [<-|[]]. reflexivity.
Defined.

(* ===================================================================== *)
(** ** Repository URLs *)
(* ===================================================================== *)

Lemma startsWith_app_l (p a b : jsstring) :
  startsWith p a = true -> startsWith p (a ++ b) = true.
Proof.
  revert a. induction p as [|c p IH]; intros a H; [reflexivity|].
  destruct a as [|x a]; [discriminate|].
  cbn [startsWith app] in *. apply andb_prop in H as [H1 H2].
  rewrite H1, (IH a H2). reflexivity.
Qed.

Lemma endsWith_cons (c : N) (s p : jsstring) :
  endsWith s p = true -> endsWith (c :: s) p = true.
Proof.
  unfold endsWith. intros H. cbn [rev]. apply startsWith_app_l, H.
Qed.

Lemma afterPrefix_app (p s : jsstring) :
  GitHub.afterPrefix p (p ++ s) = Some s.
Proof.
  unfold GitHub.afterPrefix. rewrite startsWith_app.
  rewrite skipn_app, skipn_all, Nat.sub_diag. reflexivity.
Qed.

(** The owner group: a non-empty run of the class before a slash. *)
Lemma ownerSlash_run (owner rest : jsstring) :
  owner <> [] -> forallb GitHub.isOwnerChar owner = true ->
  GitHub.ownerSlash (owner ++ GitHub.c_slash :: rest) = Some (owner, rest).
Proof.
  induction owner as [|c o IH]; intros Hne Hc; [contradiction|].
  cbn [forallb] in Hc. apply andb_prop in Hc as [Hc Ho].
  cbn [app GitHub.ownerSlash]. rewrite Hc.
  destruct o as [|d o].
  - cbn [app GitHub.ownerSlash].
    change (GitHub.isOwnerChar GitHub.c_slash) with false. cbv iota.
    rewrite N.eqb_refl. reflexivity.
  - rewrite IH by (discriminate || exact Ho). reflexivity.
Qed.

Lemma ownerSlash_sound (s owner rest : jsstring) :
  GitHub.ownerSlash s = Some (owner, rest) ->
  s = owner ++ GitHub.c_slash :: rest
  /\ owner <> [] /\ forallb GitHub.isOwnerChar owner = true.
Proof.
  revert owner rest. induction s as [|c s IH]; intros owner rest;
    [discriminate|].
  cbn [GitHub.ownerSlash].
  destruct (GitHub.isOwnerChar c) eqn:Hc; [|discriminate].
  destruct (GitHub.ownerSlash s) as [[o r]|] eqn:Hs.
  - intros H. injection H as <- <-.
    destruct (IH o r eq_refl) as (-> & Hne & Ho).
    split; [reflexivity|]. split; [discriminate|].
    cbn [forallb]. rewrite Hc, Ho. reflexivity.
  - destruct s as [|d s']; [discriminate|].
    destruct (d =? GitHub.c_slash) eqn:Ed; [|discriminate].
    apply N.eqb_eq in Ed. subst d.
    intros H. injection H as <- <-.
    split; [reflexivity|]. split; [discriminate|].
    cbn [forallb]. rewrite Hc. reflexivity.
Qed.

(** The lazy group before an optional [.git]. *)
Lemma repoLazy_dotGit (repo : jsstring) :
  repo <> [] -> forallb GitHub.isRepoChar repo = true ->
  GitHub.repoLazy (repo ++ GitHub.DOT_GIT) = Some repo.
Proof.
  induction repo as [|c r IH]; intros Hne Hc; [contradiction|].
  cbn [forallb] in Hc. apply andb_prop in Hc as [Hc Hr].
  cbn [app GitHub.repoLazy]. rewrite Hc.
  destruct r as [|d r].
  - reflexivity.
  - assert (Hopt : GitHub.optGitEnd ((d :: r) ++ GitHub.DOT_GIT) = false).
    { unfold GitHub.optGitEnd.
      assert (Hn : JS.eqb ((d :: r) ++ GitHub.DOT_GIT) GitHub.DOT_GIT
                   = false).
      { destruct (JS.eqb _ _) eqn:E; [|reflexivity].
        apply eqb_eq in E. apply (f_equal (@length N)) in E.
        rewrite length_app in E. simpl in E. lia. }
      rewrite Hn. reflexivity. }
    rewrite Hopt, IH by (discriminate || exact Hr). reflexivity.
Qed.

Lemma repoLazy_plain (repo : jsstring) :
  repo <> [] -> forallb GitHub.isRepoChar repo = true ->
  endsWith repo GitHub.DOT_GIT = false ->
  GitHub.repoLazy repo = Some repo.
Proof.
  induction repo as [|c r IH]; intros Hne Hc He; [contradiction|].
  cbn [forallb] in Hc. apply andb_prop in Hc as [Hc Hr].
  cbn [GitHub.repoLazy]. rewrite Hc.
  destruct r as [|d r]; [reflexivity|].
  assert (Her : endsWith (d :: r) GitHub.DOT_GIT = false).
  { destruct (endsWith (d :: r) GitHub.DOT_GIT) eqn:E; [|reflexivity].
    rewrite (endsWith_cons c _ _ E) in He. discriminate. }
  assert (Hopt : GitHub.optGitEnd (d :: r) = false).
  { unfold GitHub.optGitEnd.
    destruct (JS.eqb (d :: r) GitHub.DOT_GIT) eqn:E; [|reflexivity].
    apply eqb_eq in E. rewrite E in Her. discriminate. }
  rewrite Hopt, IH by (discriminate || assumption). reflexivity.
Qed.

Lemma repoLazy_sound (s repo : jsstring) :
  GitHub.repoLazy s = Some repo ->
  repo <> [] /\ forallb GitHub.isRepoChar repo = true.
Proof.
  revert repo. induction s as [|c s IH]; intros repo; [discriminate|].
  cbn [GitHub.repoLazy].
  destruct (GitHub.isRepoChar c) eqn:Hc; [|discriminate].
  destruct (GitHub.optGitEnd s).
  - intros H. injection H as <-. split; [discriminate|].
    cbn [forallb]. rewrite Hc. reflexivity.
  - destruct (GitHub.repoLazy s) as [r|]; [|discriminate].
    intros H. injection H as <-. destruct (IH r eq_refl) as [_ Hr].
    split; [discriminate|]. cbn [forallb]. rewrite Hc, Hr. reflexivity.
Qed.

Lemma stripDotGit_app (repo : jsstring) :
  GitHub.stripDotGit (repo ++ GitHub.DOT_GIT) = repo.
Proof.
  unfold GitHub.stripDotGit. rewrite endsWith_app.
  rewrite length_app. change (length GitHub.DOT_GIT) with 4%nat.
  rewrite Nat.add_sub, firstn_app, firstn_all, Nat.sub_diag.
  cbn [firstn]. apply app_nil_r.
Qed.

Lemma forallb_firstn {A} (p : A -> bool) (n : nat) (l : list A) :
  forallb p l = true -> forallb p (firstn n l) = true.
Proof.
  revert n. induction l as [|x l IH]; intros [|n] H; try reflexivity.
  cbn [forallb firstn] in *. apply andb_prop in H as [Hx Hl].
  rewrite Hx, (IH n Hl). reflexivity.
Qed.

Lemma truthy_nonempty (a : jsstring) : a <> [] -> truthy a = true.
Proof. destruct a; [contradiction|reflexivity]. Qed.

Lemma truthy_app_l (a b : jsstring) : a <> [] -> truthy (a ++ b) = true.
Proof. destruct a; [contradiction|reflexivity]. Qed.

(** No URL of a host is of the short form. *)
Lemma shortMatch_https (s : jsstring) :
  GitHub.shortMatch (GitHub.HTTPS_HOST ++ s) = None.
Proof. reflexivity. Qed.

Lemma shortMatch_http (s : jsstring) :
  GitHub.shortMatch (GitHub.HTTP_HOST ++ s) = None.
Proof. reflexivity. Qed.

Lemma shortMatch_ssh (s : jsstring) :
  GitHub.shortMatch (GitHub.SSH_HOST ++ s) = None.
Proof. reflexivity. Qed.

Section WellFormedNames.

Variables owner repo : jsstring.
Hypothesis owner_nonempty : owner <> [].
Hypothesis owner_class : forallb GitHub.isOwnerChar owner = true.
Hypothesis repo_nonempty : repo <> [].
Hypothesis repo_class : forallb GitHub.isRepoChar repo = true.

Lemma parse_short_git :
  GitHub.parseGitHubRepoUrl
    (owner ++ [GitHub.c_slash] ++ repo ++ GitHub.DOT_GIT)
  = Some (GitHub.repoInfo owner repo).
Proof.
  unfold GitHub.parseGitHubRepoUrl, GitHub.shortMatch.
  rewrite truthy_app_l by assumption. cbn [negb].
  cbn [app]. rewrite ownerSlash_run by assumption.
  rewrite truthy_app_l by assumption.
  rewrite forallb_app, repo_class. cbn [andb].
  change (forallb GitHub.isRepoChar GitHub.DOT_GIT) with true. cbv iota.
  rewrite stripDotGit_app. reflexivity.
Qed.

Lemma parse_host_git (host : jsstring) :
  host = GitHub.HTTPS_HOST \/ host = GitHub.HTTP_HOST
  \/ host = GitHub.SSH_HOST ->
  GitHub.parseGitHubRepoUrl
    (host ++ owner ++ [GitHub.c_slash] ++ repo ++ GitHub.DOT_GIT)
  = Some (GitHub.repoInfo owner repo).
Proof.
  intros [-> | [-> | ->]]; unfold GitHub.parseGitHubRepoUrl.
  - rewrite shortMatch_https. unfold GitHub.httpsMatch.
    rewrite afterPrefix_app. unfold GitHub.ownerRepo. cbn [app].
    rewrite ownerSlash_run, repoLazy_dotGit by assumption. reflexivity.
  - rewrite shortMatch_http. unfold GitHub.httpsMatch.
    change (GitHub.afterPrefix GitHub.HTTPS_HOST (GitHub.HTTP_HOST ++ ?x))
      with (@None jsstring).
    cbv iota. rewrite afterPrefix_app. unfold GitHub.ownerRepo. cbn [app].
    rewrite ownerSlash_run, repoLazy_dotGit by assumption. reflexivity.
  - rewrite shortMatch_ssh. unfold GitHub.httpsMatch.
    change (GitHub.afterPrefix GitHub.HTTPS_HOST (GitHub.SSH_HOST ++ ?x))
      with (@None jsstring).
    change (GitHub.afterPrefix GitHub.HTTP_HOST (GitHub.SSH_HOST ++ ?x))
      with (@None jsstring).
    cbv iota. unfold GitHub.ownerRepo at 1. unfold GitHub.sshMatch.
    rewrite afterPrefix_app. unfold GitHub.ownerRepo. cbn [app].
    rewrite ownerSlash_run, repoLazy_dotGit by assumption. reflexivity.
Qed.

Hypothesis repo_plain : endsWith repo GitHub.DOT_GIT = false.

Lemma parse_short_plain :
  GitHub.parseGitHubRepoUrl (owner ++ [GitHub.c_slash] ++ repo)
  = Some (GitHub.repoInfo owner repo).
Proof.
  unfold GitHub.parseGitHubRepoUrl, GitHub.shortMatch.
  rewrite truthy_app_l by assumption. cbn [negb].
  cbn [app]. rewrite ownerSlash_run by assumption.
  rewrite truthy_nonempty by assumption.
  rewrite repo_class. cbn [andb]. cbv iota.
  unfold GitHub.stripDotGit. rewrite repo_plain. reflexivity.
Qed.

Lemma parse_host_plain (host : jsstring) :
  host = GitHub.HTTPS_HOST \/ host = GitHub.HTTP_HOST
  \/ host = GitHub.SSH_HOST ->
  GitHub.parseGitHubRepoUrl (host ++ owner ++ [GitHub.c_slash] ++ repo)
  = Some (GitHub.repoInfo owner repo).
Proof.
  intros [-> | [-> | ->]]; unfold GitHub.parseGitHubRepoUrl.
  - rewrite shortMatch_https. unfold GitHub.httpsMatch.
    rewrite afterPrefix_app. unfold GitHub.ownerRepo. cbn [app].
    rewrite ownerSlash_run, repoLazy_plain by assumption. reflexivity.
  - rewrite shortMatch_http. unfold GitHub.httpsMatch.
    change (GitHub.afterPrefix GitHub.HTTPS_HOST (GitHub.HTTP_HOST ++ ?x))
      with (@None jsstring).
    cbv iota. rewrite afterPrefix_app. unfold GitHub.ownerRepo. cbn [app].
    rewrite ownerSlash_run, repoLazy_plain by assumption. reflexivity.
  - rewrite shortMatch_ssh. unfold GitHub.httpsMatch.
    change (GitHub.afterPrefix GitHub.HTTPS_HOST (GitHub.SSH_HOST ++ ?x))
      with (@None jsstring).
    change (GitHub.afterPrefix GitHub.HTTP_HOST (GitHub.SSH_HOST ++ ?x))
      with (@None jsstring).
    cbv iota. unfold GitHub.ownerRepo at 1. unfold GitHub.sshMatch.
    rewrite afterPrefix_app. unfold GitHub.ownerRepo. cbn [app].
    rewrite ownerSlash_run, repoLazy_plain by assumption. reflexivity.
Qed.

End WellFormedNames.

(** X24. For an owner made of letters, digits, [_] and [-] and a
    repository name made of these and [.] that does not end in [.git],
    every form of the repository URL parses to the same information: the
    short form, the HTTPS and HTTP URLs and the SSH form, each with and
    without the suffix [.git]; so do the three URLs the information
    holds, and any two of them are the same repository. *)
Theorem parseGitHubRepoUrl_forms (owner repo : jsstring) :
  owner <> [] -> forallb GitHub.isOwnerChar owner = true ->
  repo <> [] -> forallb GitHub.isRepoChar repo = true ->
  endsWith repo GitHub.DOT_GIT = false ->
  let info := GitHub.repoInfo owner repo in
  let name := owner ++ [GitHub.c_slash] ++ repo in
  (forall url,
     In url [name; name ++ GitHub.DOT_GIT;
             GitHub.HTTPS_HOST ++ name;
             GitHub.HTTPS_HOST ++ name ++ GitHub.DOT_GIT;
             GitHub.HTTP_HOST ++ name;
             GitHub.HTTP_HOST ++ name ++ GitHub.DOT_GIT;
             GitHub.SSH_HOST ++ name;
             GitHub.SSH_HOST ++ name ++ GitHub.DOT_GIT;
             GitHub.gh_url info; GitHub.gh_cloneUrl info;
             GitHub.gh_sshUrl info] ->
     GitHub.parseGitHubRepoUrl url = Some info
     /\ GitHub.normalizeGitHubRepoUrl url
        = GitHub.buildGitHubRepoUrl owner repo)
  /\ GitHub.isSameGitHubRepo (GitHub.gh_sshUrl info) name = true.
Proof.
  intros Ho Hoc Hr Hrc Hplain info name.
  assert (Hall : forall url,
             In url [name; name ++ GitHub.DOT_GIT;
                     GitHub.HTTPS_HOST ++ name;
                     GitHub.HTTPS_HOST ++ name ++ GitHub.DOT_GIT;
                     GitHub.HTTP_HOST ++ name;
                     GitHub.HTTP_HOST ++ name ++ GitHub.DOT_GIT;
                     GitHub.SSH_HOST ++ name;
                     GitHub.SSH_HOST ++ name ++ GitHub.DOT_GIT;
                     GitHub.gh_url info; GitHub.gh_cloneUrl info;
                     GitHub.gh_sshUrl info] ->
             GitHub.parseGitHubRepoUrl url = Some info).
  { intros url Hin. unfold name in Hin. cbn [In] in Hin.
    rewrite <- !app_assoc in Hin.
    destruct Hin as [<-|[<-|[<-|[<-|[<-|[<-|[<-|[<-|[<-|[<-|[<-|[]]]]]]]]]]]].
    - apply parse_short_plain; assumption.
    - apply parse_short_git; assumption.
    - apply parse_host_plain; auto.
    - apply parse_host_git; auto.
    - apply parse_host_plain; auto.
    - apply parse_host_git; auto.
    - apply parse_host_plain; auto.
    - apply parse_host_git; auto.
    - apply (parse_host_plain owner repo Ho Hoc Hr Hrc Hplain
               GitHub.HTTPS_HOST). auto.
    - apply (parse_host_git owner repo Ho Hoc Hr Hrc GitHub.HTTPS_HOST).
      auto.
    - apply (parse_host_git owner repo Ho Hoc Hr Hrc GitHub.SSH_HOST).
      auto. }
  split.
  - intros url Hin. split; [apply Hall, Hin|].
    unfold GitHub.normalizeGitHubRepoUrl. rewrite (Hall url Hin).
    reflexivity.
  - unfold GitHub.isSameGitHubRepo.
    rewrite (Hall (GitHub.gh_sshUrl info))
      by (cbn [In]; tauto).
    rewrite (Hall name) by (cbn [In]; tauto).
    rewrite !eqb_refl. reflexivity.
Qed.

(** The repository of this program. *)
Lemma parseGitHubRepoUrl_forms_witness :
  GitHub.parseGitHubRepoUrl (u "git@github.com:blowinding/pWork-OS.git")
  = Some (GitHub.repoInfo (u "blowinding") (u "pWork-OS"))
  /\ GitHub.normalizeGitHubRepoUrl (u "git@github.com:blowinding/pWork-OS.git")
     = GitHub.buildGitHubRepoUrl (u "blowinding") (u "pWork-OS").
Proof.
  apply (proj1 (parseGitHubRepoUrl_forms (u "blowinding") (u "pWork-OS")
                  ltac:(discriminate) eq_refl ltac:(discriminate) eq_refl
                  eq_refl)).
  vm_compute. tauto.
Defined.

(** X25. Whatever URL parses, its owner is a non-empty name of the owner
    class and its repository a name of the repository class.  When the
    repository is not empty and does not end in [.git], the normalised URL
    parses to the same information, so that normalising twice is
    normalising once and [linkProjectToGitHub] accepts it. *)
Theorem normalizeGitHubRepoUrl_stable (url : jsstring)
    (info : GitHub.GitHubRepoInfo) :
  GitHub.parseGitHubRepoUrl url = Some info ->
  (info = GitHub.repoInfo (GitHub.gh_owner info) (GitHub.gh_repo info)
   /\ GitHub.gh_owner info <> []
   /\ forallb GitHub.isOwnerChar (GitHub.gh_owner info) = true
   /\ forallb GitHub.isRepoChar (GitHub.gh_repo info) = true)
  /\ (GitHub.gh_repo info <> [] ->
      endsWith (GitHub.gh_repo info) GitHub.DOT_GIT = false ->
      GitHub.parseGitHubRepoUrl (GitHub.normalizeGitHubRepoUrl url)
      = Some info
      /\ GitHub.isValidGitHubRepoUrl (GitHub.normalizeGitHubRepoUrl url)
         = true
      /\ GitHub.normalizeGitHubRepoUrl (GitHub.normalizeGitHubRepoUrl url)
         = GitHub.normalizeGitHubRepoUrl url).
Proof.
  intros Hp.
  assert (Hshape : exists o r,
             info = GitHub.repoInfo o r /\ o <> []
             /\ forallb GitHub.isOwnerChar o = true
             /\ forallb GitHub.isRepoChar r = true).
  { revert Hp. unfold GitHub.parseGitHubRepoUrl.
    destruct (negb (truthy url)); [discriminate|].
    destruct (GitHub.shortMatch url) as [[o T]|] eqn:Hs.
    - intros H. injection H as <-.
      unfold GitHub.shortMatch in Hs.
      destruct (GitHub.ownerSlash url) as [[o' T']|] eqn:Ho; [|discriminate].
      destruct (truthy T' && forallb GitHub.isRepoChar T') eqn:Ht;
        [|discriminate].
      injection Hs as -> ->. apply andb_prop in Ht as [_ Ht].
      apply ownerSlash_sound in Ho as (_ & Hne & Hoc).
      exists o, (GitHub.stripDotGit T). split; [reflexivity|].
      split; [exact Hne|]. split; [exact Hoc|].
      unfold GitHub.stripDotGit.
      destruct (endsWith T GitHub.DOT_GIT); [|exact Ht].
      apply forallb_firstn, Ht.
    - assert (Hor : forall rest o r,
                 GitHub.ownerRepo rest = Some (o, r) ->
                 o <> [] /\ forallb GitHub.isOwnerChar o = true
                 /\ forallb GitHub.isRepoChar r = true).
      { intros rest o r. unfold GitHub.ownerRepo.
        destruct rest as [x|]; [|discriminate].
        destruct (GitHub.ownerSlash x) as [[o' t]|] eqn:Ho; [|discriminate].
        destruct (GitHub.repoLazy t) as [r'|] eqn:Hr; [|discriminate].
        intros H. injection H as -> ->.
        apply ownerSlash_sound in Ho as (_ & Hne & Hoc).
        apply repoLazy_sound in Hr as [_ Hrc]. auto. }
      destruct (GitHub.httpsMatch url) as [[o r]|] eqn:Hh.
      + intros H. injection H as <-. exists o, r.
        split; [reflexivity|]. apply (Hor _ _ _ Hh).
      + destruct (GitHub.sshMatch url) as [[o r]|] eqn:Hssh; [|discriminate].
        intros H. injection H as <-. exists o, r.
        split; [reflexivity|]. apply (Hor _ _ _ Hssh). }
  destruct Hshape as (o & r & -> & Hne & Hoc & Hrc).
  split; [repeat split; assumption|].
  cbn [GitHub.gh_repo GitHub.repoInfo]. intros Hr Hplain.
  assert (Hn : GitHub.normalizeGitHubRepoUrl url
               = GitHub.HTTPS_HOST ++ o ++ [GitHub.c_slash] ++ r)
    by (unfold GitHub.normalizeGitHubRepoUrl; rewrite Hp; reflexivity).
  assert (Hq : GitHub.parseGitHubRepoUrl (GitHub.normalizeGitHubRepoUrl url)
               = Some (GitHub.repoInfo o r)).
  { rewrite Hn. apply parse_host_plain; auto. }
  split; [exact Hq|]. split.
  - unfold GitHub.isValidGitHubRepoUrl. rewrite Hq. reflexivity.
  - unfold GitHub.normalizeGitHubRepoUrl at 1. rewrite Hq. symmetry.
    exact Hn.
Qed.

(** A clone URL. *)
Lemma normalizeGitHubRepoUrl_stable_witness :
  GitHub.normalizeGitHubRepoUrl
    (GitHub.normalizeGitHubRepoUrl (u "https://github.com/rocq/rocq.git"))
  = GitHub.normalizeGitHubRepoUrl (u "https://github.com/rocq/rocq.git").
Proof.
  apply (proj2 (normalizeGitHubRepoUrl_stable
                  (u "https://github.com/rocq/rocq.git")
                  (GitHub.repoInfo (u "rocq") (u "rocq")) eq_refl));
    [discriminate|reflexivity].
Defined.

(* ===================================================================== *)
(** ** The preserved sections after a merge *)
(* ===================================================================== *)

(** The lines of a text after [replaceSection], when the section is opened
    by its first matching line, holds no heading and no matching line,
    and is followed by nothing or by a heading and lines that do not
    match. *)
Lemma replaceSection_lines (content t new : jsstring)
    (pre : list jsstring) (h : jsstring) (interior rest : list jsstring) :
  splitLines content = pre ++ h :: interior ++ rest ->
  forallb (fun l => negb (opensSection t l)) pre = true ->
  opensSection t h = true ->
  forallb (fun l => negb (isHeading l) && negb (opensSection t l)) interior
  = true ->
  match rest with
  | [] => True
  | c :: _ =>
    isHeading c = true
    /\ forallb (fun l => negb (opensSection t l)) rest = true
  end ->
  splitLines (replaceSection content t new)
  = pre ++ [h; []] ++ splitLines new ++ rest.
Proof.
  intros Hlines Hpre Hh Hint Hrest.
  pose proof (splitLines_lines_noNewline content) as Hnl.
  rewrite Hlines in Hnl.
  apply Forall_app in Hnl as [Hnl_pre Hnl].
  apply List.Forall_cons_iff in Hnl as [Hnl_h Hnl].
  apply Forall_app in Hnl as [_ Hnl_rest].
  assert (Hout : replaceLoop t new (splitLines content) false []
                 = pre ++ [h; []; new] ++ rest).
  { rewrite Hlines, (replaceLoop_app_quiet _ _ _ _ _ Hpre).
    rewrite replaceLoop_cons, Hh.
    rewrite (replaceLoop_drop _ _ _ _ _ Hint).
    destruct rest as [|c rest'].
    - simpl. reflexivity.
    - destruct Hrest as [Hc Hq]. cbn [forallb] in Hq.
      apply andb_prop in Hq as [Ho Hq]. apply negb_true_iff in Ho.
      rewrite replaceLoop_close by assumption.
      rewrite (replaceLoop_quiet _ _ _ _ Hq).
      simpl. rewrite <- ?app_assoc. reflexivity. }
  unfold replaceSection. rewrite Hout.
  rewrite splitLines_joinLines by (destruct pre; discriminate).
  rewrite flat_map_app, (flat_map_splitLines_id pre Hnl_pre).
  change (flat_map splitLines ([h; []; new] ++ rest))
    with (splitLines h ++ [[]] ++ splitLines new ++ flat_map splitLines rest).
  rewrite (splitLines_noNewline h Hnl_h), (flat_map_splitLines_id rest Hnl_rest).
  reflexivity.
Qed.

(** What [extractSection] reads from such a text. *)
Lemma extractSection_lines (content t : jsstring)
    (pre : list jsstring) (h : jsstring) (interior rest : list jsstring) :
  splitLines content = pre ++ h :: interior ++ rest ->
  forallb (fun l => negb (opensSection t l)) pre = true ->
  opensSection t h = true ->
  forallb (fun l => negb (isHeading l) && negb (opensSection t l)) interior
  = true ->
  match rest with
  | [] => True
  | c :: _ => isHeading c = true /\ opensSection t c = false
  end ->
  extractSection content t = trim (joinLines interior).
Proof.
  intros Hlines Hpre Hh Hint Hrest.
  unfold extractSection. rewrite Hlines.
  rewrite extractLoop_skip by exact Hpre.
  simpl extractLoop at 1. rewrite Hh.
  rewrite extractLoop_collect by exact Hint.
  destruct rest as [|c rest']; [reflexivity|].
  destruct Hrest as [Hc Ho]. simpl. rewrite Ho, Hc. reflexivity.
Qed.

Lemma quiet_of_clean (t : jsstring) (ls : list jsstring) :
  In t [T_SUMMARY; T_SUMMARY_FULL; T_RISKS; T_PLAN] ->
  cleanLines ls = true ->
  forallb (fun l => negb (opensSection t l)) ls = true.
Proof.
  intros Ht H. pose proof (cleanLines_quiet_full ls H) as H4.
  apply cleanLines_quiet in H as (H1 & H2 & H3).
  cbn [In] in Ht. destruct Ht as [<-|[<-|[<-|[<-|[]]]]]; assumption.
Qed.

Lemma plainLines_clean (ls : list jsstring) :
  plainLines ls = true -> cleanLines ls = true.
Proof.
  unfold plainLines, cleanLines.
  induction ls as [|l ls IH]; [reflexivity|]. cbn [forallb].
  intros H. apply andb_prop in H as [Hl Hls].
  apply andb_prop in Hl as [_ Hl]. rewrite Hl, (IH Hls). reflexivity.
Qed.

Lemma inner_of_plain (t : jsstring) (ls : list jsstring) :
  In t [T_SUMMARY; T_SUMMARY_FULL; T_RISKS; T_PLAN] ->
  plainLines ls = true ->
  forallb (fun l => negb (isHeading l) && negb (opensSection t l)) ls = true.
Proof.
  intros Ht H.
  pose proof (quiet_of_clean t ls Ht (plainLines_clean ls H)) as Hq.
  unfold plainLines in H.
  induction ls as [|l ls IH]; [reflexivity|]. cbn [forallb] in *.
  apply andb_prop in H as [Hl Hls]. apply andb_prop in Hq as [Hq Hqs].
  apply andb_prop in Hl as [Hh _].
  rewrite Hh, Hq, (IH Hls Hqs). reflexivity.
Qed.

Lemma trim_after_newline (s : jsstring) :
  trim (joinLines ([] :: splitLines s)) = trim s.
Proof.
  pose proof (splitLines_not_nil s) as Hne.
  pose proof (joinLines_splitLines s) as Hj.
  destruct (splitLines s) as [|l ls]; [contradiction|].
  rewrite joinLines_cons2, Hj. reflexivity.
Qed.

(** Side conditions on lists built from clean parts and fixed lines. *)
Ltac quiet_lines :=
  repeat first [rewrite forallb_app | progress cbn [forallb]];
  repeat match goal with
  | H : cleanLines ?X = true
    |- context [forallb (fun l => negb (opensSection ?t l)) ?X] =>
    rewrite (quiet_of_clean t X ltac:(cbn [In]; tauto) H)
  end;
  reflexivity.

Section MergedLines.

Variable A : WeeklyAggregation.
Variables TL M : list jsstring.
Hypothesis fresh_lines :
  splitLines (agg_content A)
  = TL ++ [[]; H_SUMMARY; []; []; H_HIGHLIGHTS] ++ M
    ++ [H_RISKS; DASH; []; H_PLAN; DASH; []].
Hypothesis title_clean : cleanLines TL = true.
Hypothesis middle_clean : cleanLines M = true.

Variable existing : jsstring.

Let S := extractSection existing T_SUMMARY.
Let R := extractSection existing T_RISKS.
Let P := extractSection existing T_PLAN.

Hypothesis summary_plain : plainText S = true.
Hypothesis risks_plain : plainText R = true.
Hypothesis plan_plain : plainText P = true.

(** The lines under the three headings after the merge. *)
Let Sb : list jsstring := if truthy S then [] :: splitLines S else [[]; []].
Let Rb : list jsstring :=
  if truthy R && negb (JS.eqb R DASH) then [] :: splitLines R else [DASH; []].
Let Pb : list jsstring :=
  if truthy P && negb (JS.eqb P DASH) then [] :: splitLines P else [DASH; []].

Lemma blocks_plain :
  plainLines Sb = true /\ plainLines Rb = true /\ plainLines Pb = true.
Proof.
  unfold Sb, Rb, Pb. split; [|split].
  - destruct (truthy S); [|reflexivity].
    unfold plainLines. cbn [forallb]. exact summary_plain.
  - destruct (truthy R && negb (JS.eqb R DASH)); [|reflexivity].
    unfold plainLines. cbn [forallb]. exact risks_plain.
  - destruct (truthy P && negb (JS.eqb P DASH)); [|reflexivity].
    unfold plainLines. cbn [forallb]. exact plan_plain.
Qed.

Lemma blocks_read :
  trim (joinLines Sb) = S
  /\ trim (joinLines Rb) = (if truthy R then R else DASH)
  /\ trim (joinLines Pb) = (if truthy P then P else DASH).
Proof.
  assert (HS : trim S = S) by (unfold S, extractSection; apply trim_idem).
  assert (HR : trim R = R) by (unfold R, extractSection; apply trim_idem).
  assert (HP : trim P = P) by (unfold P, extractSection; apply trim_idem).
  unfold Sb, Rb, Pb. split; [|split].
  - destruct (truthy S) eqn:E.
    + rewrite trim_after_newline. exact HS.
    + destruct S; [reflexivity|discriminate].
  - destruct (truthy R) eqn:E; cbn [andb]; [|reflexivity].
    destruct (JS.eqb R DASH) eqn:E2; cbn [negb].
    + apply eqb_eq in E2. rewrite E2. reflexivity.
    + rewrite trim_after_newline. exact HR.
  - destruct (truthy P) eqn:E; cbn [andb]; [|reflexivity].
    destruct (JS.eqb P DASH) eqn:E2; cbn [negb].
    + apply eqb_eq in E2. rewrite E2. reflexivity.
    + rewrite trim_after_newline. exact HP.
Qed.

(** The lines of the merged report. *)
Lemma merged_lines :
  truthy (trim existing) = true ->
  splitLines (mergeWeeklyContent existing A)
  = TL ++ [[]; H_SUMMARY] ++ Sb ++ [H_HIGHLIGHTS] ++ M
    ++ [H_RISKS] ++ Rb ++ [H_PLAN] ++ Pb.
Proof.
  intros Hne. unfold mergeWeeklyContent. rewrite Hne. cbn [negb]. cbv zeta.
  fold S. fold R. fold P.
  destruct blocks_plain as (HSb & HRb & HPb).
  pose proof (plainLines_clean _ HSb) as CSb.
  pose proof (plainLines_clean _ HRb) as CRb.
  (* the pass for the summary *)
  set (c1 := if truthy S && negb (JS.eqb S []) then _ else _).
  assert (H1 : splitLines c1
               = TL ++ [[]; H_SUMMARY] ++ Sb ++ [H_HIGHLIGHTS] ++ M
                 ++ [H_RISKS; DASH; []; H_PLAN; DASH; []]).
  { subst c1. unfold Sb.
    replace (truthy S && negb (JS.eqb S [])) with (truthy S)
      by (destruct S; reflexivity).
    destruct (truthy S).
    - rewrite (replaceSection_lines (agg_content A) T_SUMMARY_FULL S
                 (TL ++ [[]]) H_SUMMARY [[]; []]
                 (H_HIGHLIGHTS :: M
                  ++ [H_RISKS; DASH; []; H_PLAN; DASH; []])).
      + rewrite <- ?app_assoc. reflexivity.
      + rewrite fresh_lines, <- ?app_assoc. reflexivity.
      + quiet_lines.
      + reflexivity.
      + reflexivity.
      + split; [reflexivity|]. quiet_lines.
    - rewrite fresh_lines. reflexivity. }
  clearbody c1.
  (* the pass for the risks *)
  set (c2 := if truthy R && negb (JS.eqb R DASH) then _ else _).
  assert (H2 : splitLines c2
               = TL ++ [[]; H_SUMMARY] ++ Sb ++ [H_HIGHLIGHTS] ++ M
                 ++ [H_RISKS] ++ Rb ++ [H_PLAN; DASH; []]).
  { subst c2. unfold Rb.
    destruct (truthy R && negb (JS.eqb R DASH)).
    - rewrite (replaceSection_lines c1 T_RISKS R
                 (TL ++ [[]; H_SUMMARY] ++ Sb ++ [H_HIGHLIGHTS] ++ M)
                 H_RISKS [DASH; []] [H_PLAN; DASH; []]).
      + rewrite <- ?app_assoc. cbn [app]. rewrite <- ?app_assoc.
        reflexivity.
      + rewrite H1, <- ?app_assoc. cbn [app]. rewrite <- ?app_assoc.
        reflexivity.
      + quiet_lines.
      + reflexivity.
      + reflexivity.
      + split; reflexivity.
    - rewrite H1. reflexivity. }
  clearbody c2.
  (* the pass for the plan *)
  unfold Pb. destruct (truthy P && negb (JS.eqb P DASH)).
  - rewrite (replaceSection_lines c2 T_PLAN P
               (TL ++ [[]; H_SUMMARY] ++ Sb ++ [H_HIGHLIGHTS] ++ M
                ++ [H_RISKS] ++ Rb)
               H_PLAN [DASH; []] []).
    + rewrite <- ?app_assoc. cbn [app]. rewrite <- ?app_assoc, ?app_nil_r.
      reflexivity.
    + rewrite H2, <- ?app_assoc. cbn [app]. rewrite <- ?app_assoc.
      reflexivity.
    + quiet_lines.
    + reflexivity.
    + reflexivity.
    + exact I.
  - rewrite H2. reflexivity.
Qed.

(** What the merge reads back from its own result. *)
Lemma merged_sections :
  truthy (trim existing) = true ->
  extractSection (mergeWeeklyContent existing A) T_SUMMARY = S
  /\ extractSection (mergeWeeklyContent existing A) T_RISKS
     = (if truthy R then R else DASH)
  /\ extractSection (mergeWeeklyContent existing A) T_PLAN
     = (if truthy P then P else DASH).
Proof.
  intros Hne. pose proof (merged_lines Hne) as Hl.
  destruct blocks_plain as (HSb & HRb & HPb).
  pose proof (plainLines_clean _ HSb) as CSb.
  pose proof (plainLines_clean _ HRb) as CRb.
  destruct blocks_read as (RS & RR & RP).
  split; [|split].
  - rewrite <- RS.
    apply (extractSection_lines _ T_SUMMARY (TL ++ [[]]) H_SUMMARY Sb
             ([H_HIGHLIGHTS] ++ M ++ [H_RISKS] ++ Rb ++ [H_PLAN] ++ Pb)).
    + rewrite Hl, <- ?app_assoc. reflexivity.
    + quiet_lines.
    + reflexivity.
    + apply inner_of_plain; [cbn [In]; tauto|exact HSb].
    + split; reflexivity.
  - rewrite <- RR.
    apply (extractSection_lines _ T_RISKS
             (TL ++ [[]; H_SUMMARY] ++ Sb ++ [H_HIGHLIGHTS] ++ M)
             H_RISKS Rb ([H_PLAN] ++ Pb)).
    + rewrite Hl, <- ?app_assoc. cbn [app]. rewrite <- ?app_assoc.
      reflexivity.
    + quiet_lines.
    + reflexivity.
    + apply inner_of_plain; [cbn [In]; tauto|exact HRb].
    + split; reflexivity.
  - rewrite <- RP.
    apply (extractSection_lines _ T_PLAN
             (TL ++ [[]; H_SUMMARY] ++ Sb ++ [H_HIGHLIGHTS] ++ M
              ++ [H_RISKS] ++ Rb)
             H_PLAN Pb []).
    + rewrite Hl, <- ?app_assoc. cbn [app]. rewrite <- ?app_assoc, ?app_nil_r.
      reflexivity.
    + quiet_lines.
    + reflexivity.
    + apply inner_of_plain; [cbn [In]; tauto|exact HPb].
    + exact I.
Qed.

End MergedLines.

(** X26. Regenerating is stable.  For an aggregation whose data is clean
    and a persisted body whose three preserved sections are plain (no line
    of them is a heading or opens a preserved section), the merged report
    gives back, section by section, what the persisted body held: the
    summary as it was, the risks and the plan as they were or the
    placeholder [-] when they were empty.  Merging the merged report with
    the same aggregation once more returns it unchanged. *)
Theorem merge_stable (localeCompare : jsstring -> jsstring -> Z)
    (existing : jsstring) (D : list DailyLog) (w : WeeklyMeta) :
  let A := aggregateDailiesToWeekly localeCompare D w in
  let r := mergeWeeklyContent existing A in
  dataClean A = true ->
  plainText (extractSection existing T_SUMMARY) = true ->
  plainText (extractSection existing T_RISKS) = true ->
  plainText (extractSection existing T_PLAN) = true ->
  extractSection r T_SUMMARY = extractSection existing T_SUMMARY
  /\ extractSection r T_RISKS
     = (if truthy (extractSection existing T_RISKS)
        then extractSection existing T_RISKS else DASH)
  /\ extractSection r T_PLAN
     = (if truthy (extractSection existing T_PLAN)
        then extractSection existing T_PLAN else DASH)
  /\ mergeWeeklyContent r A = r.
Proof.
  intros A r Hclean HS HR HP.
  pose proof (generated_lines w (agg_projects A) (agg_highlights A)
                (agg_dailySummaries A)) as Hl.
  change (generateWeeklyContent w (agg_projects A) (agg_highlights A)
            (agg_dailySummaries A)) with (agg_content A) in Hl.
  destruct (clean_middleLines w (agg_projects A) (agg_highlights A)
              (agg_dailySummaries A) Hclean) as [Ht Hm].
  destruct (generated_sections w (agg_projects A) (agg_highlights A)
              (agg_dailySummaries A) Hclean) as (G1 & G2 & G3).
  change (generateWeeklyContent w (agg_projects A) (agg_highlights A)
            (agg_dailySummaries A)) with (agg_content A) in G1, G2, G3.
  assert (Hfresh : mergeWeeklyContent (agg_content A) A = agg_content A).
  { unfold mergeWeeklyContent.
    destruct (negb (truthy (trim (agg_content A)))); [reflexivity|].
    rewrite G1, G2, G3. reflexivity. }
  destruct (truthy (trim existing)) eqn:Hne.
  - destruct (merged_sections A _ _ Hl Ht Hm existing HS HR HP Hne)
      as (E1 & E2 & E3).
    fold r in E1, E2, E3.
    split; [exact E1|]. split; [exact E2|]. split; [exact E3|].
    assert (Htr : truthy (trim r) = true).
    { destruct (trim r) eqn:Eb; [|reflexivity].
      rewrite (extractSection_blank r T_PLAN Eb) in E3.
      destruct (truthy (extractSection existing T_PLAN)) eqn:Ep.
      - rewrite <- E3 in Ep. discriminate.
      - discriminate. }
    unfold mergeWeeklyContent at 1. rewrite Htr. cbn [negb]. cbv zeta.
    rewrite E1, E2, E3.
    unfold r, mergeWeeklyContent. rewrite Hne. cbn [negb]. cbv zeta.
    destruct (truthy (extractSection existing T_RISKS)) eqn:Er;
      destruct (truthy (extractSection existing T_PLAN)) eqn:Ep;
      rewrite ?Er, ?Ep;
      change (truthy DASH && negb (JS.eqb DASH DASH)) with false;
      cbn [andb]; reflexivity.
  - assert (Hr : r = agg_content A)
      by (unfold r, mergeWeeklyContent; rewrite Hne; reflexivity).
    assert (Hb : trim existing = [])
      by (destruct (trim existing); [reflexivity|discriminate]).
    rewrite !(extractSection_blank existing _ Hb), Hr.
    split; [exact G1|]. split; [exact G2|]. split; [exact G3|].
    exact Hfresh.
Qed.

(** A report in which only a plan was written. *)
Lemma merge_stable_witness :
  let existing := u "## 下周计划
- ship the parser" in
  let w := createDefaultWeeklyMeta (u "2026-W03") (u "2026-01-12")
                                   (u "2026-01-18") in
  let A := aggregateDailiesToWeekly codeUnitCompare [] w in
  let r := mergeWeeklyContent existing A in
  extractSection r T_PLAN = u "- ship the parser"
  /\ mergeWeeklyContent r A = r.
Proof.
  intros existing w A r.
  destruct (merge_stable codeUnitCompare existing [] w)
    as (_ & _ & H3 & H4); try (vm_compute; reflexivity).
  split; [|exact H4]. fold A in H3. fold r in H3. rewrite H3.
  vm_compute. reflexivity.
Defined.

(* ===================================================================== *)
(** ** Input in date order *)
(* ===================================================================== *)

Lemma sortByDate_sorted_input (localeCompare : jsstring -> jsstring -> Z)
    (D : list DailyLog) :
  Sorted (fun a b => (localeCompare (daily_date (dl_meta a))
                                    (daily_date (dl_meta b)) <= 0)%Z) D ->
  sortByDate localeCompare D = D.
Proof.
  induction 1 as [|a D HD IH Ha]; [reflexivity|].
  cbn [sortByDate fold_right]. fold (sortByDate localeCompare D).
  rewrite IH. destruct Ha as [|b rest Hab]; [reflexivity|].
  cbn [sortInsert]. apply Z.leb_le in Hab. rewrite Hab. reflexivity.
Qed.

(** X27. The sort is stable and leaves a sorted input alone: when no daily
    log compares greater than the next one (equal dates included), the
    summaries and the highlights of the aggregation follow the order in
    which the daily logs were given. *)
Theorem aggregate_sorted_input (localeCompare : jsstring -> jsstring -> Z)
    (D : list DailyLog) (w : WeeklyMeta) :
  Sorted (fun a b => (localeCompare (daily_date (dl_meta a))
                                    (daily_date (dl_meta b)) <= 0)%Z) D ->
  let A := aggregateDailiesToWeekly localeCompare D w in
  agg_dailySummaries A = List.map createDailySummary D
  /\ List.map hl_content (agg_highlights A)
     = List.map extractHighlightContent
         (List.filter (fun d => daily_weekly_highlight (dl_meta d)) D)
  /\ A = aggregateSorted D w.
Proof.
  intros HD A. unfold A, aggregateDailiesToWeekly.
  rewrite (sortByDate_sorted_input localeCompare D HD).
  split; [reflexivity|]. split; [|reflexivity].
  unfold aggregateSorted. cbn [agg_highlights]. rewrite List.map_map.
  reflexivity.
Qed.

(** Two daily logs of the same day, given in the order in which they were
    written. *)
Lemma aggregate_sorted_input_witness :
  let d1 := {| dl_meta := createDefaultDailyMeta (u "2026-01-12") (u "2026-W03");
               dl_content := u "morning";
               dl_filePath := u "daily/a.md" |} in
  let d2 := {| dl_meta := createDefaultDailyMeta (u "2026-01-12") (u "2026-W03");
               dl_content := u "evening";
               dl_filePath := u "daily/b.md" |} in
  let w := createDefaultWeeklyMeta (u "2026-W03") (u "2026-01-12")
                                   (u "2026-01-18") in
  agg_dailySummaries (aggregateDailiesToWeekly codeUnitCompare [d1; d2] w)
  = List.map createDailySummary [d1; d2].
Proof.
  intros d1 d2 w.
  apply (proj1 (aggregate_sorted_input codeUnitCompare [d1; d2] w
                  ltac:(repeat constructor; vm_compute; discriminate))).
Defined.

(* ===================================================================== *)
(** ** Instances *)
(* ===================================================================== *)

(** One highlighted daily log with a project. *)
Lemma aggregate_covers_input_witness :
  let d := {| dl_meta :=
                {| daily_date := u "2026-01-12";
                   daily_type := u "daily";
                   daily_week := u "2026-W03";
                   daily_projects := [u "pwork"];
                   daily_tags := [];
                   daily_weekly_highlight := true;
                   daily_github := {| gh_issues := []; gh_prs := [] |} |};
              dl_content := u "shipped";
              dl_filePath := u "daily/2026-01-12.md" |} in
  let w := createDefaultWeeklyMeta (u "2026-W03") (u "2026-01-12")
                                   (u "2026-01-18") in
  length (agg_highlights (aggregateDailiesToWeekly codeUnitCompare [d] w))
  = length (List.filter (fun d => daily_weekly_highlight (dl_meta d)) [d]).
Proof.
  intros d w.
  exact (proj1 (proj2 (proj2 (proj2 (proj2
           (aggregate_covers_input codeUnitCompare [d] w)))))).
Defined.

Lemma aggregate_projects_witness :
  let d := {| dl_meta :=
                {| daily_date := u "2026-01-12";
                   daily_type := u "daily";
                   daily_week := u "2026-W03";
                   daily_projects := [u "pwork"];
                   daily_tags := [];
                   daily_weekly_highlight := true;
                   daily_github := {| gh_issues := []; gh_prs := [] |} |};
              dl_content := u "shipped";
              dl_filePath := u "daily/2026-01-12.md" |} in
  let w := createDefaultWeeklyMeta (u "2026-W03") (u "2026-01-12")
                                   (u "2026-01-18") in
  In (u "pwork") (agg_projects (aggregateDailiesToWeekly codeUnitCompare [d] w)).
Proof.
  intros d w.
  apply (proj1 (proj2 (aggregate_projects codeUnitCompare [d] w))).
  exists d. split; left; reflexivity.
Defined.

(** A daily log whose date the YAML engine has read as a date. *)
Lemma validateDailyMeta_accepts_witness :
  exists meta',
    validateDailyMeta (fun _ => None) (fun _ => u "2026-01-12") (fun _ => [])
      [(u "date", YDate (Some 0%Z)); (u "type", YStr (u "daily"))]
    = Ok meta'.
Proof.
  apply (proj2 (validateDailyMeta_accepts (fun _ => None)
                  (fun _ => u "2026-01-12") (fun _ => [])
                  [(u "date", YDate (Some 0%Z)); (u "type", YStr (u "daily"))])).
  split; [reflexivity|]. right. exists 0%Z. reflexivity.
Defined.
(* ===================================================================== *)
(** ** The merge: the sentence under the Summary and the derived sections *)
(* ===================================================================== *)

Lemma sentence_plain (S : jsstring) :
  sentence S = true -> plainText S = true.
Proof.
  intros Hsent.
  destruct (sentence_facts S Hsent) as (Hne & Hn & Hopen).
  unfold sentence in Hsent.
  apply andb_prop in Hsent as [_ Hh].
  unfold plainText. rewrite (splitLines_noNewline S Hn).
  unfold plainLines. cbn [forallb]. rewrite andb_true_r.
  unfold opensPreserved. rewrite !Hopen. cbn [orb negb]. rewrite andb_true_r.
  destruct S as [|c s]; [contradiction|].
  cbn [startsWith] in Hh. rewrite andb_true_r in Hh.
  apply negb_true_iff in Hh.
  cbn [isHeading]. rewrite N.eqb_sym, Hh. reflexivity.
Qed.

(** C2. Let the persisted body have the sentence [S] under its Summary
    heading (one non-empty line that is not a heading), and let the daily
    logs now hold one dated [date] (2026-01-13 in the specification's
    scenario).  Then the regenerated report contains the sentence, spliced
    in under the generated Summary heading and followed by the Highlights
    heading of the fresh content, and it contains [date].  When moreover
    no line that comes from the data of the week opens a preserved section
    and the Risks and the Plan of the persisted body are plain texts, the
    regenerated report is, line by line, the fresh content with the text
    under the three preserved headings exchanged: the title lines and the
    lines of the derived sections are those of the fresh content, at their
    places. *)
Theorem merge_keeps_summary_and_new_daily
    (localeCompare : jsstring -> jsstring -> Z) (existing : jsstring)
    (D : list DailyLog) (w : WeeklyMeta) (S date : jsstring) (d : DailyLog) :
  extractSection existing T_SUMMARY = S ->
  sentence S = true ->
  In d D ->
  daily_date (dl_meta d) = date ->
  noNewline date = true ->
  let A := aggregateDailiesToWeekly localeCompare D w in
  let r := mergeWeeklyContent existing A in
  let R := extractSection existing T_RISKS in
  let P := extractSection existing T_PLAN in
  let TL := splitLines (T_TITLE_PREFIX ++ weekly_week w ++ T_TITLE_SUFFIX) in
  let M := middleLines (agg_projects A) (agg_highlights A)
                       (agg_dailySummaries A) in
  includes r (joinLines [H_SUMMARY; []; S; H_HIGHLIGHTS]) = true
  /\ includes r S = true
  /\ includes r date = true
  /\ (dataClean A = true ->
      plainText R = true ->
      plainText P = true ->
      splitLines (agg_content A)
      = TL ++ [[]; H_SUMMARY; []; []; H_HIGHLIGHTS] ++ M
        ++ [H_RISKS; DASH; []; H_PLAN; DASH; []]
      /\ splitLines r
         = TL ++ [[]; H_SUMMARY; []; S; H_HIGHLIGHTS] ++ M
           ++ [H_RISKS]
           ++ (if truthy R && negb (JS.eqb R DASH)
               then [] :: splitLines R else [DASH; []])
           ++ [H_PLAN]
           ++ (if truthy P && negb (JS.eqb P DASH)
               then [] :: splitLines P else [DASH; []])).
Proof.
  intros HS Hsent Hd Hdate Hnl A r R P TL M.
  destruct (sentence_facts S Hsent) as (Hne & HnS & _).
  assert (Htruthy : truthy S = true) by (destruct S; [contradiction|reflexivity]).
  assert (Hneq : JS.eqb S [] = false) by (destruct S; [contradiction|reflexivity]).
  assert (Hblank : truthy (trim existing) = true).
  { destruct (trim existing) eqn:Ht; [|reflexivity].
    rewrite (extractSection_blank existing T_SUMMARY Ht) in HS.
    symmetry in HS. contradiction. }
  assert (Hmark : forall rest, isHeading ((H3 ++ date) ++ rest) = true)
    by reflexivity.
  (* the report after the pass for the Summary *)
  assert (Hgen : exists l,
             In l (splitLines (agg_content A))
             /\ startsWith (H3 ++ date) l = true).
  { rewrite <- Hdate.
    apply (generated_has_date_heading w (agg_projects A) (agg_highlights A)
             (agg_dailySummaries A) (createDailySummary d)).
    - apply in_map, sortByDate_In, Hd.
    - simpl. rewrite Hdate. exact Hnl. }
  pose proof (summary_pass_good S Hsent (H3 ++ date) Hmark w
                (agg_projects A) (agg_highlights A) (agg_dailySummaries A)
                Hgen) as H1.
  change (generateWeeklyContent w (agg_projects A) (agg_highlights A)
            (agg_dailySummaries A)) with (agg_content A) in H1.
  assert (Hr : good S (H3 ++ date) (splitLines r)).
  { subst r. unfold mergeWeeklyContent.
    rewrite Hblank, HS, Htruthy, Hneq. cbn [negb andb].
    set (c1 := replaceSection (agg_content A) T_SUMMARY_FULL S) in *.
    fold R. fold P.
    set (b2 := truthy R && negb (JS.eqb R DASH)).
    set (b3 := truthy P && negb (JS.eqb P DASH)).
    assert (H2 : good S (H3 ++ date)
                   (splitLines
                      (if b2 then replaceSection c1 T_RISKS R else c1))).
    { destruct b2; [|exact H1].
      apply other_pass_good;
        [exact Hsent|exact Hmark| | |exact H1]; vm_compute; reflexivity. }
    destruct b3; [|exact H2].
    apply other_pass_good;
      [exact Hsent|exact Hmark| | |exact H2]; vm_compute; reflexivity. }
  destruct (good_includes S (H3 ++ date) r Hr) as (Hb & Hs & Hm).
  split; [exact Hb|]. split; [exact Hs|]. split.
  { apply (includes_trans _ _ _ Hm).
    pose proof (includes_intro H3 date []) as Hi.
    rewrite app_nil_r in Hi. exact Hi. }
  intros Hclean HR HP.
  pose proof (generated_lines w (agg_projects A) (agg_highlights A)
                (agg_dailySummaries A)) as Hl.
  change (generateWeeklyContent w (agg_projects A) (agg_highlights A)
            (agg_dailySummaries A)) with (agg_content A) in Hl.
  fold TL in Hl. fold M in Hl.
  destruct (clean_middleLines w (agg_projects A) (agg_highlights A)
              (agg_dailySummaries A) Hclean) as [Ht Hmid].
  fold TL in Ht. fold M in Hmid.
  split; [exact Hl|].
  assert (HSp : plainText (extractSection existing T_SUMMARY) = true)
    by (rewrite HS; apply sentence_plain, Hsent).
  pose proof (merged_lines A TL M Hl Ht Hmid existing HSp HR HP Hblank) as Hml.
  fold r in Hml. rewrite HS, Htruthy in Hml.
  rewrite (splitLines_noNewline S HnS) in Hml.
  rewrite Hml. rewrite <- ?app_assoc. reflexivity.
Qed.

(** The scenario of the repository's test: a report is generated from the
    daily log of 2026-01-12, the user writes a sentence under the Summary
    heading, the daily log of 2026-01-13 is added, and the report is
    generated again over the edited body as [parseWeekly] reads it back. *)
Lemma merge_keeps_summary_and_new_daily_witness :
  let daily := fun date : jsstring =>
    {| dl_meta := createDefaultDailyMeta date (u "2026-W03");
       dl_content := u "# " ++ date ++ u " Daily Log

## 今日计划
- [ ]

## 今日完成
-

## 项目进展
-

## 问题 / 风险
-

## 备注
-";
       dl_filePath := u "daily/" ++ date ++ u ".md" |} in
  let w := createDefaultWeeklyMeta (u "2026-W03") (u "2026-01-12")
                                   (u "2026-01-18") in
  let S := u "这是手动编辑的总结" in
  let first := aggregateDailiesToWeekly codeUnitCompare
                 [daily (u "2026-01-12")] w in
  let edited :=
    replaceFirst (u "## 本周总结（一句话）

") (u "## 本周总结（一句话）

这是手动编辑的总结
") (agg_content first) in
  let existing := trim edited in
  let A := aggregateDailiesToWeekly codeUnitCompare
             [daily (u "2026-01-12"); daily (u "2026-01-13")] w in
  let r := mergeWeeklyContent existing A in
  let TL := [u "# Week 2026-W03 工作周报"] in
  let M := middleLines (agg_projects A) (agg_highlights A)
                       (agg_dailySummaries A) in
  extractSection existing T_SUMMARY = S
  /\ includes r (joinLines [H_SUMMARY; []; S; H_HIGHLIGHTS]) = true
  /\ includes r S = true
  /\ includes r (u "2026-01-13") = true
  /\ splitLines (agg_content A)
     = TL ++ [[]; H_SUMMARY; []; []; H_HIGHLIGHTS] ++ M
       ++ [H_RISKS; DASH; []; H_PLAN; DASH; []]
  /\ splitLines r
     = TL ++ [[]; H_SUMMARY; []; S; H_HIGHLIGHTS] ++ M
       ++ [H_RISKS; DASH; []; H_PLAN; DASH; []].
Proof.
  intros daily w S first edited existing A r TL M.
  assert (HS : extractSection existing T_SUMMARY = S)
    by (vm_compute; reflexivity).
  destruct (merge_keeps_summary_and_new_daily codeUnitCompare existing
              [daily (u "2026-01-12"); daily (u "2026-01-13")] w S
              (u "2026-01-13") (daily (u "2026-01-13")) HS)
    as (Hb & Hs & Hd & Hfresh).
  - vm_compute. reflexivity.
  - right. left. reflexivity.
  - reflexivity.
  - vm_compute. reflexivity.
  - split; [exact HS|]. split; [exact Hb|]. split; [exact Hs|].
    split; [exact Hd|].
    apply Hfresh.
    + vm_compute. reflexivity.
    + vm_compute. reflexivity.
    + vm_compute. reflexivity.
Defined.

(** The last clause of the specification's statement fails on a
    highlighted daily log whose body holds the line of the Summary heading:
    the highlight carries the line into the Highlights section of the fresh
    report, the merge takes it for the heading of the Summary, writes the
    user's sentence under it and drops the lines of the highlight that
    follow it. *)
Lemma merge_changes_derived_sections : ~ outside_always_fresh.
Proof.
  intros H.
  specialize (H codeUnitCompare
                (u "## 本周总结
kept by the user")
                [{| dl_meta :=
                      {| daily_date := u "2026-01-12";
                         daily_type := u "daily";
                         daily_week := u "2026-W03";
                         daily_projects := [];
                         daily_tags := [];
                         daily_weekly_highlight := true;
                         daily_github := {| gh_issues := []; gh_prs := [] |} |};
                    dl_content := u "## 本周总结（一句话）
notes of the day";
                    dl_filePath := u "daily/2026-01-12.md" |}]
                (createDefaultWeeklyMeta (u "2026-W03") (u "2026-01-12")
                                         (u "2026-01-18"))).
  vm_compute in H. discriminate.
Qed.
